(** * Telegram media extractor bot: model and checked properties

    A shallow embedding of [config.py], [utils.py], [media_extractor.py] and
    the delivery tracker / URL handling of [bot.py].

    Conventions.
    - Python [str] and [bytes] values are [string]s (sequences of 8-bit
      characters); [len] is [Py.len].
    - Library functions whose code is not part of the repository
      ([urllib.parse], [mimetypes], [hashlib], [int], BeautifulSoup, the
      yt-dlp engine, the HTTP session, [tempfile] and the file system, the
      chat platform, [asyncio], the clock) are fields of the interfaces
      [PyLib], [World] and [Telegram]; every theorem holds for all of their
      behaviours.
      The instances of module [Ref] run the model on concrete inputs.
    - Code that raises returns [Raise e]; stateful code threads a state
      that records the temporary files written, the network operations
      issued and the chat API calls made so far.
    - A [dict] is a [gmap] and a [set] a [gset]; where the program
      enumerates one, the properties do not depend on the order. *)

From Stdlib Require Import ZArith Lia Ascii.
From stdpp Require Import gmap strings list pretty.

Local Open Scope Z_scope.

(* ===================================================================== *)
(** ** Python string primitives and [pathlib] *)
(* ===================================================================== *)

Module Py.

(** [c.lower()] on one 8-bit character: only [A]-[Z] change. *)
Definition lower_ascii (c : ascii) : ascii :=
  let n := Ascii.nat_of_ascii c in
  if ((65 <=? n) && (n <=? 90))%nat then Ascii.ascii_of_nat (n + 32) else c.

(** [s.lower()] *)
Fixpoint lower (s : string) : string :=
  match s with
  | EmptyString => EmptyString
  | String c r => String (lower_ascii c) (lower r)
  end.

(** [s.startswith(p)] *)
Definition startswith (s p : string) : bool := String.prefix p s.

(** [sub in s] *)
Fixpoint contains (sub s : string) : bool :=
  String.prefix sub s ||
  match s with
  | EmptyString => false
  | String _ r => contains sub r
  end.

(** [s.endswith(suf)] *)
Definition endswith (s suf : string) : bool :=
  let n := String.length s in
  let m := String.length suf in
  ((m <=? n)%nat && String.eqb (String.substring (n - m) m s) suf).

(** [s[:n]] *)
Definition take (n : nat) (s : string) : string := String.substring 0 n s.

(** [len(s)] *)
Definition len (s : string) : Z := Z.of_nat (String.length s).

(** Truthiness of a string: [bool(s)]. *)
Definition truthy (s : string) : bool :=
  match s with EmptyString => false | _ => true end.

(** [s.split(sep)] for a one-character separator. *)
Fixpoint split (sep : ascii) (s : string) : list string :=
  match s with
  | EmptyString => [EmptyString]
  | String c r =>
      if Ascii.eqb c sep then EmptyString :: split sep r
      else match split sep r with
           | [] => [String c EmptyString]
           | w :: ws => String c w :: ws
           end
  end.

(** [s.rfind(c)]: index of the last occurrence, [None] for Python's -1. *)
Fixpoint rfind (c : ascii) (s : string) : option nat :=
  match s with
  | EmptyString => None
  | String d r =>
      match rfind c r with
      | Some i => Some (S i)
      | None => if Ascii.eqb d c then Some O else None
      end
  end.

(** [s[i:]] *)
Fixpoint drop (i : nat) (s : string) : string :=
  match i, s with
  | O, _ => s
  | S j, EmptyString => EmptyString
  | S j, String _ r => drop j r
  end.

(** [PurePosixPath(p).name]: the last component that is neither empty nor
    a single dot; the empty string when there is none. *)
Definition Path_name (p : string) : string :=
  List.last
    (List.filter (fun x => negb (String.eqb x "" || String.eqb x ".")) (split "/"%char p))
    "".

(** [PurePosixPath(p).suffix]:
    [i = name.rfind('.'); name[i:] if 0 < i < len(name) - 1 else ''] *)
Definition Path_suffix (p : string) : string :=
  let name := Path_name p in
  match rfind "."%char name with
  | Some i =>
      if ((0 <? i) && (i <? String.length name - 1))%nat then drop i name else ""
  | None => ""
  end.

(** [s.strip()]: white space is removed at both ends (the ASCII characters
    for which [str.isspace] holds). *)
Definition is_space (c : ascii) : bool :=
  let n := Ascii.nat_of_ascii c in
  (((9 <=? n) && (n <=? 13)) || ((28 <=? n) && (n <=? 32)))%nat.

Fixpoint lstrip (s : string) : string :=
  match s with
  | EmptyString => EmptyString
  | String c r => if is_space c then lstrip r else s
  end.

Fixpoint rstrip (s : string) : string :=
  match s with
  | EmptyString => EmptyString
  | String c r =>
      match rstrip r with
      | EmptyString => if is_space c then EmptyString else String c EmptyString
      | r' => String c r'
      end
  end.

Definition strip (s : string) : string := rstrip (lstrip s).

(** The character alternatives of the URL pattern of bot.py,
    [[a-zA-Z]|[0-9]|[$-_@.&+]|[!*\\(\\),]|(?:%[0-9a-fA-F][0-9a-fA-F])]:
    the code points 33, 36-95 and 97-122. *)
Definition url_char (c : ascii) : bool :=
  let n := Ascii.nat_of_ascii c in
  ((n =? 33) || ((36 <=? n) && (n <=? 95)) || ((97 <=? n) && (n <=? 122)))%nat.

(** The pattern matches at the head of [s]: [http], an optional [s],
    [://] and at least one more character of the class. *)
Definition url_starts (s : string) : bool :=
  match s with
  | String "h" (String "t" (String "t" (String "p" r))) =>
      match r with
      | String ":" (String "/" (String "/" (String c _))) => url_char c
      | String "s" (String ":" (String "/" (String "/" (String c _)))) =>
          url_char c
      | _ => false
      end
  | _ => false
  end.

(** [re.findall(url_pattern, s)]: the matches from left to right, without
    overlap.  [cur] is the match being extended (most recent character
    first), if any; every character of the pattern's prefix is itself in
    the class, so a match is the longest run of class characters from its
    start. *)
Fixpoint findall_urls_from (cur : option string) (s : string) : list string :=
  match s with
  | EmptyString =>
      match cur with
      | Some m => [String.rev m]
      | None => []
      end
  | String c r =>
      match cur with
      | Some m =>
          if url_char c then findall_urls_from (Some (String c m)) r
          else String.rev m :: findall_urls_from None r
      | None =>
          if url_starts s then findall_urls_from (Some (String c EmptyString)) r
          else findall_urls_from None r
      end
  end.

Definition findall_urls (s : string) : list string :=
  findall_urls_from None s.

End Py.

(* ===================================================================== *)
(** ** config.py *)
(* ===================================================================== *)

Module Config.

(** The size limits and the auto-delete delay.  The program reads them
    from module-level constants; the model takes them as a record so that
    every property is proved for all settings, [config_py] being the
    values of the file. *)
Record t := {
  MAX_PHOTO_SIZE : Z;
  MAX_VIDEO_SIZE : Z;
  MAX_DOCUMENT_SIZE : Z;
  AUTO_DELETE_AFTER_HOURS : Z
}.

Definition config_py : t := {|
  MAX_PHOTO_SIZE := 200 * 1024 * 1024;
  MAX_VIDEO_SIZE := 3 * 1024 * 1024 * 1024;
  MAX_DOCUMENT_SIZE := 3 * 1024 * 1024 * 1024;
  AUTO_DELETE_AFTER_HOURS := 1
|}.

Definition SUPPORTED_IMAGE_FORMATS : gset string :=
  {[ ".jpg"; ".jpeg"; ".png"; ".gif"; ".webp"; ".bmp" ]}.

Definition SUPPORTED_VIDEO_FORMATS : gset string :=
  {[ ".mp4"; ".avi"; ".mov"; ".mkv"; ".webm"; ".m4v" ]}.

End Config.

(* ===================================================================== *)
(** ** Exceptions *)
(* ===================================================================== *)

Inductive Error : Type :=
| InvalidURLFormat            (* ValueError("Invalid URL format") *)
| NoSupportedMediaFound       (* ValueError("No supported media found on this URL") *)
| FileTooLarge (size : Z)     (* ValueError(f"File too large: {size} bytes ...") *)
| FileTooLargeDuringDownload  (* ValueError("File too large during download") *)
| ContentIsHTML               (* ValueError("Downloaded content is HTML, not media") *)
| InvalidLiteral (s : string) (* ValueError raised by int() *)
| UrlparseError (url : string)(* ValueError raised by urlparse() *)
| HTTPError (status : Z)      (* response.raise_for_status() *)
| RequestException            (* the session call or the body stream failed *)
| DownloadError               (* raised by the video engine *)
| VideoTooLarge (size : Z)    (* ValueError(f"Video too large: {size} bytes ...") *)
| TypeError                   (* an order comparison with None *)
| OSError                     (* raised by tempfile or by writing a file *)
| AttributeError              (* an attribute of None is read *)
| TelegramError (image_process_failed : bool). (* raised by a chat API call *)

Inductive Res (A : Type) : Type :=
| Ok (a : A)
| Raise (e : Error).
Arguments Ok {A} a.
Arguments Raise {A} e.

Definition res_bind {A B} (r : Res A) (k : A -> Res B) : Res B :=
  match r with
  | Ok a => k a
  | Raise e => Raise e
  end.

Declare Scope res_scope.
Delimit Scope res_scope with res.
Notation "x <- r ;; k" := (res_bind r (fun x => k))
  (at level 100, r at next level, right associativity) : res_scope.

(* ===================================================================== *)
(** ** utils.py *)
(* ===================================================================== *)

(** The result of [urlparse]; only the fields the program reads. *)
Record ParseResult := {
  scheme : string;
  netloc : string;
  path : string
}.

(** Library functions used by [utils.py] and [media_extractor.py]. *)
Class PyLib := {
  (** [urllib.parse.urlparse]; [None] when it raises [ValueError]. *)
  urlparse : string -> option ParseResult;
  (** [urllib.parse.unquote] *)
  unquote : string -> string;
  (** [urllib.parse.urljoin] *)
  urljoin : string -> string -> string;
  (** [mimetypes.guess_extension] *)
  guess_extension : string -> option string;
  (** [hashlib.md5(s.encode()).hexdigest()] *)
  md5_hexdigest : string -> string;
  (** [int(s)]; [None] when it raises [ValueError]. *)
  py_int : string -> option Z
}.

Module Utils.
Section WithLib.
Context `{PyLib}.
Import Config.

Definition parse (url : string) : Res ParseResult :=
  match urlparse url with
  | Some r => Ok r
  | None => Raise (UrlparseError url)
  end.

Definition get_file_extension_from_url (url : string) : Res string :=
  (parsed_url <- parse url ;;
   let path := unquote (path parsed_url) in
   Ok (Py.lower (Py.Path_suffix path)))%res.

Definition get_file_extension_from_content_type (content_type : option string)
  : option string :=
  match content_type with
  | None => None
  | Some ct =>
      if negb (Py.truthy ct) then None
      else
        match guess_extension (List.hd "" (Py.split ";"%char ct)) with
        | Some extension =>
            if Py.truthy extension then Some (Py.lower extension) else None
        | None => None
        end
  end.

(** The extension both [is_image], [is_video] and [is_supported_media]
    compute first. *)
Definition ext_of (file_path_or_url : string) : Res string :=
  if Py.startswith file_path_or_url "http"
  then get_file_extension_from_url file_path_or_url
  else Ok (Py.lower (Py.Path_suffix file_path_or_url)).

Definition is_supported_media (file_path_or_url : string) : Res bool :=
  (ext <- ext_of file_path_or_url ;;
   Ok (bool_decide (ext ∈ SUPPORTED_IMAGE_FORMATS)
       || bool_decide (ext ∈ SUPPORTED_VIDEO_FORMATS)))%res.

Definition is_image (file_path_or_url : string) : Res bool :=
  (ext <- ext_of file_path_or_url ;;
   Ok (bool_decide (ext ∈ SUPPORTED_IMAGE_FORMATS)))%res.

Definition is_video (file_path_or_url : string) : Res bool :=
  (ext <- ext_of file_path_or_url ;;
   Ok (bool_decide (ext ∈ SUPPORTED_VIDEO_FORMATS)))%res.

(** [suffix = extension if extension and extension.startswith('.')
             else f'.{extension}' if extension else ''] *)
Definition temp_suffix (extension : option string) : string :=
  match extension with
  | Some e =>
      if Py.truthy e && Py.startswith e "." then e
      else if Py.truthy e then "." +:+ e else ""
  | None => ""
  end.

Definition validate_url (url : string) : bool :=
  match urlparse url with
  | Some result => Py.truthy (scheme result) && Py.truthy (netloc result)
  | None => false
  end.

Definition get_filename_from_url (url : string) : Res string :=
  (parsed_url <- parse url ;;
   let path := unquote (path parsed_url) in
   let filename := Py.Path_name path in
   if negb (Py.truthy filename) || negb (Py.contains "." filename)
   then
     let url_hash := Py.take 8 (md5_hexdigest url) in
     Ok ("media_" +:+ url_hash)
   else Ok filename)%res.

End WithLib.
End Utils.

(* ===================================================================== *)
(** ** media_extractor.py: data *)
(* ===================================================================== *)

(** What the program can ask of the outside world. *)
Inductive NetOp : Type :=
| OpHead (url : string)          (* session.head(url) *)
| OpGet (url : string)           (* session.get(url) *)
| OpExtractInfo (url : string)   (* ydl.extract_info(url, download=False) *)
| OpYdlDownload (url : string).  (* ydl_download.download([url]) *)

(** An HTTP response as the program reads it. *)
Record Response := {
  status_code : Z;
  content_length : option string;      (* headers.get('content-length') *)
  header_content_type : option string; (* headers.get('content-type') *)
  chunks : list string;                (* what iter_content yields, in order *)
  stream_fails : bool                  (* the body stream raises after them *)
}.

(** [response.content] *)
Definition body (r : Response) : string :=
  List.fold_right String.append "" (chunks r).

(** A parsed HTML element: BeautifulSoup's [Tag], reduced to what the
    scraper reads.  A document is the list of its tags in document order. *)
Record Tag := {
  tag_name : string;
  attrs : list (string * string);
  tag_string : option string           (* tag.string *)
}.

(** One rendition ("format") as described by the video engine.  For the
    two sizes [None] stands for a key that is absent or holds [None]: line
    184 reads both the same way.  For ['quality'] the two differ: [None]
    is an absent key, [Some None] a key that holds [None]. *)
Record Format := {
  filesize : option Z;
  filesize_approx : option Z;
  quality : option (option Z)
}.

Record Video := {
  formats : list Format;               (* info.get('formats', []) *)
  video_title : option string
}.

(** The engine's answer: one video, or a collection ('entries' in info). *)
Inductive Info : Type :=
| Single (v : Video)
| Playlist (entries : list Video).

Record DirEntry := {
  entry_name : string;
  entry_is_file : bool;                (* os.path.isfile *)
  entry_size : Z                       (* os.path.getsize *)
}.

Inductive MediaType : Type := image | video | document.

(** The dictionary returned for each piece of media; the fields are its
    keys ['file_path'], ['filename'], ['size'], ['type'], ['url'],
    ['content_type'] and ['title']. *)
Record MediaInfo := {
  mi_file_path : string;
  mi_filename : string;
  mi_size : Z;
  mi_type : MediaType;
  mi_url : string;
  mi_content_type : option string;
  mi_title : option string
}.

(** What becomes of a temporary file that [create_temp_file] creates and
    writes. *)
Inductive TempOutcome : Type :=
| TempWritten                (* the file holds the content *)
| TempNotCreated             (* NamedTemporaryFile raises: there is no file *)
| TempWriteFails (n : nat).  (* write or close raises; n bytes are in the file *)

(** The network, the file system and the remaining libraries.  Every
    request sees the list of operations issued before it, so a server may
    answer the same URL differently each time. *)
Class World := {
  session_head : list NetOp -> string -> option Response;
  session_get : list NetOp -> string -> option Response;
  (** the name [tempfile.NamedTemporaryFile(delete=False, suffix=...)] picks,
      given the files written so far *)
  temp_name : list (string * string) -> string -> string;
  (** what happens when the file of that name is created and the content
      written to it, given the files written so far *)
  temp_write : list (string * string) -> string -> string -> TempOutcome;
  (** does [os.unlink] of the path raise, given the files present *)
  unlink_fails : list (string * string) -> string -> bool;
  (** [tempfile.mkdtemp()] *)
  mkdtemp : list NetOp -> string;
  (** [BeautifulSoup(content, 'html.parser')] *)
  BeautifulSoup : string -> list Tag;
  (** [re.findall] with the image-URL pattern of the image-search branch *)
  findall_image_urls : string -> list string;
  (** [list(s)] for a set: some enumeration of its elements *)
  list_of_set : gset string -> list string;
  list_of_set_perm : forall s, list_of_set s ≡ₚ elements s;
  (** [None]: the engine raises; [Some None]: it returns nothing *)
  ydl_extract_info : list NetOp -> string -> option (option Info);
  (** the entries of the download directory afterwards; [None]: it raises *)
  ydl_download : list NetOp -> string -> string -> option (list DirEntry)
}.

(** What the extractor has done so far. *)
Record State := {
  temp_files : list (string * string);  (* path and content, oldest first *)
  net_log : list NetOp
}.

(** Code that reads and changes a state [S] and may raise. *)
Definition ST (S A : Type) : Type := S -> Res A * S.

Definition ret {S A} (a : A) : ST S A := fun st => (Ok a, st).

Definition raise {S A} (e : Error) : ST S A := fun st => (Raise e, st).

Definition bind {S A B} (m : ST S A) (k : A -> ST S B) : ST S B :=
  fun st =>
    match m st with
    | (Ok a, st') => k a st'
    | (Raise e, st') => (Raise e, st')
    end.

Definition lift {S A} (r : Res A) : ST S A := fun st => (r, st).

(** [try: m except Exception as e: h e] *)
Definition try_except {S A} (m : ST S A) (h : Error -> ST S A) : ST S A :=
  fun st =>
    match m st with
    | (Ok a, st') => (Ok a, st')
    | (Raise e, st') => h e st'
    end.

(** The extractor's code. *)
Abbreviation M := (ST State).

(** Record a network operation; yields the history before it. *)
Definition issue (op : NetOp) : M (list NetOp) :=
  fun st =>
    (Ok (net_log st),
     {| temp_files := temp_files st; net_log := net_log st ++ [op] |}).

Declare Scope M_scope.
Delimit Scope M_scope with M.
Notation "x <- m ;; k" := (bind m (fun x => k))
  (at level 100, m at next level, right associativity) : M_scope.

(** The state after the request for [url] has been issued. *)
Definition requested (url : string) (st : State) : State :=
  {| temp_files := temp_files st; net_log := net_log st ++ [OpGet url] |}.

(** The state after [content] has been written to [temp_path]. *)
Definition written (temp_path content : string) (st : State) : State :=
  {| temp_files := temp_files st ++ [(temp_path, content)];
     net_log := net_log st |}.

(** The lower-cased content type of line 107. *)
Definition content_type_of (response : Response) : string :=
  Py.lower (default "" (header_content_type response)).

(* ===================================================================== *)
(** ** media_extractor.py: the Direct Fetcher *)
(* ===================================================================== *)

Module MediaExtractor.
Section WithWorld.
Context `{PyLib} `{World} (cfg : Config.t).
Import Config Utils.

(** [response.raise_for_status()] *)
Definition raise_for_status (response : Response) : Res unit :=
  if (400 <=? status_code response) && (status_code response <? 600)
  then Raise (HTTPError (status_code response))
  else Ok tt.

(** [session.get(url, ..., stream=True)]: headers only, the body is read
    later through [iter_content]. *)
Definition session_get_stream (url : string) : M Response :=
  (history <- issue (OpGet url) ;;
   match session_get history url with
   | Some response => ret response
   | None => raise RequestException
   end)%M.

(** [session.get(url, ...)] without [stream]: the body is read at once. *)
Definition session_get_content (url : string) : M Response :=
  (response <- session_get_stream url ;;
   if stream_fails response then raise RequestException else ret response)%M.

(** Lines 89-93: the declared length, when there is one. *)
Definition check_content_length (response : Response) : Res unit :=
  match content_length response with
  | Some cl =>
      if Py.truthy cl then
        match py_int cl with
        | Some size =>
            if MAX_DOCUMENT_SIZE cfg <? size
            then Raise (FileTooLarge size)
            else Ok tt
        | None => Raise (InvalidLiteral cl)
        end
      else Ok tt
  | None => Ok tt
  end.

(** Line 97:
    [get_file_extension_from_content_type(ct) or get_file_extension_from_url(url)] *)
Definition guess_ext (response : Response) (url : string) : Res string :=
  match get_file_extension_from_content_type (header_content_type response) with
  | Some e => if Py.truthy e then Ok e else get_file_extension_from_url url
  | None => get_file_extension_from_url url
  end.

(** Lines 100-104: the loop over [response.iter_content]; [content] is the
    body accumulated so far. *)
Fixpoint read_body (chunks : list string) (fails : bool) (content : string)
  : Res string :=
  match chunks with
  | [] => if fails then Raise RequestException else Ok content
  | chunk :: rest =>
      let content := content +:+ chunk in
      if MAX_DOCUMENT_SIZE cfg <? Py.len content
      then Raise FileTooLargeDuringDownload
      else read_body rest fails content
  end.

(** Line 108: the test that the download is an HTML document;
    [content_type] is already lower-cased. *)
Definition looks_like_html (content_type content : string) : bool :=
  Py.startswith content_type "text/html"
  || Py.contains "<html" (Py.lower (Py.take 1000 content)).

(** Lines 115-125 *)
Definition image_ext (content_type ext : string) : string :=
  if Py.startswith content_type "image/" then
    if Py.contains "jpeg" content_type || Py.contains "jpg" content_type then ".jpg"
    else if Py.contains "png" content_type then ".png"
    else if Py.contains "gif" content_type then ".gif"
    else if Py.contains "webp" content_type then ".webp"
    else ".jpg"
  else ext.

(** [create_temp_file(content, extension)] of utils.py.  The file is
    created with [delete=False]: when writing it fails the exception
    leaves the function and the file stays, with what was written. *)
Definition create_temp_file (content : string) (extension : option string)
  : M string :=
  fun st =>
    let suffix := temp_suffix extension in
    let name := temp_name (temp_files st) suffix in
    match temp_write (temp_files st) name content with
    | TempWritten => (Ok name, written name content st)
    | TempNotCreated => (Raise OSError, st)
    | TempWriteFails n => (Raise OSError, written name (Py.take n content) st)
    end.

(** [a or b] where [b] may raise and is evaluated only when [a] is false *)
Definition or_else (a : bool) (b : Res bool) : Res bool :=
  if a then Ok true else b.

(** [any(name.lower().endswith(e) for e in exts)] *)
Definition any_endswith (name : string) (exts : list string) : bool :=
  List.existsb (fun e => Py.endswith (Py.lower name) e) exts.

(** Lines 130-140 *)
Definition classify (content_type temp_path url filename : string)
  : Res MediaType :=
  (is_image_type <-
     or_else (Py.startswith content_type "image/")
       (b <- is_image temp_path ;;
        or_else b
          (b <- is_image url ;;
           or_else b
             (Ok (any_endswith filename
                    [".jpg"; ".jpeg"; ".png"; ".gif"; ".webp"; ".bmp"])))) ;;
   is_video_type <-
     or_else (Py.startswith content_type "video/")
       (b <- is_video temp_path ;;
        or_else b
          (b <- is_video url ;;
           or_else b
             (Ok (any_endswith filename
                    [".mp4"; ".avi"; ".mov"; ".mkv"; ".webm"; ".m4v"])))) ;;
   Ok (if is_image_type then image
       else if is_video_type then video
       else document))%res.

(** Lines 86-97: everything between the request and the body loop. *)
Definition before_body (response : Response) (url : string) : Res string :=
  (_ <- raise_for_status response ;;
   _ <- check_content_length response ;;
   guess_ext response url)%res.

(** Lines 106-152: everything after the body loop. *)
Definition after_body (response : Response) (url ext content : string)
  : M (list MediaInfo) :=
  (let content_type := Py.lower (default "" (header_content_type response)) in
   if looks_like_html content_type content then raise ContentIsHTML
   else
     filename <- lift (get_filename_from_url url) ;;
     let ext := image_ext content_type ext in
     temp_path <- create_temp_file content (Some ext) ;;
     media_type <- lift (classify content_type temp_path url filename) ;;
     ret [ {| mi_file_path := temp_path;
              mi_filename := filename;
              mi_size := Py.len content;
              mi_type := media_type;
              mi_url := url;
              mi_content_type := Some content_type;
              mi_title := None |} ])%M.

(** [_download_direct_media]; its [except] clause logs and re-raises. *)
Definition _download_direct_media (url : string) : M (list MediaInfo) :=
  (response <- session_get_stream url ;;
   ext <- lift (before_body response url) ;;
   content <- lift (read_body (chunks response) (stream_fails response) "") ;;
   after_body response url ext content)%M.

(* --------------------------------------------------------------------- *)
(** *** The URL classifier *)

(** [_check_content_type]: a header-only probe; any failure means "no". *)
Definition _check_content_type (url : string) : M bool :=
  try_except
    (history <- issue (OpHead url) ;;
     match session_head history url with
     | Some response =>
         let content_type :=
           Py.lower (default "" (header_content_type response)) in
         ret (Py.startswith content_type "image/"
              || Py.startswith content_type "video/"
              || Py.contains "image" content_type
              || Py.contains "video" content_type)
     | None => raise RequestException
     end)%M
    (fun _ => ret false).

Definition _is_direct_media_url (url : string) : M bool :=
  (ext <- lift (get_file_extension_from_url url) ;;
   supported <- lift (is_supported_media url) ;;
   if supported then ret true else _check_content_type url)%M.

(* --------------------------------------------------------------------- *)
(** *** The Platform Extractor *)

(** [fmt.get('filesize') or fmt.get('filesize_approx', 0)] *)
Definition format_size (fmt : Format) : option Z :=
  match filesize fmt with
  | Some n => if n =? 0 then filesize_approx fmt else Some n
  | None => filesize_approx fmt
  end.

(** [filesize and filesize <= MAX_VIDEO_SIZE] *)
Definition within_budget (fmt : Format) : bool :=
  match format_size fmt with
  | Some n => negb (n =? 0) && (n <=? MAX_VIDEO_SIZE cfg)
  | None => false
  end.

(** [fmt.get('quality', 0)]: the default is used for an absent key only;
    the result [None] is Python's [None]. *)
Definition quality_of (fmt : Format) : option Z :=
  match quality fmt with
  | None => Some 0
  | Some value => value
  end.

(** [a > b] on what [quality_of] yields: numbers are compared, [None] on
    either side raises [TypeError]. *)
Definition py_gt (a b : option Z) : Res bool :=
  match a, b with
  | Some x, Some y => Ok (y <? x)
  | _, _ => Raise TypeError
  end.

(** Lines 182-187: the loop that looks for the best rendition in budget.
    The qualities are compared only once a rendition is held. *)
Fixpoint best_in_budget (formats : list Format) (best_format : option Format)
  : Res (option Format) :=
  match formats with
  | [] => Ok best_format
  | fmt :: rest =>
      if within_budget fmt then
        match best_format with
        | None => best_in_budget rest (Some fmt)
        | Some b =>
            (better <- py_gt (quality_of fmt) (quality_of b) ;;
             if better then best_in_budget rest (Some fmt)
             else best_in_budget rest best_format)%res
        end
      else best_in_budget rest best_format
  end.

(** Lines 181-191: the rendition the extractor settles on. *)
Definition select_format (formats : list Format) : Res (option Format) :=
  (best_format <- best_in_budget formats None ;;
   match best_format with
   | Some b => Ok (Some b)
   | None => Ok (List.head formats)
   end)%res.

(** Lines 203-217: the descriptors for the files the engine left behind. *)
Fixpoint downloaded_files (temp_dir url : string) (title : option string)
    (files : list DirEntry) : Res (list MediaInfo) :=
  match files with
  | [] => Ok []
  | file :: rest =>
      let file_path := temp_dir +:+ "/" +:+ entry_name file in
      (keep <- (if entry_is_file file then is_supported_media file_path
                else Ok false) ;;
       if keep then
         is_vid <- is_video file_path ;;
         tl <- downloaded_files temp_dir url title rest ;;
         Ok ({| mi_file_path := file_path;
                mi_filename := entry_name file;
                mi_size := entry_size file;
                mi_type := if is_vid then video else image;
                mi_url := url;
                mi_content_type := None;
                mi_title := Some (default "Unknown" title) |} :: tl)
       else downloaded_files temp_dir url title rest)%res
  end.

(** Lines 193-223: download once a rendition has been settled on. *)
Definition ydl_fetch (url : string) (info : Video)
  : M (option (list MediaInfo)) :=
  (history <- issue (OpYdlDownload url) ;;
   let temp_dir := mkdtemp history in
   match ydl_download history url temp_dir with
   | None => raise DownloadError
   | Some files =>
       found <- lift (downloaded_files temp_dir url (video_title info) files) ;;
       match found with
       | [] => ret None
       | _ => ret (Some found)
       end
   end)%M.

(** [_extract_with_ytdlp]: every exception becomes [None]. *)
Definition _extract_with_ytdlp (url : string) : M (option (list MediaInfo)) :=
  try_except
    (history <- issue (OpExtractInfo url) ;;
     match ydl_extract_info history url with
     | None => raise DownloadError
     | Some None => ret None
     | Some (Some info) =>
         let first :=
           match info with
           | Single v => Some v
           | Playlist entries => List.head entries
           end in
         match first with
         | None => ret None
         | Some info =>
             match formats info with
             | [] => ret None
             | _ =>
                 best_format <- lift (select_format (formats info)) ;;
                 match best_format with
                 | Some best_format => ydl_fetch url info
                 | None => ret None
                 end
             end
         end
     end)%M
    (fun _ => ret None).

(* --------------------------------------------------------------------- *)
(** *** The Page Scraper *)

(** [tag.get(key)] *)
Fixpoint get_attr (l : list (string * string)) (key : string) : option string :=
  match l with
  | [] => None
  | (k, v) :: rest => if String.eqb k key then Some v else get_attr rest key
  end.

(** [soup.find_all(name)] *)
Definition find_all (soup : list Tag) (name : string) : list Tag :=
  List.filter (fun t => String.eqb (tag_name t) name) soup.

(** [soup.find_all(name, attrs={key: True})] *)
Definition find_all_with (soup : list Tag) (name key : string) : list Tag :=
  List.filter
    (fun t => String.eqb (tag_name t) name
              && bool_decide (is_Some (get_attr (attrs t) key)))
    soup.

(** [soup.find('meta', property='og:image')] *)
Definition find_og_image (soup : list Tag) : option Tag :=
  List.find
    (fun t => String.eqb (tag_name t) "meta"
              && bool_decide (get_attr (attrs t) "property" = Some "og:image"))
    soup.

(** Lines 247-251: the matches of one script. *)
Fixpoint add_matches (matches : list string) (media_urls : gset string)
  : gset string :=
  match matches with
  | [] => media_urls
  | m :: rest =>
      if Py.contains "googleusercontent.com" m || Py.contains "wikimedia.org" m
      then
        let media_urls := {[ m ]} ∪ media_urls in
        if (3 <=? size media_urls)%nat then media_urls
        else add_matches rest media_urls
      else add_matches rest media_urls
  end.

(** Lines 242-253: the scripts of an image-search page. *)
Fixpoint scan_scripts (scripts : list Tag) (media_urls : gset string)
  : gset string :=
  match scripts with
  | [] => media_urls
  | script :: rest =>
      match tag_string script with
      | Some s =>
          if Py.truthy s then
            let media_urls := add_matches (findall_image_urls s) media_urls in
            if (3 <=? size media_urls)%nat then media_urls
            else scan_scripts rest media_urls
          else scan_scripts rest media_urls
      | None => scan_scripts rest media_urls
      end
  end.

(** Lines 261-269: an image whose declared width or height is below 100. *)
Definition is_small (width height : option string) : bool :=
  match width, height with
  | Some w, Some h =>
      if Py.truthy w && Py.truthy h then
        match py_int w with
        | Some w =>
            match py_int h with
            | Some h => (w <? 100) || (h <? 100)
            | None => false
            end
        | None => false
        end
      else false
  | _, _ => false
  end.

(** One round of the loops of lines 256-304: resolve the attribute [key]
    of [tag] against the page and keep it when [keep] accepts it. *)
Definition add_candidate (url key : string) (skip : Tag -> bool)
    (keep : string -> Res bool) (tag : Tag) (media_urls : gset string)
  : Res (gset string) :=
  match get_attr (attrs tag) key with
  | Some src =>
      if Py.truthy src then
        let media_url := urljoin url src in
        if skip tag then Ok media_urls
        else
          (ok <- keep media_url ;;
           Ok (if ok then {[ media_url ]} ∪ media_urls else media_urls))%res
      else Ok media_urls
  | None => Ok media_urls
  end.

Fixpoint add_candidates (url key : string) (skip : Tag -> bool)
    (keep : string -> Res bool) (tags : list Tag) (media_urls : gset string)
  : Res (gset string) :=
  match tags with
  | [] => Ok media_urls
  | tag :: rest =>
      (media_urls <- add_candidate url key skip keep tag media_urls ;;
       add_candidates url key skip keep rest media_urls)%res
  end.

(** Lines 236-313: the set of candidate URLs of a page. *)
Definition collect_media_urls (url : string) (soup : list Tag)
  : Res (gset string) :=
  (let media_urls : gset string := ∅ in
   let media_urls :=
     if Py.contains "google.com" url && Py.contains "tbm=isch" url
     then scan_scripts (find_all soup "script") media_urls
     else media_urls in
   media_urls <-
     add_candidates url "src"
       (fun img => is_small (get_attr (attrs img) "width")
                            (get_attr (attrs img) "height"))
       (fun img_url =>
          ok <- is_supported_media img_url ;;
          Ok (ok && negb (Py.contains "data:image" img_url)))
       (find_all_with soup "img" "src") media_urls ;;
   media_urls <-
     add_candidates url "data-src" (fun _ => false) is_supported_media
       (find_all_with soup "img" "data-src") media_urls ;;
   media_urls <-
     add_candidates url "src" (fun _ => false) is_supported_media
       (find_all_with soup "video" "src") media_urls ;;
   media_urls <-
     add_candidates url "src" (fun _ => false) is_supported_media
       (find_all_with soup "source" "src") media_urls ;;
   media_urls <-
     add_candidates url "href" (fun _ => false) is_supported_media
       (find_all_with soup "a" "href") media_urls ;;
   match find_og_image soup with
   | Some og_image =>
       add_candidate url "content" (fun _ => false) is_supported_media
         og_image media_urls
   | None => Ok media_urls
   end)%res.

(** Lines 316-323: download the candidates one by one; a failure skips
    the candidate. *)
Fixpoint download_each (media_urls : list string)
    (downloaded_media : list MediaInfo) : M (list MediaInfo) :=
  match media_urls with
  | [] => ret downloaded_media
  | media_url :: rest =>
      (downloaded_media <-
         try_except
           (media_files <- _download_direct_media media_url ;;
            ret (downloaded_media ++ media_files))
           (fun _ => ret downloaded_media) ;;
       download_each rest downloaded_media)%M
  end.

(** [_scrape_media_from_page]: every exception is logged and becomes
    [None] (lines 331-333). *)
Definition _scrape_media_from_page (url : string)
  : M (option (list MediaInfo)) :=
  try_except
    (response <- session_get_content url ;;
     _ <- lift (raise_for_status response) ;;
     let soup := BeautifulSoup (body response) in
     media_urls <- lift (collect_media_urls url soup) ;;
     downloaded_media <-
       download_each (List.firstn 5 (list_of_set media_urls)) [] ;;
     match downloaded_media with
     | [] => ret None
     | _ => ret (Some downloaded_media)
     end)%M
    (fun _ => ret None).

(** The page fetch failed: the request raised, the body could not be read,
    or the status is an error status. *)
Definition page_fetch_fails (url : string) (st : State) : Prop :=
  match session_get (net_log st) url with
  | None => True
  | Some response =>
      stream_fails response = true
      \/ exists e, raise_for_status response = Raise e
  end.

(* --------------------------------------------------------------------- *)
(** *** The entry point *)

(** [extract_media_from_url]; its [except] clause logs and re-raises. *)
Definition extract_media_from_url (url : string) : M (list MediaInfo) :=
  if negb (validate_url url) then raise InvalidURLFormat
  else
    (direct <- _is_direct_media_url url ;;
     if direct then _download_direct_media url
     else
       media_files <- _extract_with_ytdlp url ;;
       match media_files with
       | Some (f :: fs) => ret (f :: fs)
       | _ =>
           media_files <- _scrape_media_from_page url ;;
           match media_files with
           | Some (f :: fs) => ret (f :: fs)
           | _ => raise NoSupportedMediaFound
           end
       end)%M.

End WithWorld.
End MediaExtractor.

(* ===================================================================== *)
(** ** bot.py: data *)
(* ===================================================================== *)

(** One row of [self.sent_messages].  Time stamps are numbers of seconds;
    the program only subtracts and compares them.  [warned = false] also
    stands for a row without the ['warned'] key. *)
Record Entry := {
  chat_id : Z;
  message_id : Z;
  sent_time : Z;
  entry_filename : string;
  warned : bool
}.

(** The coroutines handed to [asyncio.create_task] by the sweep. *)
Inductive Task : Type :=
| WarningTask (c : Z) (filename : string)  (* _send_deletion_warning *)
| DeleteTask (c m : Z).                    (* _delete_message *)

(** The texts the bot answers with, by template. *)
Inductive Reply : Type :=
| NoValidUrls
| Processing (url : string)
| NoMediaAt (url : string)
| Found (n : nat)
| SentFrom (n : nat) (url : string)
| FailedToSend (url : string)
| ErrorProcessing (url : string) (e : Error)
| DeletionWarning (filename : string).

(** Calls of the chat platform's API. *)
Inductive ChatOp : Type :=
| ReplyText (r : Reply)                     (* update.message.reply_text *)
| EditText (r : Reply)                      (* processing_msg.edit_text *)
| SendPhoto (c : Z) (file_path : string)
| SendVideo (c : Z) (file_path : string)
| SendDocument (c : Z) (file_path filename : string)
| SendMessage (c : Z) (r : Reply)
| DeleteMessage (c m : Z).

Inductive ApiResult : Type :=
| Sent (m : Z)                              (* the identifier of the message *)
| Failed (image_process_failed : bool).     (* TelegramError *)

(** The chat platform, the event loop, the clock and PIL. *)
Class Telegram := {
  (** the outcome of an API call, given the calls made before it *)
  api : list ChatOp -> ChatOp -> ApiResult;
  (** does [asyncio.create_task] return (or raise), given the tasks
      created before *)
  create_task : list (string * Task) -> Task -> bool;
  (** [time.time()] *)
  time : list ChatOp -> Z;
  (** [_validate_image]: PIL opens and verifies the file *)
  validate_image : string -> bool
}.

(** The bot: the tracking table, the tasks created so far (each with the
    key of the row it was created for), the API calls made so far and the
    state of the extractor. *)
Record Bot := {
  sent_messages : gmap string Entry;
  tasks : list (string * Task);
  chat : list ChatOp;
  extractor : State
}.

(** The update handed to a handler, as the handlers read it.  The text
    handler is registered for every kind of update that carries a text
    (lines 116-118), and the bot polls for all kinds (lines 393-394): for an
    edited message or a channel post [update.message] is [None], and a
    channel post has no [effective_user]. *)
Record Update := {
  effective_user : option Z;           (* update.effective_user, by its id *)
  effective_chat : option Z;           (* update.effective_chat, by its id *)
  message : option string              (* update.message, by its text *)
}.

(** The worker is the target of a plain [threading.Thread] (lines 83-85).
    No event loop runs in that thread, so every [asyncio.create_task] of
    the sweep raises [RuntimeError]. *)
Definition no_running_loop `{Telegram} : Prop :=
  forall created task, create_task created task = false.

Definition set_warned (e : Entry) : Entry :=
  {| chat_id := chat_id e; message_id := message_id e;
     sent_time := sent_time e; entry_filename := entry_filename e;
     warned := true |}.

(** Is this the creation of a warning task for the row [key]? *)
Definition is_warning_for (key : string) (kt : string * Task) : bool :=
  String.eqb kt.1 key
  && match kt.2 with WarningTask _ _ => true | DeleteTask _ _ => false end.

(** The number of warning tasks created for the row [key]. *)
Definition warnings (key : string) (b : Bot) : nat :=
  length (List.filter (is_warning_for key) (tasks b)).

(** The row [key] is tracked and its flag is not set. *)
Definition unwarned (key : string) (b : Bot) : Prop :=
  exists e, sent_messages b !! key = Some e /\ warned e = false.

(** The URLs whose processing was announced, in order. *)
Definition started (ops : list ChatOp) : list string :=
  omap (fun op =>
          match op with
          | ReplyText (Processing url) => Some url
          | _ => None
          end) ops.

(** Code that announces no processing: it only adds calls to the chat log,
    none of them a "Processing URL" reply. *)
Definition quiet {A} (m : ST Bot A) : Prop :=
  forall b, exists ops, chat (m b).2 = chat b ++ ops /\ started ops = [].

(* ===================================================================== *)
(** ** bot.py: the Delivery Tracker *)
(* ===================================================================== *)

Module Tracker.
Section WithTelegram.
Context `{Telegram} (cfg : Config.t).
Import Config.

Definition delete_threshold : Z := AUTO_DELETE_AFTER_HOURS cfg * 3600.

Definition warn_threshold : Z := delete_threshold - 300.

(** Lines 40-41 *)
Definition expired (current_time : Z) (message_info : Entry) : bool :=
  delete_threshold <? current_time - sent_time message_info.

(** Lines 38-42; the rows are visited in the order of [map_to_list]. *)
Definition messages_to_delete (current_time : Z) (m : gmap string Entry)
  : list string :=
  (List.filter (fun kv => expired current_time kv.2) (map_to_list m)).*1.

(** Lines 51-53 *)
Definition due_for_warning (current_time : Z) (message_info : Entry) : bool :=
  let time_elapsed := current_time - sent_time message_info in
  (warn_threshold <? time_elapsed)
  && (time_elapsed <? delete_threshold)
  && negb (warned message_info).

(** Lines 48-65: one round of the warning loop.  [message_info] is the row
    as the snapshot of line 46 holds it; the row is visited once per sweep,
    so this is also its current value in the table. *)
Definition warn_one (current_time : Z) (b : Bot) (kv : string * Entry) : Bot :=
  let '(message_key, message_info) := kv in
  if due_for_warning current_time message_info then
    let task :=
      WarningTask (chat_id message_info) (entry_filename message_info) in
    if create_task (tasks b) task then
      {| sent_messages := alter set_warned message_key (sent_messages b);
         tasks := tasks b ++ [(message_key, task)];
         chat := chat b;
         extractor := extractor b |}
    else b
  else b.

(** Lines 68-78: one round of the deletion loop. *)
Definition delete_one (b : Bot) (message_key : string) : Bot :=
  match sent_messages b !! message_key with
  | Some message_info =>
      let task := DeleteTask (chat_id message_info) (message_id message_info) in
      if create_task (tasks b) task then
        {| sent_messages := delete message_key (sent_messages b);
           tasks := tasks b ++ [(message_key, task)];
           chat := chat b;
           extractor := extractor b |}
      else b
  | None => b
  end.

(** One pass of the body of [auto_delete_worker] (lines 35-78) at time
    [current_time]. *)
Definition sweep (b : Bot) (current_time : Z) : Bot :=
  let to_delete := messages_to_delete current_time (sent_messages b) in
  let b := List.fold_left (warn_one current_time) (map_to_list (sent_messages b)) b in
  List.fold_left delete_one to_delete b.

(** The worker: one sweep at each of the given times. *)
Definition auto_delete_worker (times : list Z) (b : Bot) : Bot :=
  List.fold_left sweep times b.

(** One API call: the call is recorded, its failure is an exception. *)
Definition call (op : ChatOp) : ST Bot Z :=
  fun b =>
    let b' := {| sent_messages := sent_messages b; tasks := tasks b;
                 chat := chat b ++ [op]; extractor := extractor b |} in
    match api (chat b) op with
    | Sent m => (Ok m, b')
    | Failed ipf => (Raise (TelegramError ipf), b')
    end.

(** [_delete_message]: a failure is logged, never raised. *)
Definition _delete_message (c m : Z) : ST Bot unit :=
  try_except (bind (call (DeleteMessage c m)) (fun _ => ret tt))
             (fun _ => ret tt).

(** [_send_deletion_warning]: a failure is logged, never raised. *)
Definition _send_deletion_warning (c : Z) (filename : string) : ST Bot unit :=
  try_except
    (bind (call (SendMessage c (DeletionWarning filename))) (fun _ => ret tt))
    (fun _ => ret tt).

(** The event loop running a task that was created. *)
Definition run_task (t : Task) : ST Bot unit :=
  match t with
  | WarningTask c filename => _send_deletion_warning c filename
  | DeleteTask c m => _delete_message c m
  end.

End WithTelegram.
End Tracker.

(* ===================================================================== *)
(** ** bot.py: handling a message *)
(* ===================================================================== *)

Module TelegramMediaBot.
Section WithTelegram.
Context `{PyLib} `{World} `{Telegram} (cfg : Config.t).
Import Config Utils.

(** Run extractor code on the bot's extractor. *)
Definition with_extractor {A} (m : M A) : ST Bot A :=
  fun b =>
    let '(r, st) := m (extractor b) in
    (r, {| sent_messages := sent_messages b; tasks := tasks b;
           chat := chat b; extractor := st |}).

(** [_extract_urls] *)
Definition _extract_urls (text : string) : list string :=
  List.filter validate_url (Py.findall_urls text).

(** Lines 369-376: the row for a message that was sent. *)
Definition track (c m : Z) (filename : string) : ST Bot unit :=
  fun b =>
    let message_key := pretty c +:+ "_" +:+ pretty m in
    (Ok tt,
     {| sent_messages :=
          <[ message_key :=
               {| chat_id := c; message_id := m; sent_time := time (chat b);
                  entry_filename := filename; warned := false |} ]>
            (sent_messages b);
        tasks := tasks b; chat := chat b; extractor := extractor b |}).

(** Reading an attribute of [o]: [AttributeError] when [o] is [None]. *)
Definition attr {A} (o : option A) : ST Bot A :=
  match o with
  | Some a => ret a
  | None => raise AttributeError
  end.

(** [cleanup_temp_file] of utils.py: the file is removed when it exists;
    a failure of [os.unlink] is logged and the file stays. *)
Definition cleanup_temp_file (file_path : string) : ST Bot unit :=
  with_extractor
    (fun st =>
       if List.existsb (fun f => String.eqb f.1 file_path) (temp_files st)
       then
         if unlink_fails (temp_files st) file_path then (Ok tt, st)
         else
           (Ok tt,
            {| temp_files :=
                 List.filter (fun f => negb (String.eqb f.1 file_path))
                   (temp_files st);
               net_log := net_log st |})
       else (Ok tt, st)).

(** Lines 304-328: the kind the file is sent as. *)
Definition delivery_kind (media_info : MediaInfo) : Res MediaType :=
  let file_size := mi_size media_info in
  let media_type :=
    if MediaExtractor.any_endswith (mi_filename media_info)
         [".jpg"; ".jpeg"; ".png"; ".gif"; ".webp"; ".bmp"]
    then if validate_image (mi_file_path media_info) then image else document
    else mi_type media_info in
  match media_type with
  | image => if MAX_PHOTO_SIZE cfg <? file_size then Ok document else Ok image
  | video =>
      if MAX_VIDEO_SIZE cfg <? file_size then Raise (VideoTooLarge file_size)
      else Ok video
  | document => Ok document
  end.

(** [_send_media_file]: [True] when the file was sent and tracked, [False]
    on any exception. *)
Definition _send_media_file (c : Z) (media_info : MediaInfo)
    (source_url : string) : ST Bot bool :=
  let file_path := mi_file_path media_info in
  let filename := mi_filename media_info in
  try_except
    (media_type <- lift (delivery_kind media_info) ;;
     sent_message <-
       match media_type with
       | image =>
           try_except (Tracker.call (SendPhoto c file_path))
             (fun e =>
                match e with
                | TelegramError true =>
                    Tracker.call (SendDocument c file_path filename)
                | _ => raise e
                end)
       | video => Tracker.call (SendVideo c file_path)
       | document => Tracker.call (SendDocument c file_path filename)
       end ;;
     _ <- track c sent_message filename ;;
     ret true)%M
    (fun _ => ret false).

(** Lines 245-257: send every file, cleaning up after each. *)
Fixpoint send_each (c : Z) (url : string) (media_files : list MediaInfo)
    (sent_count : nat) : ST Bot nat :=
  match media_files with
  | [] => ret sent_count
  | media_info :: rest =>
      (success <- _send_media_file c media_info url ;;
       _ <- cleanup_temp_file (mi_file_path media_info) ;;
       send_each c url rest (if success then S sent_count else sent_count))%M
  end.

(** Lines 224-279: the work on one URL in chat [c], from the first reply
    on. *)
Definition process_in_chat (c : Z) (url : string) : ST Bot unit :=
  (processing_msg <- Tracker.call (ReplyText (Processing url)) ;;
   try_except
     (media_files <- with_extractor (MediaExtractor.extract_media_from_url cfg url) ;;
      match media_files with
      | [] => _ <- Tracker.call (EditText (NoMediaAt url)) ;; ret tt
      | _ =>
          _ <- Tracker.call (EditText (Found (length media_files))) ;;
          sent_count <- send_each c url media_files 0 ;;
          _ <- Tracker.call
                 (EditText (if (0 <? sent_count)%nat then SentFrom sent_count url
                            else FailedToSend url)) ;;
          ret tt
      end)
     (fun e => _ <- Tracker.call (EditText (ErrorProcessing url e)) ;; ret tt))%M.

(** [_process_url]: lines 220-224 read [update.effective_chat.id],
    [update.effective_user.id] and [update.message.reply_text]. *)
Definition _process_url (update : Update) (url : string) : ST Bot unit :=
  (c <- attr (effective_chat update) ;;
   user_id <- attr (effective_user update) ;;
   _ <- attr (message update) ;;
   process_in_chat c url)%M.

(** The loop of lines 201-202. *)
Fixpoint process_each (update : Update) (urls : list string) : ST Bot unit :=
  match urls with
  | [] => ret tt
  | url :: rest => (_ <- _process_url update url ;; process_each update rest)%M
  end.

(** [handle_url_message] *)
Definition handle_url_message (update : Update) : ST Bot unit :=
  (user_id <- attr (effective_user update) ;;
   text <- attr (message update) ;;
   let message_text := Py.strip text in
   let urls := _extract_urls message_text in
   match urls with
   | [] => _ <- Tracker.call (ReplyText NoValidUrls) ;; ret tt
   | _ => process_each update (List.firstn 3 urls)
   end)%M.

End WithTelegram.
End TelegramMediaBot.

(* ===================================================================== *)
(** ** Reference instances *)
(* ===================================================================== *)

(** Small, executable stand-ins for the libraries and the outside world,
    used to run the model on concrete inputs.  No theorem about the program
    depends on them. *)
Module Ref.

(** The longest prefix of [s] without a character accepted by [stop], and
    the rest. *)
Fixpoint break (stop : ascii -> bool) (s : string) : string * string :=
  match s with
  | EmptyString => (EmptyString, EmptyString)
  | String c r =>
      if stop c then (EmptyString, s)
      else let '(a, b) := break stop r in (String c a, b)
  end.

Definition is_char (x : ascii) (c : ascii) : bool := Ascii.eqb c x.

(** A reduced [urlparse]: [scheme://netloc/path?query#fragment], the
    scheme being kept only when followed by [://]. *)
Definition urlparse (url : string) : option ParseResult :=
  let '(s, rest) := break (is_char ":") url in
  let '(s, rest) :=
    if Py.startswith rest "://" then (Py.lower s, Py.drop 1 rest)
    else (EmptyString, url) in
  let '(n, rest) :=
    if Py.startswith rest "//"
    then break (fun c => is_char "/" c || is_char "?" c || is_char "#" c)
           (Py.drop 2 rest)
    else (EmptyString, rest) in
  let '(p, _) := break (fun c => is_char "?" c || is_char "#" c) rest in
  Some {| scheme := s; netloc := n; path := p |}.

(** A reduced [urljoin]: absolute references are kept, others are put
    under the root of the base. *)
Definition urljoin (base ref : string) : string :=
  if Py.startswith ref "http" then ref
  else
    match urlparse base with
    | Some r => scheme r +:+ "://" +:+ netloc r +:+ "/" +:+ ref
    | None => ref
    end.

Definition guess_extension (mime : string) : option string :=
  if String.eqb mime "image/jpeg" then Some ".jpg"
  else if String.eqb mime "image/png" then Some ".png"
  else if String.eqb mime "video/mp4" then Some ".mp4"
  else if String.eqb mime "text/html" then Some ".html"
  else None.

(** Decimal digits only. *)
Fixpoint digits (s : string) (acc : Z) : option Z :=
  match s with
  | EmptyString => Some acc
  | String c r =>
      let n := Ascii.nat_of_ascii c in
      if ((48 <=? n) && (n <=? 57))%nat
      then digits r (10 * acc + Z.of_nat (n - 48))
      else None
  end.

Definition py_int (s : string) : option Z :=
  match s with
  | EmptyString => None
  | _ => digits s 0
  end.

(** Not MD5: a fixed digest of the right shape. *)
Definition md5_hexdigest (s : string) : string :=
  "0123456789abcdef0123456789abcdef".

Definition lib : PyLib :=
  Build_PyLib urlparse (fun s => s) urljoin guess_extension md5_hexdigest py_int.

Definition response (status : Z) (content_type : string) (chunks : list string)
  : Response :=
  {| status_code := status; content_length := None;
     header_content_type := Some content_type;
     chunks := chunks; stream_fails := false |}.

(** A world whose servers answer by URL alone, whose pages parse to
    [soup], whose file system never fails, and whose video engine supports
    no site. *)
Definition world (server : string -> option Response) (soup : list Tag)
  : World := {|
  session_head := fun _ url => server url;
  session_get := fun _ url => server url;
  temp_name := fun files suffix => "/tmp/tmp" +:+ pretty (length files) +:+ suffix;
  temp_write := fun _ _ _ => TempWritten;
  unlink_fails := fun _ _ => false;
  mkdtemp := fun _ => "/tmp/dir";
  BeautifulSoup := fun _ => soup;
  findall_image_urls := fun _ => [];
  list_of_set := elements;
  list_of_set_perm := fun s => reflexivity (elements s);
  ydl_extract_info := fun _ _ => None;
  ydl_download := fun _ _ _ => None
|}.

(** A chat platform on which every call succeeds, the n-th call returning
    message n; [tasks_ok] tells whether tasks can be created. *)
Definition telegram (tasks_ok : bool) (now : Z) : Telegram := {|
  api := fun calls _ => Sent (Z.of_nat (length calls));
  create_task := fun _ _ => tasks_ok;
  time := fun _ => now;
  validate_image := fun _ => true
|}.

Definition start : State := {| temp_files := []; net_log := [] |}.

Definition bot (m : gmap string Entry) : Bot :=
  {| sent_messages := m; tasks := []; chat := []; extractor := start |}.

End Ref.

(* ===================================================================== *)
(** ** Notions used in the statements *)
(* ===================================================================== *)

(** Every character of the text passes the test. *)
Fixpoint all_chars (p : ascii -> bool) (s : string) : bool :=
  match s with
  | EmptyString => true
  | String c r => p c && all_chars p r
  end.

(** The text starts with one of the two schemes. *)
Definition has_http_scheme (s : string) : bool :=
  String.prefix "http://" s || String.prefix "https://" s.

(** Not an underscore. *)
Definition not_underscore (c : ascii) : bool := negb (Ascii.eqb c "_").

(** The quality of a rendition as a number, where it is one ([0] stands
    in where the key holds [None]). *)
Definition quality_value (fmt : Format) : Z :=
  default 0 (MediaExtractor.quality_of fmt).

(* ===================================================================== *)
(** ** Scenarios *)
(* ===================================================================== *)

(** Concrete servers, pages, renditions and tracking tables on which the
    model is run in the worked examples. *)
Module Scenario.
Import Config.

(** A ceiling of four bytes, to keep oversize bodies small. *)
Definition tiny : Config.t :=
  {| MAX_PHOTO_SIZE := 4; MAX_VIDEO_SIZE := 4; MAX_DOCUMENT_SIZE := 4;
     AUTO_DELETE_AFTER_HOURS := 1 |}.

Definition jpeg6 : Response := Ref.response 200 "image/jpeg" ["abc"; "def"].

Definition html_ok : Response :=
  Ref.response 200 "text/html" ["<html><body>login</body></html>"].

Definition html_404 : Response :=
  Ref.response 404 "text/html" ["<html><body>Not Found</body></html>"].

Definition serve (response : Response) : World :=
  Ref.world (fun _ => Some response) [].

Definition offline : World := Ref.world (fun _ => None) [].

(** Two renditions over the budget of config.py, two within it. *)
Definition big1 : Format :=
  {| filesize := Some 4294967296; filesize_approx := None;
     quality := Some (Some 1) |}.
Definition big2 : Format :=
  {| filesize := None; filesize_approx := Some 5368709120;
     quality := Some (Some 7) |}.
Definition small1 : Format :=
  {| filesize := Some 1000; filesize_approx := None;
     quality := Some (Some 2) |}.
Definition small2 : Format :=
  {| filesize := Some 2000; filesize_approx := None;
     quality := Some (Some 5) |}.

(** A page with seven images, every one of which can be downloaded. *)
Definition img (src : string) : Tag :=
  {| tag_name := "img"; attrs := [("src", src)]; tag_string := None |}.

Definition gallery : World :=
  Ref.world
    (fun url =>
       if String.eqb url "https://x.test/page.html"
       then Some (Ref.response 200 "text/html" ["<html>"])
       else Some (Ref.response 200 "image/jpeg" ["abc"]))
    [img "1.jpg"; img "2.jpg"; img "3.jpg"; img "4.jpg"; img "5.jpg";
     img "6.jpg"; img "7.jpg"; img "1.jpg"].

(** Scenario B of the specification: a page with a small image and an
    Open Graph image. *)
Definition page_b : World :=
  Ref.world
    (fun url =>
       if String.eqb url "https://x.test/page.html"
       then Some (Ref.response 200 "text/html" ["<html>"])
       else if String.eqb url "https://x.test/c.png"
       then Some (Ref.response 200 "image/png" ["png"])
       else None)
    [ {| tag_name := "img";
         attrs := [("src", "b.png"); ("width", "50"); ("height", "50")];
         tag_string := None |};
      {| tag_name := "meta";
         attrs := [("property", "og:image"); ("content", "c.png")];
         tag_string := None |} ].

(** A row sent at time 0, looked at 4000 seconds later. *)
Definition row : Entry :=
  {| chat_id := 7; message_id := 1; sent_time := 0;
     entry_filename := "a.jpg"; warned := false |}.

Definition tracking : Bot := Ref.bot {[ "7_1" := row ]}.

Definition four_urls : string :=
  "see http://a.test/1.jpg http://a.test/2.jpg http://a.test/3.jpg http://a.test/4.jpg".

(** A response that declares a length above the ceiling of config.py, and
    one whose declared length is no number. *)
Definition declared_big : Response :=
  {| status_code := 200; content_length := Some "9999999999";
     header_content_type := Some "image/jpeg";
     chunks := ["abc"]; stream_fails := false |}.

Definition malformed_length : Response :=
  {| status_code := 200; content_length := Some "abc";
     header_content_type := Some "image/jpeg";
     chunks := ["abc"]; stream_fails := false |}.

(** A PNG image, whatever the URL asked for. *)
Definition png3 : Response := Ref.response 200 "image/png" ["png"].

(** A video engine that answers with a playlist of two entries and leaves
    a video, a text file and a directory behind. *)
Definition clip : Video :=
  {| formats := [small1]; video_title := Some "Clip" |}.

Definition engine : World := {|
  session_head := fun _ _ => None;
  session_get := fun _ _ => None;
  temp_name := fun files suffix => "/tmp/tmp" +:+ pretty (length files) +:+ suffix;
  temp_write := fun _ _ _ => TempWritten;
  unlink_fails := fun _ _ => false;
  mkdtemp := fun _ => "/tmp/dir";
  BeautifulSoup := fun _ => [];
  findall_image_urls := fun _ => [];
  list_of_set := elements;
  list_of_set_perm := fun s => reflexivity (elements s);
  ydl_extract_info := fun _ _ =>
    Some (Some (Playlist [clip; {| formats := []; video_title := None |}]));
  ydl_download := fun _ _ _ =>
    Some [ {| entry_name := "Clip.mp4"; entry_is_file := true;
              entry_size := 1000 |};
           {| entry_name := "notes.txt"; entry_is_file := true;
              entry_size := 10 |};
           {| entry_name := "subs"; entry_is_file := false;
              entry_size := 0 |} ]
|}.

(** Two renditions of equal quality within the budget. *)
Definition tie1 : Format :=
  {| filesize := Some 1000; filesize_approx := None;
     quality := Some (Some 5) |}.
Definition tie2 : Format :=
  {| filesize := None; filesize_approx := Some 3000;
     quality := Some (Some 5) |}.

(** An image-search page whose script holds four image URLs on a trusted
    host. *)
Definition image_search : World := {|
  session_head := fun _ _ => None;
  session_get := fun _ _ => None;
  temp_name := fun files suffix => "/tmp/tmp" +:+ pretty (length files) +:+ suffix;
  temp_write := fun _ _ _ => TempWritten;
  unlink_fails := fun _ _ => false;
  mkdtemp := fun _ => "/tmp/dir";
  BeautifulSoup := fun _ => [];
  findall_image_urls := fun _ =>
    ["https://a.googleusercontent.com/1.jpg";
     "https://a.googleusercontent.com/2.jpg";
     "https://other.test/x.jpg";
     "https://a.googleusercontent.com/3.jpg";
     "https://a.googleusercontent.com/4.jpg"];
  list_of_set := elements;
  list_of_set_perm := fun s => reflexivity (elements s);
  ydl_extract_info := fun _ _ => None;
  ydl_download := fun _ _ _ => None
|}.

Definition one_script : list Tag :=
  [ {| tag_name := "script"; attrs := []; tag_string := Some "var data" |} ].

(** A descriptor whose file is among the temporary files, next to a file
    of somebody else. *)
Definition photo : MediaInfo :=
  {| mi_file_path := "/tmp/tmp0.jpg"; mi_filename := "a.jpg"; mi_size := 6;
     mi_type := image; mi_url := "https://x.test/a.jpg";
     mi_content_type := Some "image/jpeg"; mi_title := None |}.

Definition with_files : Bot :=
  {| sent_messages := ∅; tasks := []; chat := [];
     extractor := {| temp_files := [("/tmp/tmp0.jpg", "abcdef");
                                    ("/tmp/other.bin", "xyz")];
                     net_log := [] |} |}.

(** Two renditions within the budget whose ['quality'] key holds [None],
    and a video engine that offers them for one video. *)
Definition unrated1 : Format :=
  {| filesize := Some 1000; filesize_approx := None; quality := Some None |}.
Definition unrated2 : Format :=
  {| filesize := Some 2000; filesize_approx := None; quality := Some None |}.

Definition unrated_engine : World := {|
  session_head := fun _ _ => None;
  session_get := fun _ _ => None;
  temp_name := fun files suffix => "/tmp/tmp" +:+ pretty (length files) +:+ suffix;
  temp_write := fun _ _ _ => TempWritten;
  unlink_fails := fun _ _ => false;
  mkdtemp := fun _ => "/tmp/dir";
  BeautifulSoup := fun _ => [];
  findall_image_urls := fun _ => [];
  list_of_set := elements;
  list_of_set_perm := fun s => reflexivity (elements s);
  ydl_extract_info := fun _ _ =>
    Some (Some (Single {| formats := [unrated1; unrated2];
                          video_title := Some "Clip" |}));
  ydl_download := fun _ _ _ =>
    Some [ {| entry_name := "Clip.mp4"; entry_is_file := true;
              entry_size := 1000 |} ]
|}.

(** A server that answers with a JPEG, on a disk that is full after two
    bytes of the temporary file. *)
Definition disk_full : World := {|
  session_head := fun _ _ => Some jpeg6;
  session_get := fun _ _ => Some jpeg6;
  temp_name := fun files suffix => "/tmp/tmp" +:+ pretty (length files) +:+ suffix;
  temp_write := fun _ _ _ => TempWriteFails 2;
  unlink_fails := fun _ _ => false;
  mkdtemp := fun _ => "/tmp/dir";
  BeautifulSoup := fun _ => [];
  findall_image_urls := fun _ => [];
  list_of_set := elements;
  list_of_set_perm := fun s => reflexivity (elements s);
  ydl_extract_info := fun _ _ => None;
  ydl_download := fun _ _ _ => None
|}.

(** A file system on which no file can be removed. *)
Definition read_only : World := {|
  session_head := fun _ _ => None;
  session_get := fun _ _ => None;
  temp_name := fun files suffix => "/tmp/tmp" +:+ pretty (length files) +:+ suffix;
  temp_write := fun _ _ _ => TempWritten;
  unlink_fails := fun _ _ => true;
  mkdtemp := fun _ => "/tmp/dir";
  BeautifulSoup := fun _ => [];
  findall_image_urls := fun _ => [];
  list_of_set := elements;
  list_of_set_perm := fun s => reflexivity (elements s);
  ydl_extract_info := fun _ _ => None;
  ydl_download := fun _ _ _ => None
|}.

(** A text message of user 42 in chat 7, and the update for an edited
    message, which has no [update.message]. *)
Definition text_update (text : string) : Update :=
  {| effective_user := Some 42; effective_chat := Some 7;
     message := Some text |}.

Definition edited_update : Update :=
  {| effective_user := Some 42; effective_chat := Some 7; message := None |}.

(** The first three URLs of [four_urls], alone. *)
Definition three_urls : string :=
  "see http://a.test/1.jpg http://a.test/2.jpg http://a.test/3.jpg".

End Scenario.

(* ===================================================================== *)
(** * Properties *)
(* ===================================================================== *)

(** ** Strings *)

Lemma length_append (a b : string) :
  String.length (a +:+ b) = (String.length a + String.length b)%nat.
Proof. induction a as [|c a IH]; simpl; [reflexivity | now rewrite IH]. Qed.

Lemma append_cons (c : ascii) (a b : string) :
  String c a +:+ b = String c (a +:+ b).
Proof. reflexivity. Qed.

Lemma append_empty_r (a : string) : a +:+ "" = a.
Proof.
  induction a as [|c a IH]; [reflexivity|]. now rewrite append_cons, IH.
Qed.

Lemma append_assoc (a b c : string) : (a +:+ b) +:+ c = a +:+ (b +:+ c).
Proof.
  induction a as [|x a IH]; [reflexivity|]. now rewrite !append_cons, IH.
Qed.

Lemma len_append (a b : string) : Py.len (a +:+ b) = Py.len a + Py.len b.
Proof. unfold Py.len. rewrite length_append. lia. Qed.

Lemma len_nonneg (a : string) : 0 <= Py.len a.
Proof. unfold Py.len. lia. Qed.


(** ** utils.py *)

Section UtilsProperties.
Context `{PyLib}.
Import Config Utils.

Lemma image_video_disjoint :
  SUPPORTED_IMAGE_FORMATS ## SUPPORTED_VIDEO_FORMATS.
Proof. apply (bool_decide_unpack _). vm_compute. exact I. Qed.

Lemma is_image_inv s :
  is_image s = Ok true ->
  exists ext, ext_of s = Ok ext /\ ext ∈ SUPPORTED_IMAGE_FORMATS.
Proof.
  unfold is_image, res_bind. destruct (ext_of s) as [ext|e]; [|discriminate].
  intros [= Hb]. exists ext. split; [reflexivity|].
  now apply bool_decide_eq_true in Hb.
Qed.

Lemma is_video_inv s :
  is_video s = Ok true ->
  exists ext, ext_of s = Ok ext /\ ext ∈ SUPPORTED_VIDEO_FORMATS.
Proof.
  unfold is_video, res_bind. destruct (ext_of s) as [ext|e]; [|discriminate].
  intros [= Hb]. exists ext. split; [reflexivity|].
  now apply bool_decide_eq_true in Hb.
Qed.

Lemma is_image_not_video s : is_image s = Ok true -> is_video s = Ok false.
Proof.
  intros (ext & Hext & Hin)%is_image_inv.
  unfold is_video, res_bind. rewrite Hext. f_equal.
  apply bool_decide_eq_false. intros Hv.
  exact (image_video_disjoint ext Hin Hv).
Qed.

Lemma is_video_not_image s : is_video s = Ok true -> is_image s = Ok false.
Proof.
  intros (ext & Hext & Hin)%is_video_inv.
  unfold is_image, res_bind. rewrite Hext. f_equal.
  apply bool_decide_eq_false. intros Hi.
  exact (image_video_disjoint ext Hi Hin).
Qed.


(** A character occurs in a text exactly when [rfind] finds it. *)
Lemma contains_char_cons (c d : ascii) (r : string) :
  Py.contains (String c "") (String d r)
  = Ascii.eqb d c || Py.contains (String c "") r.
Proof.
  cbn [Py.contains String.prefix].
  destruct (Ascii.ascii_dec c d) as [->|Hne].
  - rewrite Ascii.eqb_refl. now destruct r.
  - rewrite (proj2 (Ascii.eqb_neq d c)); [reflexivity | congruence].
Qed.

Lemma contains_char_rfind (c : ascii) (s : string) :
  Py.contains (String c "") s
  = match Py.rfind c s with Some _ => true | None => false end.
Proof.
  induction s as [|d r IH]; [reflexivity|].
  rewrite contains_char_cons, IH. cbn [Py.rfind].
  destruct (Py.rfind c r); [apply orb_true_r|].
  rewrite orb_false_r. now destruct (Ascii.eqb d c).
Qed.

(** A path with an extension has a file name with a dot; one whose file
    name has no dot has no extension. *)
Lemma suffix_needs_dot (p : string) :
  Py.Path_suffix p <> "" ->
  Py.Path_name p <> "" /\ Py.contains "." (Py.Path_name p) = true.
Proof.
  unfold Py.Path_suffix. rewrite contains_char_rfind.
  destruct (Py.rfind "." (Py.Path_name p)) as [i|] eqn:Hfind; [|congruence].
  intros _. split; [|reflexivity]. intros Hempty.
  rewrite Hempty in Hfind. discriminate.
Qed.

(** C8 (amended).  [get_filename_from_url]: when the path of the URL has no
    file name, or its file name contains no dot, the name is ["media_"]
    followed by the first eight characters of the MD5 digest of the URL, a
    function of the URL alone; otherwise -- the file name contains a dot
    -- it is the file name of the path.  A file name with an extension is
    always kept, and a file name without a dot never has an extension: the
    test of the code and "has no extension" differ only on names such as
    [.htaccess] or [archive.], which have a dot and no extension. *)
Theorem get_filename_from_url_spec (url : string) (r : ParseResult) :
  urlparse url = Some r ->
  let filename := Py.Path_name (unquote (path r)) in
  let extension := Py.Path_suffix (unquote (path r)) in
  (filename = "" \/ Py.contains "." filename = false ->
   get_filename_from_url url
   = Ok ("media_" +:+ Py.take 8 (md5_hexdigest url)))
  /\ (filename <> "" -> Py.contains "." filename = true ->
      get_filename_from_url url = Ok filename)
  /\ (extension <> "" -> get_filename_from_url url = Ok filename)
  /\ (filename = "" \/ Py.contains "." filename = false -> extension = "").
Proof.
  intros Hparse filename extension.
  assert (Hkeep : filename <> "" -> Py.contains "." filename = true ->
                  get_filename_from_url url = Ok filename).
  { unfold get_filename_from_url, parse, res_bind. rewrite Hparse.
    fold filename. intros Hname Hdot. rewrite Hdot.
    destruct filename; [congruence | reflexivity]. }
  split; [|split; [exact Hkeep|split]].
  - unfold get_filename_from_url, parse, res_bind. rewrite Hparse.
    fold filename. intros [Hempty | Hdot].
    + rewrite Hempty. reflexivity.
    + rewrite Hdot, orb_true_r. reflexivity.
  - intros [Hname Hdot]%suffix_needs_dot. now apply Hkeep.
  - intros Hnone. destruct (String.eqb_spec extension "") as [|Hext];
      [assumption|].
    apply suffix_needs_dot in Hext as [Hname Hdot]. fold filename in Hname, Hdot.
    destruct Hnone; congruence.
Qed.

End UtilsProperties.

(** ** The Direct Fetcher *)

Section DirectFetcherProperties.
Context `{PyLib} `{World} (cfg : Config.t).
Import Config Utils MediaExtractor.

Lemma download_direct_unfold url st :
  _download_direct_media cfg url st =
  match session_get (net_log st) url with
  | None => (Raise RequestException, requested url st)
  | Some response =>
      match before_body cfg response url with
      | Raise e => (Raise e, requested url st)
      | Ok ext =>
          match read_body cfg (chunks response) (stream_fails response) "" with
          | Raise e => (Raise e, requested url st)
          | Ok content => after_body response url ext content (requested url st)
          end
      end
  end.
Proof.
  unfold _download_direct_media, session_get_stream, bind, issue, lift, ret,
    raise, requested; simpl.
  destruct (session_get (net_log st) url) as [response|]; [|reflexivity].
  destruct (before_body cfg response url); [|reflexivity].
  destruct (read_body cfg (chunks response) (stream_fails response) "");
    reflexivity.
Qed.

Lemma after_body_unfold response url ext content st :
  after_body response url ext content st =
  let content_type := Py.lower (default "" (header_content_type response)) in
  if looks_like_html content_type content then (Raise ContentIsHTML, st)
  else
    match get_filename_from_url url with
    | Raise e => (Raise e, st)
    | Ok filename =>
        let temp_path :=
          temp_name (temp_files st)
            (temp_suffix (Some (image_ext content_type ext))) in
        match temp_write (temp_files st) temp_path content with
        | TempNotCreated => (Raise OSError, st)
        | TempWriteFails n =>
            (Raise OSError, written temp_path (Py.take n content) st)
        | TempWritten =>
            match classify content_type temp_path url filename with
            | Raise e => (Raise e, written temp_path content st)
            | Ok media_type =>
                (Ok [ {| mi_file_path := temp_path;
                         mi_filename := filename;
                         mi_size := Py.len content;
                         mi_type := media_type;
                         mi_url := url;
                         mi_content_type := Some content_type;
                         mi_title := None |} ],
                 written temp_path content st)
            end
        end
    end.
Proof.
  unfold after_body, bind, lift, ret, raise, create_temp_file; simpl.
  destruct (looks_like_html _ content); [reflexivity|].
  destruct (get_filename_from_url url) as [filename|]; [|reflexivity].
  destruct (temp_write _ _ content); [|reflexivity..].
  destruct (classify _ _ url filename); reflexivity.
Qed.

(** A prefix is no longer than the text. *)
Lemma len_take (n : nat) (s : string) : Py.len (Py.take n s) <= Py.len s.
Proof.
  unfold Py.len, Py.take. apply inj_le.
  revert n. induction s as [|c r IH]; intros [|n]; simpl; try lia.
  specialize (IH n). lia.
Qed.

(** *** The body loop *)

Lemma read_body_ok chunks fails acc content :
  read_body cfg chunks fails acc = Ok content ->
  content = acc +:+ List.fold_right String.append "" chunks
  /\ (Py.len acc <= MAX_DOCUMENT_SIZE cfg ->
      Py.len content <= MAX_DOCUMENT_SIZE cfg).
Proof.
  revert acc. induction chunks as [|chunk rest IH]; intros acc; simpl.
  - destruct fails; [discriminate|]. intros [= <-]. split; [|tauto].
    now rewrite append_empty_r.
  - destruct (Z.ltb_spec (MAX_DOCUMENT_SIZE cfg) (Py.len (acc +:+ chunk)));
      [discriminate|].
    intros [-> Hlen]%IH. split; [|intros _; now apply Hlen].
    apply append_assoc.
Qed.

Lemma read_body_over chunks fails acc :
  Py.len acc <= MAX_DOCUMENT_SIZE cfg ->
  MAX_DOCUMENT_SIZE cfg
    < Py.len acc + Py.len (List.fold_right String.append "" chunks) ->
  read_body cfg chunks fails acc = Raise FileTooLargeDuringDownload.
Proof.
  revert acc. induction chunks as [|chunk rest IH]; intros acc Hacc Hover; simpl in *.
  - change (Py.len "") with 0 in Hover. lia.
  - rewrite len_append in Hover.
    destruct (Z.ltb_spec (MAX_DOCUMENT_SIZE cfg) (Py.len (acc +:+ chunk)));
      [reflexivity|].
    apply IH; [assumption|]. rewrite len_append. lia.
Qed.

(** An oversize body never leaves the loop. *)
Lemma read_body_oversize response :
  0 <= MAX_DOCUMENT_SIZE cfg ->
  MAX_DOCUMENT_SIZE cfg < Py.len (body response) ->
  read_body cfg (chunks response) (stream_fails response) ""
  = Raise FileTooLargeDuringDownload.
Proof.
  intros Hmax Hover. apply read_body_over.
  - exact Hmax.
  - unfold body in Hover. change (Py.len "") with 0. lia.
Qed.

(** C1.  Provided the ceiling is not negative: when the body of the
    response exceeds [MAX_DOCUMENT_SIZE], [_download_direct_media] raises,
    no temporary file has been written, and -- whenever the checks before
    the body loop let the body be accumulated at all -- the exception is
    "File too large during download"; and whatever the response, every
    temporary file the call leaves behind is within the ceiling. *)
Theorem direct_fetch_ceiling (url : string) (st st' : State)
    (r : Res (list MediaInfo)) :
  0 <= MAX_DOCUMENT_SIZE cfg ->
  _download_direct_media cfg url st = (r, st') ->
  (forall response,
     session_get (net_log st) url = Some response ->
     MAX_DOCUMENT_SIZE cfg < Py.len (body response) ->
     (exists e, r = Raise e)
     /\ temp_files st' = temp_files st
     /\ (forall ext, before_body cfg response url = Ok ext ->
         r = Raise FileTooLargeDuringDownload))
  /\ (forall p c, (p, c) ∈ temp_files st' ->
      (p, c) ∈ temp_files st \/ Py.len c <= MAX_DOCUMENT_SIZE cfg).
Proof.
  intros Hmax. rewrite download_direct_unfold. intros H1. split.
  - intros response Hget Hover. rewrite Hget in H1.
    pose proof (read_body_oversize response Hmax Hover) as Hloop.
    rewrite Hloop in H1.
    destruct (before_body cfg response url) as [ext|e] eqn:Hbefore;
      injection H1 as <- <-; (split; [eauto|split; [reflexivity|]]).
    + reflexivity.
    + discriminate.
  - intros p c Hin.
    destruct (session_get (net_log st) url) as [response|];
      [|injection H1 as <- <-; now left].
    destruct (before_body cfg response url) as [ext|e];
      [|injection H1 as <- <-; now left].
    destruct (read_body cfg (chunks response) (stream_fails response) "")
      as [content|e] eqn:Hloop; [|injection H1 as <- <-; now left].
    apply read_body_ok in Hloop as [_ Hlen]. specialize (Hlen Hmax).
    rewrite after_body_unfold in H1. cbv zeta in H1.
    destruct (looks_like_html _ content); [injection H1 as <- <-; now left|].
    destruct (get_filename_from_url url) as [filename|];
      [|injection H1 as <- <-; now left].
    pose proof (len_take) as Htake.
    destruct (temp_write _ _ content) as [| |n];
      [|injection H1 as <- <-; now left|];
      [destruct (classify _ _ url filename)|]; injection H1 as <- <-;
      simpl in Hin; apply elem_of_app in Hin as [Hin|Hin%list_elem_of_singleton];
      try (now left); injection Hin as -> ->; right;
      [assumption..|]. specialize (Htake n content). lia.
Qed.

(** C2 (amended).  A response that looks like HTML -- its lower-cased
    content type starts with [text/html], or the first 1000 bytes of its
    body, lower-cased, contain [<html] -- always makes
    [_download_direct_media] raise with no temporary file written and no
    descriptor returned.  The exception is "Downloaded content is HTML, not
    media" whenever the earlier steps (status check, declared length,
    extension, body loop) complete; otherwise it is the exception of the
    first of those steps that fails. *)
Theorem html_is_rejected (url : string) (st : State) (response : Response) :
  session_get (net_log st) url = Some response ->
  looks_like_html (content_type_of response) (body response) = true ->
  (exists e, _download_direct_media cfg url st = (Raise e, requested url st))
  /\ (forall ext content,
        before_body cfg response url = Ok ext ->
        read_body cfg (chunks response) (stream_fails response) "" = Ok content ->
        _download_direct_media cfg url st
        = (Raise ContentIsHTML, requested url st))
  /\ (forall e,
        before_body cfg response url = Raise e ->
        _download_direct_media cfg url st = (Raise e, requested url st))
  /\ (forall ext e,
        before_body cfg response url = Ok ext ->
        read_body cfg (chunks response) (stream_fails response) "" = Raise e ->
        _download_direct_media cfg url st = (Raise e, requested url st)).
Proof.
  intros Hget Hhtml. rewrite download_direct_unfold, Hget.
  assert (Hafter : forall ext content,
    read_body cfg (chunks response) (stream_fails response) "" = Ok content ->
    after_body response url ext content (requested url st)
    = (Raise ContentIsHTML, requested url st)).
  { intros ext content [Hcontent _]%read_body_ok.
    change (content = body response) in Hcontent. subst content.
    rewrite after_body_unfold. cbv zeta.
    fold (content_type_of response). now rewrite Hhtml. }
  split; [|split; [|split]].
  - destruct (before_body cfg response url) as [ext|e]; [|eauto].
    destruct (read_body cfg (chunks response) (stream_fails response) "")
      as [content|e] eqn:Hloop; [|eauto].
    rewrite (Hafter ext content eq_refl). eauto.
  - intros ext content -> Hloop. rewrite Hloop. now apply Hafter.
  - now intros e ->.
  - now intros ext e -> ->.
Qed.

(** A downloaded descriptor: exactly one, for the requested URL, its size
    the length of the file written for it. *)
Lemma download_direct_ok url st ds st' :
  _download_direct_media cfg url st = (Ok ds, st') ->
  exists d content,
    ds = [d] /\ mi_url d = url /\ mi_size d = Py.len content
    /\ st' = written (mi_file_path d) content (requested url st).
Proof.
  rewrite download_direct_unfold.
  destruct (session_get (net_log st) url) as [response|]; [|discriminate].
  destruct (before_body cfg response url) as [ext|]; [|discriminate].
  destruct (read_body cfg (chunks response) (stream_fails response) "")
    as [content|]; [|discriminate].
  rewrite after_body_unfold. cbv zeta.
  destruct (looks_like_html _ content); [discriminate|].
  destruct (get_filename_from_url url) as [filename|]; [|discriminate].
  destruct (temp_write _ _ content); [|discriminate..].
  destruct (classify _ _ url filename) as [k|]; [|discriminate].
  intros [= <- <-]. eexists _, content. repeat split.
Qed.

(** The only network operation of a direct download is its request. *)
Lemma download_direct_log url st r st' :
  _download_direct_media cfg url st = (r, st') ->
  net_log st' = net_log st ++ [OpGet url].
Proof.
  rewrite download_direct_unfold.
  destruct (session_get (net_log st) url) as [response|]; [|now intros [= <- <-]].
  destruct (before_body cfg response url) as [ext|]; [|now intros [= <- <-]].
  destruct (read_body cfg (chunks response) (stream_fails response) "")
    as [content|]; [|now intros [= <- <-]].
  rewrite after_body_unfold. cbv zeta.
  destruct (looks_like_html _ content); [now intros [= <- <-]|].
  destruct (get_filename_from_url url) as [filename|]; [|now intros [= <- <-]].
  destruct (temp_write _ _ content); [|now intros [= <- <-]..].
  destruct (classify _ _ url filename) as [k|]; now intros [= <- <-].
Qed.

(** C10.  [is_image] and [is_video] never both answer [True] for the same
    path or URL: the two sets of extensions are disjoint.  A direct
    download returns one descriptor, whose kind is one of image, video and
    document. *)
Theorem image_video_exclusive :
  SUPPORTED_IMAGE_FORMATS ## SUPPORTED_VIDEO_FORMATS
  /\ (forall s, is_image s = Ok true -> is_video s = Ok false)
  /\ (forall s, is_video s = Ok true -> is_image s = Ok false)
  /\ (forall url st ds st',
        _download_direct_media cfg url st = (Ok ds, st') ->
        exists d, ds = [d]
          /\ (mi_type d = image \/ mi_type d = video \/ mi_type d = document)).
Proof.
  split; [exact image_video_disjoint|].
  split; [exact is_image_not_video|].
  split; [exact is_video_not_image|].
  intros url st ds st' (d & content & -> & _)%download_direct_ok.
  exists d. split; [reflexivity|]. destruct (mi_type d); tauto.
Qed.


End DirectFetcherProperties.

(** ** The Platform Extractor *)

Section PlatformExtractorProperties.
Context `{PyLib} `{World} (cfg : Config.t).
Import Config Utils MediaExtractor.

(** Renditions outside the budget are passed over. *)
Lemma best_in_budget_skip l rest best_format :
  Forall (fun fmt => within_budget cfg fmt = false) l ->
  best_in_budget cfg (l ++ rest) best_format
  = best_in_budget cfg rest best_format.
Proof.
  intros Hall. induction Hall as [|fmt l Hfmt _ IH]; simpl; [reflexivity|].
  now rewrite Hfmt.
Qed.

Lemma best_in_budget_none formats best_format :
  Forall (fun fmt => within_budget cfg fmt = false) formats ->
  best_in_budget cfg formats best_format = Ok best_format.
Proof.
  intros Hall. rewrite <- (app_nil_r formats).
  now rewrite (best_in_budget_skip _ [] _ Hall).
Qed.

(** With no rendition in budget the first one offered is settled on. *)
Lemma select_format_fallback offered :
  Forall (fun fmt => within_budget cfg fmt = false) offered ->
  select_format cfg offered = Ok (List.head offered).
Proof.
  intros Hall. unfold select_format.
  now rewrite (best_in_budget_none _ _ Hall).
Qed.

(** The comparison of line 186 raises as soon as the first two renditions
    in budget are compared and the ['quality'] of one of them holds
    [None]. *)
Lemma select_format_type_error l1 a l2 b rest :
  Forall (fun fmt => within_budget cfg fmt = false) l1 ->
  within_budget cfg a = true ->
  Forall (fun fmt => within_budget cfg fmt = false) l2 ->
  within_budget cfg b = true ->
  quality_of a = None \/ quality_of b = None ->
  select_format cfg (l1 ++ a :: l2 ++ b :: rest) = Raise TypeError.
Proof.
  intros Hl1 Ha Hl2 Hb Hq. unfold select_format.
  rewrite (best_in_budget_skip _ _ _ Hl1). cbn [best_in_budget]. rewrite Ha.
  rewrite (best_in_budget_skip _ _ _ Hl2). cbn [best_in_budget]. rewrite Hb.
  destruct Hq as [-> | ->]; [destruct (quality_of b)|]; reflexivity.
Qed.

(** The exception is swallowed by the [except] clause of lines 225-227:
    nothing is selected and no download is started. *)
Lemma extract_with_ytdlp_type_error url st v :
  ydl_extract_info (net_log st) url = Some (Some (Single v)) ->
  select_format cfg (formats v) = Raise TypeError ->
  _extract_with_ytdlp cfg url st
  = (Ok None, {| temp_files := temp_files st;
                 net_log := net_log st ++ [OpExtractInfo url] |}).
Proof.
  intros Hinfo Hsel.
  unfold _extract_with_ytdlp, try_except, bind, issue, lift; simpl.
  rewrite Hinfo. destruct (formats v) as [|fmt rest]; [discriminate|].
  now rewrite Hsel.
Qed.

End PlatformExtractorProperties.

(** ** The Page Scraper *)

Section PageScraperProperties.
Context `{PyLib} `{World} (cfg : Config.t).
Import Config Utils MediaExtractor.

(** The loop over the candidates never raises; what it adds is one
    descriptor for each candidate whose download succeeded, in order, and
    it issues one request per candidate. *)
Lemma download_each_spec media_urls downloaded_media st :
  exists got st',
    download_each cfg media_urls downloaded_media st
    = (Ok (downloaded_media ++ got), st')
    /\ mi_url <$> got `sublist_of` media_urls
    /\ net_log st' = net_log st ++ (OpGet <$> media_urls).
Proof.
  revert downloaded_media st.
  induction media_urls as [|media_url rest IH]; intros downloaded_media st.
  - exists [], st. simpl. unfold ret. rewrite !app_nil_r. repeat split.
    constructor.
  - simpl. unfold bind at 1. unfold try_except, bind, ret.
    destruct (_download_direct_media cfg media_url st) as [[media_files|e] st1]
      eqn:Hdl.
    + pose proof (download_direct_log cfg _ _ _ _ Hdl) as Hlog.
      apply download_direct_ok in Hdl as (d & content & -> & Hurl & _ & _).
      destruct (IH (downloaded_media ++ [d]) st1) as (got & st' & -> & Hsub & Hlog').
      exists (d :: got), st'. rewrite <- app_assoc. split; [reflexivity|].
      split.
      * rewrite fmap_cons, Hurl. now constructor.
      * rewrite Hlog', Hlog, <- app_assoc. reflexivity.
    + pose proof (download_direct_log cfg _ _ _ _ Hdl) as Hlog.
      destruct (IH downloaded_media st1) as (got & st' & -> & Hsub & Hlog').
      exists got, st'. split; [reflexivity|]. split.
      * now constructor.
      * rewrite Hlog', Hlog, <- app_assoc. reflexivity.
Qed.

Lemma list_of_set_NoDup (s : gset string) : NoDup (list_of_set s).
Proof. rewrite list_of_set_perm. apply NoDup_elements. Qed.

(** The scraper never raises. *)
Lemma scrape_never_raises url st :
  exists found st', _scrape_media_from_page cfg url st = (Ok found, st').
Proof.
  unfold _scrape_media_from_page, try_except.
  match goal with |- context [ ?m st ] => destruct (m st) as [[found|e] st'] end;
    unfold ret; eauto.
Qed.

(** Once the classifier has said no and the video engine has found
    nothing, the entry point returns what the scraper found, and raises when
    that is nothing. *)
Lemma extract_reaches_scraper url st st1 st2 found :
  validate_url url = true ->
  _is_direct_media_url url st = (Ok false, st1) ->
  _extract_with_ytdlp cfg url st1 = (Ok found, st2) ->
  found = None \/ found = Some [] ->
  extract_media_from_url cfg url st
  = match _scrape_media_from_page cfg url st2 with
    | (Ok (Some (f :: fs)), st3) => (Ok (f :: fs), st3)
    | (Ok _, st3) => (Raise NoSupportedMediaFound, st3)
    | (Raise e, st3) => (Raise e, st3)
    end.
Proof.
  intros Hvalid Hdirect Hydl Hfound.
  unfold extract_media_from_url. rewrite Hvalid. simpl.
  unfold bind at 1. rewrite Hdirect.
  unfold bind at 1. rewrite Hydl.
  assert (Hscrape : forall st',
    bind (_scrape_media_from_page cfg url)
      (fun media_files =>
         match media_files with
         | Some (f :: fs) => ret (f :: fs)
         | _ => raise NoSupportedMediaFound
         end) st'
    = match _scrape_media_from_page cfg url st' with
      | (Ok (Some (f :: fs)), st3) => (Ok (f :: fs), st3)
      | (Ok _, st3) => (Raise NoSupportedMediaFound, st3)
      | (Raise e, st3) => (Raise e, st3)
      end).
  { intros st'. unfold bind.
    destruct (_scrape_media_from_page cfg url st') as [[[[|f fs]|]|e] st3];
      reflexivity. }
  destruct Hfound as [-> | ->]; apply Hscrape.
Qed.

(** C4 (amended).  When the fetch of the page fails,
    [_scrape_media_from_page] does not raise: it returns [None], having
    issued the one request; and it never raises, whatever happens.  The
    entry point, when it has come as far as the scraper, then raises "No
    supported media found on this URL" in place of the fetch error. *)
Theorem scrape_swallows_fetch_error (url : string) (st : State) :
  page_fetch_fails url st ->
  _scrape_media_from_page cfg url st = (Ok None, requested url st)
  /\ (forall url' st', exists found st'',
        _scrape_media_from_page cfg url' st' = (Ok found, st''))
  /\ (forall st0 st1 found,
        validate_url url = true ->
        _is_direct_media_url url st0 = (Ok false, st1) ->
        _extract_with_ytdlp cfg url st1 = (Ok found, st) ->
        found = None \/ found = Some [] ->
        extract_media_from_url cfg url st0
        = (Raise NoSupportedMediaFound, requested url st)).
Proof.
  intros Hfail.
  assert (Hnone : _scrape_media_from_page cfg url st
                  = (Ok None, requested url st)).
  { unfold page_fetch_fails in Hfail.
    unfold _scrape_media_from_page, try_except, bind, session_get_content,
      session_get_stream, bind, issue, lift, raise, ret, requested; simpl.
    destruct (session_get (net_log st) url) as [response|]; [|reflexivity].
    destruct (stream_fails response); [reflexivity|].
    destruct Hfail as [?|[e ->]]; [discriminate|reflexivity]. }
  split; [exact Hnone|]. split; [intros; apply scrape_never_raises|].
  intros st0 st1 found Hvalid Hdirect Hydl Hfound.
  rewrite (extract_reaches_scraper url st0 st1 st found Hvalid Hdirect Hydl Hfound).
  now rewrite Hnone.
Qed.

(** C5.  What [_scrape_media_from_page] returns has at most five
    descriptors, no two of them for the same URL; the candidates are cut
    down to five before the first download, so that at most six requests
    are issued, the first one for the page. *)
Theorem scrape_at_most_five (url : string) (st st' : State)
    (found : list MediaInfo) :
  _scrape_media_from_page cfg url st = (Ok (Some found), st') ->
  (length found <= 5)%nat
  /\ NoDup (mi_url <$> found)
  /\ exists media_urls,
       (length media_urls <= 5)%nat
       /\ mi_url <$> found `sublist_of` media_urls
       /\ net_log st' = net_log st ++ OpGet url :: (OpGet <$> media_urls).
Proof.
  unfold _scrape_media_from_page, try_except.
  unfold bind at 1. unfold session_get_content, session_get_stream.
  unfold bind at 1. unfold bind at 1. unfold issue at 1.
  destruct (session_get (net_log st) url) as [response|];
    [|unfold raise, ret; discriminate].
  unfold ret at 1.
  destruct (stream_fails response); [unfold raise, ret; discriminate|].
  unfold ret at 1. unfold bind at 1. unfold lift at 1.
  destruct (raise_for_status response); [|unfold ret; discriminate].
  unfold bind at 1. unfold lift at 1.
  destruct (collect_media_urls url (BeautifulSoup (body response)))
    as [media_urls|]; [|unfold ret; discriminate].
  unfold bind at 1.
  set (candidates := List.firstn 5 (list_of_set media_urls)).
  match goal with |- context [ download_each cfg candidates [] ?s ] =>
    destruct (download_each_spec candidates [] s)
      as (got & st1 & -> & Hsub & Hlog) end.
  simpl in Hlog. simpl app.
  destruct got as [|d got]; unfold ret; [discriminate|].
  intros [= <- <-].
  assert (Hlen : (length candidates <= 5)%nat).
  { unfold candidates. rewrite length_take. lia. }
  split; [|split].
  - apply sublist_length in Hsub. rewrite length_fmap in Hsub. lia.
  - refine (sublist_NoDup _ _ _ Hsub).
    refine (sublist_NoDup _ _ _ (sublist_take _ 5)). apply list_of_set_NoDup.
  - exists candidates. split; [exact Hlen|]. split; [exact Hsub|].
    rewrite Hlog, <- app_assoc. reflexivity.
Qed.

End PageScraperProperties.

(** ** The Delivery Tracker *)

Section TrackerProperties.
Context `{Telegram} (cfg : Config.t).
Import Config Tracker.

Lemma warnings_snoc key b kt m c x :
  warnings key {| sent_messages := m; tasks := tasks b ++ [kt];
                  chat := c; extractor := x |}
  = (warnings key b + if is_warning_for key kt then 1 else 0)%nat.
Proof.
  unfold warnings; simpl. rewrite List.filter_app, length_app; simpl.
  destruct (is_warning_for key kt); reflexivity.
Qed.

(** *** One round of the warning loop *)

Lemma warn_one_other now b k e key :
  k <> key ->
  warnings key (warn_one cfg now b (k, e)) = warnings key b
  /\ sent_messages (warn_one cfg now b (k, e)) !! key = sent_messages b !! key.
Proof.
  intros Hne. unfold warn_one.
  destruct (due_for_warning cfg now e); [|auto].
  destruct (create_task (tasks b) _); [|auto].
  rewrite warnings_snoc. unfold is_warning_for; simpl.
  rewrite (proj2 (String.eqb_neq k key) Hne). simpl.
  split; [lia|]. now apply lookup_alter_ne.
Qed.

Lemma warn_one_same now b e key :
  (warnings key (warn_one cfg now b (key, e)) = warnings key b
   /\ sent_messages (warn_one cfg now b (key, e)) !! key = sent_messages b !! key)
  \/ (warnings key (warn_one cfg now b (key, e)) = S (warnings key b)
      /\ warned e = false
      /\ sent_messages (warn_one cfg now b (key, e)) !! key
         = set_warned <$> sent_messages b !! key).
Proof.
  unfold warn_one. destruct (due_for_warning cfg now e) eqn:Hdue; [|auto].
  destruct (create_task (tasks b) _); [|auto].
  right. rewrite warnings_snoc. unfold is_warning_for; simpl.
  rewrite String.eqb_refl; simpl. split; [lia|]. split.
  - unfold due_for_warning in Hdue. apply andb_true_iff in Hdue as [_ Hw].
    now apply negb_true_iff in Hw.
  - apply lookup_alter_eq.
Qed.

(** *** The warning loop *)

Lemma warn_loop_other now l b key :
  key ∉ l.*1 ->
  warnings key (List.fold_left (warn_one cfg now) l b) = warnings key b
  /\ sent_messages (List.fold_left (warn_one cfg now) l b) !! key
     = sent_messages b !! key.
Proof.
  revert b. induction l as [|[k e] l IH]; intros b Hnotin;
    cbn [List.fold_left]; [auto|].
  rewrite fmap_cons in Hnotin. apply not_elem_of_cons in Hnotin as [Hne Hnotin].
  destruct (IH (warn_one cfg now b (k, e)) Hnotin) as [-> ->].
  apply warn_one_other. simpl in Hne. congruence.
Qed.

Lemma warn_loop_spec now l b key :
  NoDup l.*1 ->
  let b' := List.fold_left (warn_one cfg now) l b in
  (warnings key b' <= S (warnings key b))%nat
  /\ (warnings key b' = S (warnings key b) -> ~ unwarned key b')
  /\ ((forall e, (key, e) ∈ l -> warned e = true) ->
      warnings key b' = warnings key b
      /\ sent_messages b' !! key = sent_messages b !! key).
Proof.
  revert b. induction l as [|[k e] l IH]; intros b Hnodup;
    cbn [List.fold_left]; cbv zeta.
  - split; [lia|]. split; [lia|]. auto.
  - rewrite fmap_cons in Hnodup. apply NoDup_cons in Hnodup as [Hnotin Hnodup].
    simpl in Hnotin. destruct (decide (k = key)) as [->|Hne].
    + destruct (warn_loop_other now l (warn_one cfg now b (key, e)) key Hnotin)
        as [-> Hsame].
      destruct (warn_one_same now b e key) as [[-> Hlook]|(-> & Hflag & Hlook)].
      * split; [lia|]. split; [lia|]. intros _. split; [reflexivity|].
        now rewrite Hsame.
      * split; [lia|]. split.
        -- intros _ (e' & He' & Hw). rewrite Hsame, Hlook in He'.
           destruct (sent_messages b !! key); simpl in He'; [|discriminate].
           injection He' as <-. simpl in Hw. discriminate.
        -- intros Hall. specialize (Hall e ltac:(left)). congruence.
    + destruct (warn_one_other now b k e key Hne) as [Hw Hl].
      destruct (IH (warn_one cfg now b (k, e)) Hnodup) as (Hle & Hset & Hkeep).
      rewrite Hw, Hl in *. split; [exact Hle|]. split; [exact Hset|].
      intros Hall. apply Hkeep. intros e' He'. apply Hall. now right.
Qed.

(** The warning loop leaves a row in place, at most setting its flag. *)
Lemma warn_loop_lookup now l b key :
  let b' := List.fold_left (warn_one cfg now) l b in
  sent_messages b' !! key = sent_messages b !! key
  \/ sent_messages b' !! key = set_warned <$> sent_messages b !! key.
Proof.
  revert b. induction l as [|[k e] l IH]; intros b;
    cbn [List.fold_left]; cbv zeta; [auto|].
  assert (Hstep : sent_messages (warn_one cfg now b (k, e)) !! key
                  = sent_messages b !! key
                  \/ sent_messages (warn_one cfg now b (k, e)) !! key
                     = set_warned <$> sent_messages b !! key).
  { destruct (decide (k = key)) as [->|Hne].
    - destruct (warn_one_same now b e key) as [[_ ?]|(_ & _ & ?)]; auto.
    - left. now apply warn_one_other. }
  destruct (IH (warn_one cfg now b (k, e))) as [->| ->], Hstep as [->| ->]; auto.
  right. destruct (sent_messages b !! key); reflexivity.
Qed.

(** *** The deletion loop *)

Lemma delete_one_spec b k key :
  warnings key (delete_one b k) = warnings key b
  /\ (sent_messages (delete_one b k) !! key = sent_messages b !! key
      \/ sent_messages (delete_one b k) !! key = None).
Proof.
  unfold delete_one. destruct (sent_messages b !! k) as [info|]; [|auto].
  destruct (create_task (tasks b) _); [|auto].
  rewrite warnings_snoc. unfold is_warning_for; simpl.
  rewrite andb_false_r. split; [lia|].
  destruct (decide (k = key)) as [->|Hne].
  - right. apply lookup_delete_eq.
  - left. now apply lookup_delete_ne.
Qed.

Lemma delete_loop_spec l b key :
  let b' := List.fold_left delete_one l b in
  warnings key b' = warnings key b
  /\ (sent_messages b' !! key = sent_messages b !! key
      \/ sent_messages b' !! key = None).
Proof.
  revert b. induction l as [|k l IH]; intros b;
    cbn [List.fold_left]; cbv zeta; [auto|].
  destruct (IH (delete_one b k)) as [-> Hl].
  destruct (delete_one_spec b k key) as [-> Hk].
  split; [reflexivity|]. destruct Hl as [->|]; auto.
Qed.

(** *** One sweep *)

Lemma unwarned_after_delete l b key :
  ~ unwarned key b -> ~ unwarned key (List.fold_left delete_one l b).
Proof.
  intros Hnot (e & He & Hw).
  destruct (delete_loop_spec l b key) as [_ [Hl|Hl]]; rewrite Hl in He;
    [|discriminate].
  apply Hnot. now exists e.
Qed.

Lemma sweep_warnings now b key :
  (warnings key (sweep cfg b now) <= S (warnings key b))%nat
  /\ (warnings key (sweep cfg b now) = S (warnings key b) ->
      ~ unwarned key (sweep cfg b now))
  /\ (~ unwarned key b ->
      warnings key (sweep cfg b now) = warnings key b
      /\ ~ unwarned key (sweep cfg b now)).
Proof.
  unfold sweep.
  set (l := map_to_list (sent_messages b)).
  set (b1 := List.fold_left (warn_one cfg now) l b).
  destruct (warn_loop_spec now l b key (NoDup_fst_map_to_list _))
    as (Hle & Hset & Hkeep). fold b1 in Hle, Hset, Hkeep.
  destruct (delete_loop_spec (messages_to_delete cfg now (sent_messages b)) b1 key)
    as [Hw _]. cbv zeta in Hw. rewrite Hw.
  split; [exact Hle|]. split.
  - intros Heq. apply unwarned_after_delete. now apply Hset.
  - intros Hnot.
    destruct Hkeep as [Hsame Hlook].
    { intros e He%elem_of_map_to_list.
      destruct (warned e) eqn:Hflag; [reflexivity|].
      exfalso. apply Hnot. now exists e. }
    split; [exact Hsame|]. apply unwarned_after_delete.
    intros (e & He & Hflag). apply Hnot. exists e. now rewrite <- Hlook.
Qed.

Lemma worker_warnings_settled times b key :
  ~ unwarned key b ->
  warnings key (auto_delete_worker cfg times b) = warnings key b.
Proof.
  revert b. induction times as [|now times IH]; intros b Hnot;
    unfold auto_delete_worker; cbn [List.fold_left]; [reflexivity|].
  destruct (sweep_warnings now b key) as (_ & _ & Hkeep).
  destruct (Hkeep Hnot) as [<- Hnot']. now apply IH.
Qed.

Lemma worker_warns_once times b key :
  (warnings key (auto_delete_worker cfg times b) <= S (warnings key b))%nat.
Proof.
  revert b. induction times as [|now times IH]; intros b;
    unfold auto_delete_worker; cbn [List.fold_left]; [lia|].
  destruct (sweep_warnings now b key) as (Hle & Hset & _).
  destruct (decide (warnings key (sweep cfg b now) = S (warnings key b)))
    as [Heq|Hne].
  - fold (auto_delete_worker cfg times (sweep cfg b now)).
    rewrite (worker_warnings_settled times _ key (Hset Heq)). lia.
  - specialize (IH (sweep cfg b now)). unfold auto_delete_worker in IH. lia.
Qed.

(** *** The worker in its thread *)

(** Without a running event loop no task is created, and a round of
    either loop leaves the bot as it is: the [except] clauses of lines
    62-65 and 76-78 log the error, the flag is not set, the row is not
    deleted. *)
Lemma warn_loop_without_loop now l b :
  no_running_loop -> List.fold_left (warn_one cfg now) l b = b.
Proof.
  intros Hthread. induction l as [|[k e] l IH]; cbn [List.fold_left];
    [reflexivity|].
  assert (Hone : warn_one cfg now b (k, e) = b).
  { unfold warn_one. rewrite Hthread.
    now destruct (due_for_warning cfg now e). }
  now rewrite Hone.
Qed.

Lemma delete_loop_without_loop l b :
  no_running_loop -> List.fold_left delete_one l b = b.
Proof.
  intros Hthread. induction l as [|k l IH]; cbn [List.fold_left];
    [reflexivity|].
  assert (Hone : delete_one b k = b).
  { unfold delete_one. destruct (sent_messages b !! k); [|reflexivity].
    now rewrite Hthread. }
  now rewrite Hone.
Qed.

Lemma sweep_without_loop now b :
  no_running_loop -> sweep cfg b now = b.
Proof.
  intros Hthread. unfold sweep.
  now rewrite (warn_loop_without_loop _ _ _ Hthread),
    (delete_loop_without_loop _ _ Hthread).
Qed.

(** However often and whenever the worker sweeps, nothing changes: no row
    is removed, no flag set, no task created. *)
Lemma worker_without_loop times b :
  no_running_loop -> auto_delete_worker cfg times b = b.
Proof.
  intros Hthread. unfold auto_delete_worker.
  induction times as [|now times IH]; cbn [List.fold_left]; [reflexivity|].
  now rewrite (sweep_without_loop _ _ Hthread).
Qed.

End TrackerProperties.

(** ** Handling a message *)

Section MessageProperties.
Context `{PyLib} `{World} `{Telegram} (cfg : Config.t).
Import Config Utils Tracker TelegramMediaBot.

Lemma started_app ops ops' : started (ops ++ ops') = started ops ++ started ops'.
Proof. apply omap_app. Qed.

Lemma quiet_ret {A} (a : A) : quiet (ret a).
Proof. intros b. exists []. now rewrite app_nil_r. Qed.

Lemma quiet_raise {A} (e : Error) : quiet (@raise Bot A e).
Proof. intros b. exists []. now rewrite app_nil_r. Qed.

Lemma quiet_lift {A} (r : Res A) : quiet (lift r).
Proof. intros b. exists []. now rewrite app_nil_r. Qed.

Lemma quiet_bind {A B} (m : ST Bot A) (k : A -> ST Bot B) :
  quiet m -> (forall a, quiet (k a)) -> quiet (bind m k).
Proof.
  intros Hm Hk b. unfold bind.
  destruct (Hm b) as (ops & Hops & Hs).
  destruct (m b) as [[a|e] b1]; simpl in *; [|eauto].
  destruct (Hk a b1) as (ops' & Hops' & Hs').
  exists (ops ++ ops'). rewrite Hops', Hops, app_assoc, started_app, Hs, Hs'.
  auto.
Qed.

Lemma quiet_try {A} (m : ST Bot A) (h : Error -> ST Bot A) :
  quiet m -> (forall e, quiet (h e)) -> quiet (try_except m h).
Proof.
  intros Hm Hh b. unfold try_except.
  destruct (Hm b) as (ops & Hops & Hs).
  destruct (m b) as [[a|e] b1]; simpl in *; [eauto|].
  destruct (Hh e b1) as (ops' & Hops' & Hs').
  exists (ops ++ ops'). rewrite Hops', Hops, app_assoc, started_app, Hs, Hs'.
  auto.
Qed.

Lemma quiet_call op : started [op] = [] -> quiet (call op).
Proof.
  intros Hop b. exists [op]. unfold call.
  destruct (api (chat b) op); auto.
Qed.

Lemma quiet_with_extractor {A} (m : M A) : quiet (with_extractor m).
Proof.
  intros b. exists []. unfold with_extractor.
  destruct (m (extractor b)). now rewrite app_nil_r.
Qed.

Lemma quiet_track c m filename : quiet (track c m filename).
Proof. intros b. exists []. now rewrite app_nil_r. Qed.

Create HintDb quiet.
#[local] Hint Resolve quiet_ret quiet_raise quiet_lift quiet_bind quiet_try
  quiet_call quiet_with_extractor quiet_track : quiet.
#[local] Hint Extern 1 (started _ = []) => reflexivity : quiet.

Lemma quiet_send_media_file c media_info url :
  quiet (_send_media_file cfg c media_info url).
Proof.
  unfold _send_media_file.
  apply quiet_try; [|auto with quiet].
  apply quiet_bind; [auto with quiet|]. intros media_type.
  apply quiet_bind; [|auto with quiet].
  destruct media_type; auto with quiet.
  apply quiet_try; [auto with quiet|].
  intros [| | | | | | | | | | | | | |[|]]; auto with quiet.
Qed.

Lemma quiet_send_each c url media_files sent_count :
  quiet (send_each cfg c url media_files sent_count).
Proof.
  revert sent_count. induction media_files as [|media_info rest IH];
    intros sent_count; simpl; [auto with quiet|].
  apply quiet_bind; [apply quiet_send_media_file|]. intros success.
  apply quiet_bind; [apply quiet_with_extractor|]. intros _. apply IH.
Qed.

(** Once the update has been read, [_process_url] announces its URL, once,
    and nothing else. *)
Lemma process_in_chat_started c url b :
  exists ops,
    chat (process_in_chat cfg c url b).2
    = chat b ++ ReplyText (Processing url) :: ops
    /\ started ops = [].
Proof.
  unfold process_in_chat. unfold bind at 1. unfold call at 1.
  set (b1 := {| sent_messages := sent_messages b; tasks := tasks b;
                chat := chat b ++ [ReplyText (Processing url)];
                extractor := extractor b |}).
  destruct (api (chat b) (ReplyText (Processing url))) as [m|ipf].
  - match goal with |- context [ try_except ?m ?h b1 ] =>
      assert (Hq : quiet (try_except m h)) end.
    { apply quiet_try.
      - apply quiet_bind; [auto with quiet|]. intros [|d ds]; [auto 6 with quiet|].
        apply quiet_bind; [auto with quiet|]. intros _.
        apply quiet_bind; [apply quiet_send_each|]. intros sent_count.
        destruct (0 <? sent_count)%nat; auto 6 with quiet.
      - intros e. auto 6 with quiet. }
    destruct (Hq b1) as (ops & Hops & Hs).
    exists ops. rewrite Hops. subst b1; simpl. rewrite <- app_assoc. auto.
  - exists []. auto.
Qed.

(** An update with chat, user and message; and one that lacks one of them,
    for which the first lines of [_process_url] raise. *)
Lemma process_url_present update c user_id text url b :
  effective_chat update = Some c ->
  effective_user update = Some user_id ->
  message update = Some text ->
  _process_url cfg update url b = process_in_chat cfg c url b.
Proof. intros Hc Hu Hm. unfold _process_url. now rewrite Hc, Hu, Hm. Qed.

Lemma process_url_absent update url b :
  effective_chat update = None \/ effective_user update = None
  \/ message update = None ->
  _process_url cfg update url b = (Raise AttributeError, b).
Proof.
  intros Hnone. unfold _process_url.
  destruct (effective_chat update), (effective_user update),
    (message update); try reflexivity.
  destruct Hnone as [|[|]]; discriminate.
Qed.

Lemma update_cases update :
  (exists c user_id text,
     effective_chat update = Some c /\ effective_user update = Some user_id
     /\ message update = Some text)
  \/ (effective_chat update = None \/ effective_user update = None
      \/ message update = None).
Proof.
  destruct (effective_chat update), (effective_user update),
    (message update); eauto 10.
Qed.

Lemma process_url_started update url b :
  exists ops,
    chat (_process_url cfg update url b).2 = chat b ++ ops
    /\ (started ops = [url]
        \/ started ops = []
           /\ _process_url cfg update url b = (Raise AttributeError, b)).
Proof.
  destruct (update_cases update) as [(c & u & text & Hc & Hu & Hm)|Hnone].
  - rewrite (process_url_present _ _ _ _ _ _ Hc Hu Hm).
    destruct (process_in_chat_started c url b) as (ops & Hops & Hs).
    exists (ReplyText (Processing url) :: ops). split; [exact Hops|].
    left. simpl. now rewrite Hs.
  - rewrite (process_url_absent _ _ _ Hnone). exists []. simpl.
    rewrite app_nil_r. auto.
Qed.

(** The loop announces a prefix of its URLs, all of them unless it was cut
    short by an exception. *)
Lemma process_each_started update urls b :
  exists ops,
    chat (process_each cfg update urls b).2 = chat b ++ ops
    /\ started ops `prefix_of` urls
    /\ ((process_each cfg update urls b).1 = Ok tt -> started ops = urls).
Proof.
  revert b. induction urls as [|url rest IH]; intros b; simpl.
  - exists []. rewrite app_nil_r. repeat split. apply prefix_nil.
  - unfold bind.
    destruct (process_url_started update url b)
      as (ops1 & Hops1 & [Hs1|[Hs1 Hraise]]).
    + destruct (_process_url cfg update url b) as [[[]|e] b1]; simpl in Hops1.
      * destruct (IH b1) as (ops2 & Hops2 & Hpre & Hall).
        exists (ops1 ++ ops2).
        rewrite Hops2, Hops1, app_assoc, started_app, Hs1. simpl.
        split; [reflexivity|]. split; [now apply prefix_cons|].
        intros Hok. now rewrite (Hall Hok).
      * exists ops1. simpl. rewrite Hs1. split; [exact Hops1|].
        split; [|discriminate]. exists rest. reflexivity.
    + rewrite Hraise in *. exists ops1. simpl in *. rewrite Hs1.
      split; [exact Hops1|]. split; [apply prefix_nil | discriminate].
Qed.

Lemma extract_urls_valid text :
  Forall (fun url => validate_url url = true) (_extract_urls text).
Proof.
  unfold _extract_urls. apply Forall_forall.
  intros url Hin%list_elem_of_In. now apply List.filter_In in Hin as [_ ?].
Qed.

(** The text of the message is not read again once the URLs have been
    taken from it. *)
Lemma process_each_other_text update text text' urls b :
  message update = Some text ->
  process_each cfg update urls b
  = process_each cfg
      {| effective_user := effective_user update;
         effective_chat := effective_chat update;
         message := Some text' |} urls b.
Proof.
  intros Hm. revert b. induction urls as [|url rest IH]; intros b;
    cbn [process_each]; [reflexivity|].
  unfold bind.
  assert (Hone : forall b0,
    _process_url cfg update url b0
    = _process_url cfg
        {| effective_user := effective_user update;
           effective_chat := effective_chat update;
           message := Some text' |} url b0).
  { intros b0. unfold _process_url. cbn [effective_chat effective_user message].
    rewrite Hm. reflexivity. }
  rewrite <- Hone.
  destruct (_process_url cfg update url b) as [[[]|e] b1]; [apply IH|reflexivity].
Qed.

(** What the handler does for a text message: the reply of lines 194-198,
    or the loop over the first three URLs. *)
Lemma handle_text_message update text b :
  message update = Some text ->
  handle_url_message cfg update b
  = match effective_user update with
    | None => (Raise AttributeError, b)
    | Some _ =>
        match List.firstn 3 (_extract_urls (Py.strip text)) with
        | [] => bind (call (ReplyText NoValidUrls)) (fun _ => ret tt) b
        | urls => process_each cfg update urls b
        end
    end.
Proof.
  intros Hm. unfold handle_url_message. rewrite Hm.
  destruct (effective_user update); [|reflexivity].
  cbv [bind attr ret].
  now destruct (_extract_urls (Py.strip text)).
Qed.

(** C9.  Handling a text message starts the processing of at most three
    URLs: a prefix of the first three valid URLs found in the message, and
    exactly these three (or fewer, when the message has fewer) when the
    handler returns normally.  URLs after the third are ignored: a message
    with the same first three valid URLs is handled in exactly the same
    way -- the same replies, requests, files and tracked rows -- whatever
    else it holds. *)
Theorem at_most_three_urls (update : Update) (text : string) (b : Bot) :
  message update = Some text ->
  let valid := _extract_urls (Py.strip text) in
  (exists ops,
     chat (handle_url_message cfg update b).2 = chat b ++ ops
     /\ started ops `prefix_of` List.firstn 3 valid
     /\ (length (started ops) <= 3)%nat
     /\ Forall (fun url => validate_url url = true) (started ops)
     /\ ((handle_url_message cfg update b).1 = Ok tt ->
         started ops = List.firstn 3 valid))
  /\ (forall text',
        List.firstn 3 (_extract_urls (Py.strip text')) = List.firstn 3 valid ->
        handle_url_message cfg
          {| effective_user := effective_user update;
             effective_chat := effective_chat update;
             message := Some text' |} b
        = handle_url_message cfg update b).
Proof.
  intros Hm valid. split.
  - rewrite (handle_text_message update text b Hm). fold valid.
    destruct (effective_user update) as [user_id|].
    2:{ exists []. simpl. rewrite app_nil_r.
        repeat split; auto using prefix_nil; discriminate. }
    assert (Hgoal : exists ops,
      chat (process_each cfg update (List.firstn 3 valid) b).2 = chat b ++ ops
      /\ started ops `prefix_of` List.firstn 3 valid
      /\ (length (started ops) <= 3)%nat
      /\ Forall (fun url => validate_url url = true) (started ops)
      /\ ((process_each cfg update (List.firstn 3 valid) b).1 = Ok tt ->
          started ops = List.firstn 3 valid)).
    { destruct (process_each_started update (List.firstn 3 valid) b)
        as (ops & Hops & Hpre & Hall).
      exists ops. split; [exact Hops|]. split; [exact Hpre|].
      split; [|split; [|exact Hall]].
      - apply prefix_length in Hpre. rewrite length_take in Hpre. lia.
      - destruct Hpre as [k Hk].
        pose proof (extract_urls_valid (Py.strip text)) as Hvalid.
        fold valid in Hvalid.
        rewrite <- (take_drop 3 valid), Hk in Hvalid.
        now apply Forall_app in Hvalid as [[? _]%Forall_app _]. }
    destruct (List.firstn 3 valid) as [|url rest] eqn:Hfirst; [|exact Hgoal].
    exists [ReplyText NoValidUrls]. unfold bind, call.
    destruct (api (chat b) _); simpl; repeat split; auto using prefix_nil.
  - intros text' Hsame.
    rewrite (handle_text_message update text b Hm).
    rewrite (handle_text_message
               {| effective_user := effective_user update;
                  effective_chat := effective_chat update;
                  message := Some text' |} text' b eq_refl).
    cbn [effective_user]. rewrite Hsame. fold valid.
    pose proof (fun urls => process_each_other_text update text text' urls b Hm)
      as Heach.
    destruct (effective_user update); [|reflexivity].
    destruct (List.firstn 3 valid); [reflexivity|].
    symmetry. apply Heach.
Qed.

End MessageProperties.

(* ===================================================================== *)
(** * Worked examples *)
(* ===================================================================== *)

Module Examples.
Import Config Utils MediaExtractor Tracker TelegramMediaBot Scenario.

(** C8, counterexample.  The file name of the path is [.htaccess]: it has
    no extension, yet the name returned is the file name itself, not the
    synthesized one.  The same holds for [archive.] and for [..]. *)
Lemma dot_file_counterexample :
  Py.Path_name "/.htaccess" = ".htaccess"
  /\ Py.Path_suffix "/.htaccess" = ""
  /\ @get_file_extension_from_url Ref.lib "https://x.test/.htaccess" = Ok ""
  /\ @get_filename_from_url Ref.lib "https://x.test/.htaccess" = Ok ".htaccess"
  /\ @get_filename_from_url Ref.lib "https://x.test/.htaccess"
     <> Ok ("media_" +:+ Py.take 8 (Ref.md5_hexdigest "https://x.test/.htaccess"))
  /\ Py.Path_suffix "/pub/archive." = ""
  /\ @get_filename_from_url Ref.lib "https://x.test/pub/archive." = Ok "archive."
  /\ Py.Path_suffix "/pub/.." = ""
  /\ @get_filename_from_url Ref.lib "https://x.test/pub/.." = Ok "..".
Proof. repeat split; try reflexivity. vm_compute. discriminate. Qed.

(** Scenario A of the specification, with a six-byte body. *)
Example scenario_a :
  (@extract_media_from_url Ref.lib (serve jpeg6) config_py
     "https://x.test/a.jpg" Ref.start).1
  = Ok [ {| mi_file_path := "/tmp/tmp0.jpg"; mi_filename := "a.jpg";
            mi_size := 6; mi_type := image; mi_url := "https://x.test/a.jpg";
            mi_content_type := Some "image/jpeg"; mi_title := None |} ].
Proof. vm_compute. reflexivity. Qed.

(** Scenario B: only the Open Graph image is a candidate. *)
Example scenario_b :
  @collect_media_urls Ref.lib page_b "https://x.test/page.html"
    (@BeautifulSoup page_b "<html>")
  = Ok {[ "https://x.test/c.png" ]}
  /\ (@_scrape_media_from_page Ref.lib page_b config_py
        "https://x.test/page.html" Ref.start).1
     = Ok (Some [ {| mi_file_path := "/tmp/tmp0.png"; mi_filename := "c.png";
                     mi_size := 3; mi_type := image;
                     mi_url := "https://x.test/c.png";
                     mi_content_type := Some "image/png";
                     mi_title := None |} ]).
Proof. split; vm_compute; reflexivity. Qed.

(** A six-byte body under a ceiling of four bytes. *)
Lemma direct_fetch_ceiling_witness :
  (@_download_direct_media Ref.lib (serve jpeg6) tiny
     "https://x.test/a.jpg" Ref.start).1
  = Raise FileTooLargeDuringDownload
  /\ temp_files
       (@_download_direct_media Ref.lib (serve jpeg6) tiny
          "https://x.test/a.jpg" Ref.start).2
     = [].
Proof.
  destruct (@_download_direct_media Ref.lib (serve jpeg6) tiny
              "https://x.test/a.jpg" Ref.start) as [r st'] eqn:Hrun.
  destruct (@direct_fetch_ceiling Ref.lib (serve jpeg6) tiny
              "https://x.test/a.jpg" Ref.start st' r
              ltac:(discriminate) Hrun) as [Hover _].
  destruct (Hover jpeg6 eq_refl eq_refl) as (_ & Hfiles & Hexc).
  split; [exact (Hexc ".jpg" eq_refl) | exact Hfiles].
Defined.

(** C2, counterexample.  An error page: the content type is [text/html]
    and the body starts with [<html], yet the exception is the HTTP error
    of [raise_for_status], not "Downloaded content is HTML, not media". *)
Lemma html_error_page_counterexample :
  header_content_type html_404 = Some "text/html"
  /\ Py.startswith (content_type_of html_404) "text/html" = true
  /\ Py.contains "<html" (Py.lower (Py.take 1000 (body html_404))) = true
  /\ (@_download_direct_media Ref.lib (serve html_404) config_py
        "https://x.test/missing.jpg" Ref.start).1
     = Raise (HTTPError 404)
  /\ (@_download_direct_media Ref.lib (serve html_404) config_py
        "https://x.test/missing.jpg" Ref.start).1
     <> Raise ContentIsHTML.
Proof. repeat split; try (vm_compute; reflexivity). vm_compute. discriminate. Qed.

(** A login page served with status 200 is rejected as HTML. *)
Lemma html_is_rejected_witness :
  @_download_direct_media Ref.lib (serve html_ok) config_py
    "https://x.test/a.jpg" Ref.start
  = (Raise ContentIsHTML, requested "https://x.test/a.jpg" Ref.start).
Proof.
  destruct (@html_is_rejected Ref.lib (serve html_ok) config_py
              "https://x.test/a.jpg" Ref.start html_ok eq_refl eq_refl)
    as (_ & Hhtml & _ & _).
  apply (Hhtml ".html" (body html_ok)); vm_compute; reflexivity.
Defined.

(** C4, counterexample.  The request for the page raises; the scraper
    returns [None] instead of raising. *)
Lemma scrape_fetch_error_counterexample :
  @session_get offline [] "https://x.test/page.html" = None
  /\ (@_scrape_media_from_page Ref.lib offline config_py
        "https://x.test/page.html" Ref.start).1
     = Ok None
  /\ forall e,
       (@_scrape_media_from_page Ref.lib offline config_py
          "https://x.test/page.html" Ref.start).1
       <> Raise e.
Proof. repeat split. intros e. vm_compute. discriminate. Qed.

(** The same failed fetch, through the theorem. *)
Lemma scrape_swallows_fetch_error_witness :
  @_scrape_media_from_page Ref.lib offline config_py
    "https://x.test/page.html" Ref.start
  = (Ok None, requested "https://x.test/page.html" Ref.start).
Proof.
  destruct (@scrape_swallows_fetch_error Ref.lib offline config_py
              "https://x.test/page.html" Ref.start I) as (Hnone & _ & _).
  exact Hnone.
Defined.


(** A path without a dot, one with an extension, and a dot file. *)
Lemma get_filename_from_url_spec_witness :
  @get_filename_from_url Ref.lib "https://x.test/download"
  = Ok "media_01234567"
  /\ @get_filename_from_url Ref.lib "https://x.test/pics/a.jpg" = Ok "a.jpg"
  /\ @get_filename_from_url Ref.lib "https://x.test/.htaccess" = Ok ".htaccess".
Proof.
  split; [|split].
  - destruct (@get_filename_from_url_spec Ref.lib "https://x.test/download"
                {| scheme := "https"; netloc := "x.test"; path := "/download" |}
                eq_refl) as (Hhash & _ & _ & _).
    apply Hhash. right. reflexivity.
  - destruct (@get_filename_from_url_spec Ref.lib "https://x.test/pics/a.jpg"
                {| scheme := "https"; netloc := "x.test"; path := "/pics/a.jpg" |}
                eq_refl) as (_ & _ & Hext & _).
    apply Hext. discriminate.
  - destruct (@get_filename_from_url_spec Ref.lib "https://x.test/.htaccess"
                {| scheme := "https"; netloc := "x.test"; path := "/.htaccess" |}
                eq_refl) as (_ & Hname & _ & _).
    apply Hname; [discriminate | reflexivity].
Defined.

(** C6.  Two renditions within the budget whose ['quality'] holds [None]:
    the comparison of line 186 raises [TypeError], no rendition is settled
    on, and the extractor ends with [None] after the one request for the
    description, without a download -- where the specification has the
    better of the two selected.  With the key absent from both, the first
    of them is selected. *)
Theorem unrated_renditions_select_nothing :
  within_budget config_py unrated1 = true
  /\ within_budget config_py unrated2 = true
  /\ select_format config_py [unrated1; unrated2] = Raise TypeError
  /\ @_extract_with_ytdlp Ref.lib unrated_engine config_py
       "https://v.test/w" Ref.start
     = (Ok None,
        {| temp_files := []; net_log := [OpExtractInfo "https://v.test/w"] |})
  /\ select_format config_py
       [ {| filesize := Some 1000; filesize_approx := None; quality := None |};
         {| filesize := Some 2000; filesize_approx := None; quality := None |} ]
     = Ok (Some {| filesize := Some 1000; filesize_approx := None;
                   quality := None |}).
Proof.
  assert (Hsel : select_format config_py [unrated1; unrated2] = Raise TypeError).
  { apply (select_format_type_error config_py [] unrated1 [] unrated2 []);
      try constructor; reflexivity. }
  split; [reflexivity|]. split; [reflexivity|]. split; [exact Hsel|].
  split; [|reflexivity].
  apply (@extract_with_ytdlp_type_error Ref.lib unrated_engine config_py
           "https://v.test/w" Ref.start
           {| formats := [unrated1; unrated2]; video_title := Some "Clip" |}
           eq_refl Hsel).
Qed.

(** A JPEG is an image and not a video. *)
Lemma image_video_exclusive_witness :
  @is_image Ref.lib "https://x.test/a.jpg" = Ok true
  /\ @is_video Ref.lib "https://x.test/a.jpg" = Ok false.
Proof.
  split; [reflexivity|].
  destruct (@image_video_exclusive Ref.lib offline config_py)
    as (_ & Himage & _ & _).
  apply Himage. reflexivity.
Defined.

(** Seven candidates, five descriptors. *)
Lemma scrape_at_most_five_witness :
  exists found st',
    @_scrape_media_from_page Ref.lib gallery config_py
      "https://x.test/page.html" Ref.start
    = (Ok (Some found), st')
    /\ (length found <= 5)%nat
    /\ NoDup (mi_url <$> found).
Proof.
  destruct (@_scrape_media_from_page Ref.lib gallery config_py
              "https://x.test/page.html" Ref.start)
    as [[[found|]|e] st'] eqn:Hrun;
    [|vm_compute in Hrun; discriminate..].
  exists found, st'. split; [reflexivity|].
  destruct (@scrape_at_most_five Ref.lib gallery config_py
              "https://x.test/page.html" Ref.start st' found Hrun)
    as (Hlen & Hnodup & _).
  split; [exact Hlen | exact Hnodup].
Defined.

(** C3.  The row of the scenario in the worker's thread, where no event
    loop runs: it has expired at time 4000, yet the sweep leaves it in the
    table, and so does every later sweep; no delete request is ever
    issued.  Inside the warning window (time 3400) no warning is created
    either. *)
Theorem expired_row_stays_tracked :
  @no_running_loop (Ref.telegram false 0)
  /\ sent_messages tracking !! "7_1" = Some row
  /\ expired config_py 4000 row = true
  /\ @sweep (Ref.telegram false 0) config_py tracking 4000 = tracking
  /\ @auto_delete_worker (Ref.telegram false 0) config_py
       [4000; 4600; 5200; 5800] tracking
     = tracking
  /\ due_for_warning config_py 3400 row = true
  /\ @sweep (Ref.telegram false 0) config_py tracking 3400 = tracking.
Proof.
  assert (Hthread : @no_running_loop (Ref.telegram false 0)).
  { intros created task. reflexivity. }
  split; [exact Hthread|]. split; [vm_compute; reflexivity|].
  split; [reflexivity|].
  split; [exact (sweep_without_loop config_py 4000 tracking Hthread)|].
  split; [exact (worker_without_loop config_py _ tracking Hthread)|].
  split; [reflexivity|].
  exact (sweep_without_loop config_py 3400 tracking Hthread).
Qed.

(** A message with four URLs: the first three are processed, and the
    message is handled as the one with these three alone. *)
Lemma at_most_three_urls_witness :
  (exists ops,
     chat (@handle_url_message Ref.lib (serve jpeg6) (Ref.telegram true 0)
             config_py (text_update four_urls) (Ref.bot ∅)).2
     = ops
     /\ started ops
        = ["http://a.test/1.jpg"; "http://a.test/2.jpg"; "http://a.test/3.jpg"])
  /\ @handle_url_message Ref.lib (serve jpeg6) (Ref.telegram true 0)
       config_py (text_update three_urls) (Ref.bot ∅)
     = @handle_url_message Ref.lib (serve jpeg6) (Ref.telegram true 0)
         config_py (text_update four_urls) (Ref.bot ∅).
Proof.
  destruct (@at_most_three_urls Ref.lib (serve jpeg6) (Ref.telegram true 0)
              config_py (text_update four_urls) four_urls (Ref.bot ∅) eq_refl)
    as [(ops & Hchat & _ & _ & _ & Hall) Hsame].
  split.
  - exists ops. split; [exact Hchat|].
    rewrite Hall; [|vm_compute; reflexivity]. vm_compute. reflexivity.
  - apply (Hsame three_urls). vm_compute. reflexivity.
Defined.

End Examples.

(* ===================================================================== *)
(** * Further properties *)
(* ===================================================================== *)

(** ** Strings and paths *)

Lemma lower_ascii_slash (c : ascii) :
  Ascii.eqb (Py.lower_ascii c) "/" = Ascii.eqb c "/".
Proof. destruct c as [[] [] [] [] [] [] [] []]; reflexivity. Qed.

Lemma lower_ascii_dot (c : ascii) :
  Ascii.eqb (Py.lower_ascii c) "." = Ascii.eqb c ".".
Proof. destruct c as [[] [] [] [] [] [] [] []]; reflexivity. Qed.

Lemma lower_ascii_idem (c : ascii) :
  Py.lower_ascii (Py.lower_ascii c) = Py.lower_ascii c.
Proof. destruct c as [[] [] [] [] [] [] [] []]; reflexivity. Qed.

Lemma lower_idem (s : string) : Py.lower (Py.lower s) = Py.lower s.
Proof.
  induction s as [|c s IH]; simpl; [reflexivity|].
  now rewrite lower_ascii_idem, IH.
Qed.

Lemma lower_length (s : string) :
  String.length (Py.lower s) = String.length s.
Proof. induction s as [|c s IH]; simpl; [reflexivity | now rewrite IH]. Qed.

Lemma lower_eq_empty (s : string) :
  String.eqb (Py.lower s) "" = String.eqb s "".
Proof. destruct s; reflexivity. Qed.

Lemma lower_eq_dot (s : string) :
  String.eqb (Py.lower s) "." = String.eqb s ".".
Proof.
  destruct s as [|c [|d s]]; simpl; try reflexivity.
  - now rewrite lower_ascii_dot.
  - rewrite lower_ascii_dot. now destruct (Ascii.eqb c ".").
Qed.

Lemma split_lower (sep : ascii) (s : string) :
  (forall c, Ascii.eqb (Py.lower_ascii c) sep = Ascii.eqb c sep) ->
  Py.split sep (Py.lower s) = List.map Py.lower (Py.split sep s).
Proof.
  intros Hsep. induction s as [|c s IH]; simpl; [reflexivity|].
  rewrite Hsep, IH. destruct (Ascii.eqb c sep); [reflexivity|].
  destruct (Py.split sep s); reflexivity.
Qed.

Lemma filter_map_lower (f : string -> bool) (l : list string) :
  (forall x, f (Py.lower x) = f x) ->
  List.filter f (List.map Py.lower l) = List.map Py.lower (List.filter f l).
Proof.
  intros Hf. induction l as [|x l IH]; simpl; [reflexivity|].
  rewrite Hf, IH. now destruct (f x).
Qed.

Lemma last_map_lower (l : list string) :
  List.last (List.map Py.lower l) "" = Py.lower (List.last l "").
Proof.
  induction l as [|x l IH]; [reflexivity|].
  destruct l as [|y l]; [reflexivity|]. exact IH.
Qed.

Lemma Path_name_lower (p : string) :
  Py.Path_name (Py.lower p) = Py.lower (Py.Path_name p).
Proof.
  unfold Py.Path_name. rewrite (split_lower _ _ lower_ascii_slash).
  rewrite filter_map_lower; [apply last_map_lower|].
  intros x. now rewrite lower_eq_empty, lower_eq_dot.
Qed.

Lemma rfind_lower (s : string) :
  Py.rfind "." (Py.lower s) = Py.rfind "." s.
Proof.
  induction s as [|c s IH]; simpl; [reflexivity|].
  now rewrite IH, lower_ascii_dot.
Qed.

Lemma drop_lower (i : nat) (s : string) :
  Py.drop i (Py.lower s) = Py.lower (Py.drop i s).
Proof.
  revert s. induction i as [|i IH]; intros s; [reflexivity|].
  destruct s as [|c s]; simpl; [reflexivity | apply IH].
Qed.

(** The suffix of a lower-cased path is the lower-cased suffix. *)
Lemma Path_suffix_lower (p : string) :
  Py.Path_suffix (Py.lower p) = Py.lower (Py.Path_suffix p).
Proof.
  unfold Py.Path_suffix. rewrite Path_name_lower, rfind_lower, lower_length.
  destruct (Py.rfind "." (Py.Path_name p)) as [i|]; [|reflexivity].
  destruct ((0 <? i) && (i <? String.length (Py.Path_name p) - 1))%nat;
    [apply drop_lower | reflexivity].
Qed.

Lemma prefix_lower (q s : string) :
  Py.lower q = q -> String.prefix q s = true ->
  String.prefix q (Py.lower s) = true.
Proof.
  revert s. induction q as [|a q IH]; intros s Hq Hpre; [now destruct s|].
  destruct s as [|b s]; [discriminate|]. simpl in *.
  injection Hq as Ha Hq.
  destruct (ascii_dec a b) as [<-|]; [|discriminate].
  rewrite Ha. destruct (ascii_dec a a); [now apply IH | congruence].
Qed.

(** No piece of [s.split(sep)] contains the separator. *)
Lemma split_no_sep (sep : ascii) (s : string) :
  Forall (fun w => Py.contains (String sep "") w = false) (Py.split sep s).
Proof.
  induction s as [|c s IH]; simpl.
  - repeat constructor.
  - destruct (Ascii.eqb_spec c sep) as [->|Hne].
    + constructor; [reflexivity | exact IH].
    + destruct (Py.split sep s) as [|w ws]; inversion IH; subst;
        constructor; try assumption; simpl;
        destruct (ascii_dec sep c); try congruence; simpl; try reflexivity.
      assumption.
Qed.

Lemma Path_name_no_slash (p : string) :
  Py.contains "/" (Py.Path_name p) = false.
Proof.
  unfold Py.Path_name.
  pose proof (split_no_sep "/" p) as Hall.
  set (keep := fun x => negb (String.eqb x "" || String.eqb x ".")).
  assert (Hfilter : Forall (fun w => Py.contains "/" w = false)
                      (List.filter keep (Py.split "/" p))).
  { apply Forall_forall. intros w Hin%list_elem_of_In.
    apply List.filter_In in Hin as [Hin%list_elem_of_In _].
    now apply (proj1 (Forall_forall _ _) Hall). }
  induction Hfilter as [|w [|w' l] Hw Hrest IH]; [reflexivity| exact Hw |exact IH].
Qed.

Lemma prefix_empty (s : string) : String.prefix "" s = true.
Proof. now destruct s. Qed.

Lemma split_head_cons (sep c : ascii) (r : string) :
  Ascii.eqb c sep = false ->
  List.hd "" (Py.split sep (String c r))
  = String c (List.hd "" (Py.split sep r)).
Proof.
  intros Hne. simpl. rewrite Hne. now destruct (Py.split sep r).
Qed.

(** The first piece of a split is everything before the first separator. *)
Lemma split_head (sep : ascii) (a b : string) :
  Py.contains (String sep "") a = false ->
  List.hd "" (Py.split sep a) = a
  /\ List.hd "" (Py.split sep (a +:+ String sep b)) = a.
Proof.
  induction a as [|c a IH]; intros Hno.
  - split; [reflexivity|].
    change ("" +:+ String sep b) with (String sep b).
    simpl. now rewrite Ascii.eqb_refl.
  - simpl in Hno. destruct (ascii_dec sep c) as [->|Hne];
      [now rewrite prefix_empty in Hno|].
    simpl in Hno. destruct (IH Hno) as [H1 H2].
    assert (Hc : Ascii.eqb c sep = false).
    { apply Ascii.eqb_neq. congruence. }
    rewrite append_cons, !split_head_cons by exact Hc.
    now rewrite H1, H2.
Qed.

(** ** utils.py, further *)

Section UtilsFurther.
Context `{PyLib}.
Import Config Utils.

(** X1.  A path or URL is supported media exactly when it is an image or a
    video, and then it is exactly one of the two; the three tests raise
    together. *)
Theorem supported_is_image_or_video (s : string) :
  (is_supported_media s = Ok true <->
   (is_image s = Ok true /\ is_video s = Ok false)
   \/ (is_image s = Ok false /\ is_video s = Ok true))
  /\ (is_supported_media s = Ok false <->
      is_image s = Ok false /\ is_video s = Ok false)
  /\ (forall e, is_supported_media s = Raise e <->
                is_image s = Raise e /\ is_video s = Raise e).
Proof.
  unfold is_supported_media, is_image, is_video, res_bind.
  destruct (ext_of s) as [ext|e0].
  - pose proof (image_video_disjoint ext) as Hdis.
    destruct (bool_decide (ext ∈ SUPPORTED_IMAGE_FORMATS)) eqn:Hi;
      destruct (bool_decide (ext ∈ SUPPORTED_VIDEO_FORMATS)) eqn:Hv; simpl.
    + exfalso. apply bool_decide_eq_true in Hi, Hv. exact (Hdis Hi Hv).
    + repeat split; try tauto; try discriminate; intuition discriminate.
    + repeat split; try tauto; try discriminate; intuition discriminate.
    + repeat split; try tauto; try discriminate; intuition discriminate.
  - repeat split; try discriminate; try tauto; intuition (try discriminate; congruence).
Qed.

(** X2.  Recognition by extension ignores the case of a local path: a
    path that is not taken for a URL is an image, a video or supported
    media exactly when its lower-cased form is. *)
Theorem extension_ignores_case (file_path : string) :
  Py.startswith (Py.lower file_path) "http" = false ->
  is_image (Py.lower file_path) = is_image file_path
  /\ is_video (Py.lower file_path) = is_video file_path
  /\ is_supported_media (Py.lower file_path) = is_supported_media file_path.
Proof.
  intros Hlocal.
  assert (Hext : ext_of (Py.lower file_path) = ext_of file_path).
  { unfold ext_of. rewrite Hlocal.
    destruct (Py.startswith file_path "http") eqn:Hpre.
    - unfold Py.startswith in *.
      now rewrite (prefix_lower "http" file_path eq_refl Hpre) in Hlocal.
    - now rewrite Path_suffix_lower, lower_idem. }
  unfold is_image, is_video, is_supported_media. now rewrite Hext.
Qed.

(** X3.  The name [get_filename_from_url] returns is never empty; it is
    either the synthesized ["media_"] name or the last component of the
    unquoted path, which contains a dot and no slash. *)
Theorem filename_is_safe (url name : string) :
  get_filename_from_url url = Ok name ->
  name <> ""
  /\ (name = "media_" +:+ Py.take 8 (md5_hexdigest url)
      \/ (Py.contains "." name = true /\ Py.contains "/" name = false
          /\ exists r, urlparse url = Some r
                       /\ name = Py.Path_name (unquote (path r)))).
Proof.
  unfold get_filename_from_url, parse, res_bind.
  destruct (urlparse url) as [r|]; [|discriminate].
  set (filename := Py.Path_name (unquote (path r))).
  destruct (Py.truthy filename) eqn:Htruthy; simpl.
  - destruct (Py.contains "." filename) eqn:Hdot; simpl; intros [= <-].
    + split; [now destruct filename|]. right. split; [exact Hdot|].
      split; [apply Path_name_no_slash | eauto].
    + split; [discriminate | now left].
  - intros [= <-]. split; [discriminate | now left].
Qed.

(** X4.  [get_file_extension_from_content_type] looks only at what comes
    before the first semicolon of the header, and answers [None] for a
    missing or empty header. *)
Theorem content_type_parameters_ignored (mime params : string) :
  mime <> "" ->
  Py.contains ";" mime = false ->
  get_file_extension_from_content_type (Some (mime +:+ ";" +:+ params))
  = get_file_extension_from_content_type (Some mime)
  /\ get_file_extension_from_content_type (Some "") = None
  /\ get_file_extension_from_content_type None = None.
Proof.
  intros Hne Hno. split; [|split; reflexivity].
  destruct (split_head ";" mime params Hno) as [H1 H2].
  unfold get_file_extension_from_content_type.
  change (mime +:+ ";" +:+ params) with (mime +:+ String ";" params).
  rewrite H1, H2.
  destruct mime as [|c mime]; [congruence|]. reflexivity.
Qed.

End UtilsFurther.

(** ** The Direct Fetcher and the classifier, further *)

Section DirectFetcherFurther.
Context `{PyLib} `{World} (cfg : Config.t).
Import Config Utils MediaExtractor.

Lemma read_body_no_failure chunks fails acc content :
  read_body cfg chunks fails acc = Ok content -> fails = false.
Proof.
  revert acc. induction chunks as [|chunk rest IH]; intros acc; simpl.
  - now destruct fails.
  - destruct (MAX_DOCUMENT_SIZE cfg <? Py.len (acc +:+ chunk)); [discriminate|].
    apply IH.
Qed.

(** X5.  A successful direct download wrote exactly the body it received:
    one descriptor, for the requested URL, whose size is the length of the
    body and whose file holds the body; the status was no error status, the
    stream did not fail and the body did not look like HTML. *)
Theorem direct_fetch_success (url : string) (st st' : State)
    (ds : list MediaInfo) :
  _download_direct_media cfg url st = (Ok ds, st') ->
  exists response d,
    session_get (net_log st) url = Some response
    /\ raise_for_status response = Ok tt
    /\ stream_fails response = false
    /\ looks_like_html (content_type_of response) (body response) = false
    /\ ds = [d]
    /\ mi_url d = url
    /\ mi_size d = Py.len (body response)
    /\ mi_content_type d = Some (content_type_of response)
    /\ st' = written (mi_file_path d) (body response) (requested url st).
Proof.
  rewrite download_direct_unfold.
  destruct (session_get (net_log st) url) as [response|]; [|discriminate].
  unfold before_body, res_bind.
  destruct (raise_for_status response) as [[]|] eqn:Hstatus; [|discriminate].
  destruct (check_content_length cfg response) as [[]|]; [|discriminate].
  destruct (guess_ext response url) as [ext|]; [|discriminate].
  destruct (read_body cfg (chunks response) (stream_fails response) "")
    as [content|] eqn:Hloop; [|discriminate].
  pose proof (read_body_no_failure _ _ _ _ Hloop) as Hfails.
  apply read_body_ok in Hloop as [Hcontent _].
  change (content = body response) in Hcontent. subst content.
  rewrite after_body_unfold. cbv zeta. fold (content_type_of response).
  destruct (looks_like_html _ (body response)) eqn:Hhtml; [discriminate|].
  destruct (get_filename_from_url url) as [filename|]; [|discriminate].
  destruct (temp_write _ _ (body response)); [|discriminate..].
  destruct (classify _ _ url filename) as [k|]; [|discriminate].
  intros [= <- <-]. eexists response, _. repeat split; assumption.
Qed.

(** X6.  A response with a 4xx or 5xx status makes the download raise the
    HTTP error at once: the body is not read and nothing is written. *)
Theorem direct_fetch_error_status (url : string) (st : State)
    (response : Response) :
  session_get (net_log st) url = Some response ->
  400 <= status_code response < 600 ->
  _download_direct_media cfg url st
  = (Raise (HTTPError (status_code response)), requested url st).
Proof.
  intros Hget [Hlo Hhi]. rewrite download_direct_unfold, Hget.
  unfold before_body, raise_for_status, res_bind.
  apply Z.leb_le in Hlo. apply Z.ltb_lt in Hhi. now rewrite Hlo, Hhi.
Qed.

(** X7.  The declared length is checked before the body is read: a
    non-empty Content-Length header that [int] rejects makes the download
    raise that error, and one above the ceiling makes it raise "File too
    large", whatever the body is; nothing is written. *)
Theorem direct_fetch_declared_length (url : string) (st : State)
    (response : Response) (cl : string) :
  session_get (net_log st) url = Some response ->
  raise_for_status response = Ok tt ->
  content_length response = Some cl ->
  cl <> "" ->
  (py_int cl = None ->
   _download_direct_media cfg url st
   = (Raise (InvalidLiteral cl), requested url st))
  /\ (forall size,
        py_int cl = Some size -> MAX_DOCUMENT_SIZE cfg < size ->
        _download_direct_media cfg url st
        = (Raise (FileTooLarge size), requested url st)).
Proof.
  intros Hget Hstatus Hcl Hne.
  rewrite download_direct_unfold, Hget.
  unfold before_body, check_content_length, res_bind. rewrite Hstatus, Hcl.
  destruct cl as [|c cl]; [congruence|]. simpl Py.truthy. cbv iota.
  split.
  - now intros ->.
  - intros size -> Hover. apply Z.ltb_lt in Hover. now rewrite Hover.
Qed.

Lemma image_ext_cases content_type ext :
  Py.startswith content_type "image/" = true ->
  image_ext content_type ext ∈ [".jpg"; ".png"; ".gif"; ".webp"].
Proof.
  intros Himg. unfold image_ext. rewrite Himg.
  destruct (_ || _); [set_solver|].
  repeat (match goal with |- context [ if ?b then _ else _ ] => destruct b end;
          [set_solver|]).
  set_solver.
Qed.

(** X8.  The content type decides first: when it starts with ["image/"],
    a successful download is classified as an image, whatever the
    extension of the URL, and its file gets one of the suffixes [.jpg],
    [.png], [.gif], [.webp]. *)
Theorem image_content_type_wins (url : string) (st st' : State)
    (response : Response) (ds : list MediaInfo) :
  session_get (net_log st) url = Some response ->
  Py.startswith (content_type_of response) "image/" = true ->
  _download_direct_media cfg url st = (Ok ds, st') ->
  exists d suffix,
    ds = [d]
    /\ mi_type d = image
    /\ suffix ∈ [".jpg"; ".png"; ".gif"; ".webp"]
    /\ mi_file_path d = temp_name (temp_files st) suffix.
Proof.
  intros Hget Himg. rewrite download_direct_unfold, Hget.
  destruct (before_body cfg response url) as [ext|]; [|discriminate].
  destruct (read_body cfg (chunks response) (stream_fails response) "")
    as [content|]; [|discriminate].
  rewrite after_body_unfold. cbv zeta. fold (content_type_of response).
  destruct (looks_like_html _ content); [discriminate|].
  destruct (get_filename_from_url url) as [filename|]; [|discriminate].
  pose proof (image_ext_cases _ ext Himg) as Hext.
  assert (Hsuffix : temp_suffix (Some (image_ext (content_type_of response) ext))
                    = image_ext (content_type_of response) ext).
  { set (e := image_ext _ ext) in *.
    repeat (apply elem_of_cons in Hext as [->|Hext]; [reflexivity|]).
    now apply not_elem_of_nil in Hext. }
  rewrite Hsuffix.
  destruct (temp_write _ _ content); [|discriminate..].
  unfold classify, or_else, res_bind. rewrite Himg.
  destruct (if Py.startswith (content_type_of response) "video/" then _ else _);
    [|discriminate].
  intros [= <- <-]. eexists _, _. split; [reflexivity|]. simpl.
  split; [reflexivity|]. split; [exact Hext | reflexivity].
Qed.

(** X9.  The header probe never raises: it issues one HEAD request and
    answers [False] when the request fails. *)
Theorem check_content_type_total (url : string) (st : State) :
  exists b,
    _check_content_type url st
    = (Ok b, {| temp_files := temp_files st;
                net_log := net_log st ++ [OpHead url] |})
    /\ (session_head (net_log st) url = None -> b = false).
Proof.
  unfold _check_content_type, try_except, bind, issue, ret, raise; simpl.
  destruct (session_head (net_log st) url) as [response|].
  - eexists. split; [reflexivity | discriminate].
  - exists false. split; reflexivity.
Qed.

(** X10.  A valid URL with a supported extension goes straight to the
    Direct Fetcher: the classifier issues no probe, and the entry point
    returns what the download returns -- its failure included -- without
    trying the video engine or the scraper. *)
Theorem supported_extension_is_direct (url : string) (st : State) :
  validate_url url = true ->
  is_supported_media url = Ok true ->
  _is_direct_media_url url st = (Ok true, st)
  /\ extract_media_from_url cfg url st = _download_direct_media cfg url st.
Proof.
  intros Hvalid Hsup.
  assert (Hdirect : _is_direct_media_url url st = (Ok true, st)).
  { unfold _is_direct_media_url, bind, lift, ret.
    unfold get_file_extension_from_url, parse, res_bind.
    unfold validate_url in Hvalid.
    destruct (urlparse url) as [r|]; [|discriminate]. now rewrite Hsup. }
  split; [exact Hdirect|].
  unfold extract_media_from_url. rewrite Hvalid. simpl.
  unfold bind at 1. now rewrite Hdirect.
Qed.

(** X11.  What the entry point returns is never an empty list, and it
    returns only for a URL that passes [validate_url]. *)
Theorem extract_never_empty (url : string) (st st' : State)
    (media_files : list MediaInfo) :
  extract_media_from_url cfg url st = (Ok media_files, st') ->
  media_files <> [] /\ validate_url url = true.
Proof.
  unfold extract_media_from_url.
  destruct (validate_url url); simpl; [|discriminate].
  unfold bind at 1.
  destruct (_is_direct_media_url url st) as [[[]|] st1]; [| |discriminate].
  - intros (d & content & -> & _)%download_direct_ok. split; [discriminate|reflexivity].
  - assert (Hscrape : forall st2,
      bind (_scrape_media_from_page cfg url)
        (fun media_files =>
           match media_files with
           | Some (f :: fs) => ret (f :: fs)
           | _ => raise NoSupportedMediaFound
           end) st2 = (Ok media_files, st') ->
      media_files <> [] /\ true = true).
    { intros st2. unfold bind.
      destruct (_scrape_media_from_page cfg url st2) as [[[[|g gs]|]|] st3];
        unfold ret, raise; try discriminate.
      intros [= <- <-]. split; [discriminate|reflexivity]. }
    unfold bind at 1.
    destruct (_extract_with_ytdlp cfg url st1) as [[[[|f fs]|]|] st2].
    + apply Hscrape.
    + unfold ret. intros [= <- <-]. split; [discriminate|reflexivity].
    + apply Hscrape.
    + discriminate.
Qed.

End DirectFetcherFurther.

(** ** The Platform Extractor, further *)

Section PlatformExtractorFurther.
Context `{PyLib} `{World} (cfg : Config.t).
Import Config Utils MediaExtractor.

(** What is kept of the download directory. *)
Lemma downloaded_files_spec temp_dir url title files found :
  downloaded_files temp_dir url title files = Ok found ->
  Forall (fun d => mi_url d = url
                   /\ is_supported_media (mi_file_path d) = Ok true
                   /\ (mi_type d = video \/ mi_type d = image)
                   /\ (mi_type d = video <-> is_video (mi_file_path d) = Ok true)
                   /\ mi_title d = Some (default "Unknown" title))
         found.
Proof.
  revert found. induction files as [|file rest IH]; intros found; simpl.
  - intros [= <-]. constructor.
  - unfold res_bind at 1.
    destruct (if entry_is_file file then _ else _) as [[]|] eqn:Hkeep;
      [| apply IH | discriminate].
    destruct (entry_is_file file); [|discriminate].
    unfold res_bind at 1.
    destruct (is_video _) as [is_vid|] eqn:Hvid; [|discriminate].
    unfold res_bind at 1.
    destruct (downloaded_files temp_dir url title rest) as [tl|]; [|discriminate].
    intros [= <-]. constructor; [|now apply IH]. simpl.
    split; [reflexivity|]. split; [exact Hkeep|].
    destruct is_vid; (split; [auto|]); (split; [|reflexivity]);
      split; congruence.
Qed.

(** The download of lines 193-223: one request to the engine, for the URL
    itself; what it returns is not empty. *)
Lemma ydl_fetch_spec url v st1 :
  exists r st',
    ydl_fetch url v st1 = (r, st')
    /\ temp_files st' = temp_files st1
    /\ net_log st' = net_log st1 ++ [OpYdlDownload url]
    /\ (forall l, r = Ok (Some l) ->
        l <> []
        /\ Forall (fun d =>
                     mi_url d = url
                     /\ is_supported_media (mi_file_path d) = Ok true
                     /\ mi_type d <> document
                     /\ (mi_type d = video <->
                         is_video (mi_file_path d) = Ok true)) l
        /\ Forall (fun d =>
                     mi_title d = Some (default "Unknown" (video_title v))) l).
Proof.
  unfold ydl_fetch, bind, issue, lift, raise, ret; simpl.
  destruct (ydl_download _ url _) as [files|];
    [|eexists _, _; repeat split; discriminate].
  destruct (downloaded_files _ url _ files) as [[|d ds]|] eqn:Hfound;
    eexists _, _; (split; [reflexivity|]); (split; [reflexivity|]);
    (split; [reflexivity|]); intros l [= <-].
  split; [discriminate|].
  apply downloaded_files_spec in Hfound.
  split; (eapply Forall_impl; [exact Hfound|]); simpl;
    intros d' (Hu & Hs & Hk & Hv & Ht); [|exact Ht].
  repeat split; try assumption; try (apply Hv; assumption).
  destruct Hk as [Hk|Hk]; congruence.
Qed.

(** What [_extract_with_ytdlp] comes to once the engine has described the
    video [v]: nothing for a video without formats or when the selection
    raises, the download otherwise. *)
Lemma extract_with_ytdlp_first url st info v :
  ydl_extract_info (net_log st) url = Some (Some info) ->
  match info with
  | Single v' => Some v'
  | Playlist entries => List.head entries
  end = Some v ->
  let asked := {| temp_files := temp_files st;
                  net_log := net_log st ++ [OpExtractInfo url] |} in
  _extract_with_ytdlp cfg url st
  = match formats v with
    | [] => (Ok None, asked)
    | _ =>
        match select_format cfg (formats v) with
        | Ok (Some _) =>
            match ydl_fetch url v asked with
            | (Ok found, st') => (Ok found, st')
            | (Raise _, st') => (Ok None, st')
            end
        | _ => (Ok None, asked)
        end
    end.
Proof.
  intros Hinfo Hfirst asked.
  unfold _extract_with_ytdlp, try_except, bind at 1, issue; simpl.
  rewrite Hinfo, Hfirst. fold asked.
  destruct (formats v) as [|fmt rest]; [reflexivity|].
  unfold bind, lift.
  now destruct (select_format cfg (fmt :: rest)) as [[best|]|e].
Qed.

(** X12.  The Platform Extractor never raises and writes no temporary
    file of the Direct Fetcher.  What it returns, if anything, is a
    non-empty list of descriptors for the requested URL, each for a file
    with a supported extension, and each a video or an image (a video
    exactly when its extension is a video extension), never a document. *)
Theorem ytdlp_never_raises (url : string) (st : State) :
  exists found st',
    _extract_with_ytdlp cfg url st = (Ok found, st')
    /\ temp_files st' = temp_files st
    /\ (forall l, found = Some l ->
        l <> []
        /\ Forall (fun d =>
                     mi_url d = url
                     /\ is_supported_media (mi_file_path d) = Ok true
                     /\ mi_type d <> document
                     /\ (mi_type d = video <->
                         is_video (mi_file_path d) = Ok true)) l).
Proof.
  match goal with |- context [ Forall ?P _ ] => set (Pd := P) end.
  set (st1 := {| temp_files := temp_files st;
                 net_log := net_log st ++ [OpExtractInfo url] |}).
  assert (Hnone : exists found' st',
      (@Ok (option (list MediaInfo)) None, st1) = (Ok found', st')
      /\ temp_files st' = temp_files st
      /\ (forall l, found' = Some l -> l <> [] /\ Forall Pd l)).
  { exists None, st1. repeat split; discriminate. }
  destruct (ydl_extract_info (net_log st) url) as [[info|]|] eqn:Hinfo.
  2,3: unfold _extract_with_ytdlp, try_except, bind at 1, issue; simpl;
       rewrite Hinfo; exact Hnone.
  destruct (match info with
            | Single v => Some v
            | Playlist entries => List.head entries
            end) as [v|] eqn:Hfirst.
  2:{ unfold _extract_with_ytdlp, try_except, bind at 1, issue; simpl.
      rewrite Hinfo, Hfirst. exact Hnone. }
  rewrite (extract_with_ytdlp_first url st info v Hinfo Hfirst). cbv zeta.
  fold st1.
  destruct (formats v) as [|fmt rest]; [exact Hnone|].
  destruct (select_format cfg (fmt :: rest)) as [[best|]|e];
    [|exact Hnone..].
  destruct (ydl_fetch_spec url v st1) as (r & st' & -> & Hfiles & _ & Hshape).
  destruct r as [found|e].
  - exists found, st'. split; [reflexivity|]. split; [exact Hfiles|].
    intros l ->. destruct (Hshape l eq_refl) as (Hne & Hall & _). auto.
  - exists None, st'. split; [reflexivity|]. split; [exact Hfiles|]. discriminate.
Qed.


(** The loop of lines 183-187 started with a rendition [b] in hand, when
    every quality it compares is a number: it ends with [b] when nothing
    later in budget is strictly better, and otherwise with the first later
    rendition in budget that nothing before it matches and nothing after
    it beats. *)
Lemma best_in_budget_first b rest :
  within_budget cfg b = true ->
  is_Some (quality_of b) ->
  Forall (fun fmt => within_budget cfg fmt = true -> is_Some (quality_of fmt))
    rest ->
  (best_in_budget cfg rest (Some b) = Ok (Some b)
   /\ forall fmt, fmt ∈ rest -> within_budget cfg fmt = true ->
                  quality_value fmt <= quality_value b)
  \/ exists l1 best l2,
       rest = l1 ++ best :: l2
       /\ best_in_budget cfg rest (Some b) = Ok (Some best)
       /\ within_budget cfg best = true
       /\ quality_value b < quality_value best
       /\ (forall fmt, fmt ∈ l1 -> within_budget cfg fmt = true ->
           quality_value fmt < quality_value best)
       /\ (forall fmt, fmt ∈ l2 -> within_budget cfg fmt = true ->
           quality_value fmt <= quality_value best).
Proof.
  intros Hb Hqb Hall. revert b Hb Hqb.
  induction Hall as [|fmt rest Hfmtq _ IH]; intros b Hb Hqb.
  - left. split; [reflexivity|]. intros fmt Hin. now apply not_elem_of_nil in Hin.
  - simpl. destruct (within_budget cfg fmt) eqn:Hfmt.
    + specialize (Hfmtq eq_refl).
      assert (Hcmp : py_gt (quality_of fmt) (quality_of b)
                     = Ok (quality_value b <? quality_value fmt)).
      { unfold quality_value. destruct Hfmtq as [x ->], Hqb as [y ->].
        reflexivity. }
      rewrite Hcmp. cbn [res_bind].
      destruct (Z.ltb_spec (quality_value b) (quality_value fmt)) as [Hlt|Hge].
      * right. destruct (IH fmt Hfmt Hfmtq)
          as [[-> Hmax]|(l1 & best & l2 & -> & -> & Hw & Hq & Hl1 & Hl2)].
        -- exists [], fmt, rest. repeat split; auto.
           intros f Hin. now apply not_elem_of_nil in Hin.
        -- exists (fmt :: l1), best, l2. repeat split; auto; [lia|].
           intros f [->|Hin]%elem_of_cons Hf; auto.
      * destruct (IH b Hb Hqb)
          as [[-> Hmax]|(l1 & best & l2 & -> & -> & Hw & Hq & Hl1 & Hl2)].
        -- left. split; [reflexivity|].
           intros f [->|Hin]%elem_of_cons Hf; auto.
        -- right. exists (fmt :: l1), best, l2. repeat split; auto.
           intros f [->|Hin]%elem_of_cons Hf; [lia|auto].
    + destruct (IH b Hb Hqb)
        as [[-> Hmax]|(l1 & best & l2 & -> & -> & Hw & Hq & Hl1 & Hl2)].
      * left. split; [reflexivity|].
        intros f [->|Hin]%elem_of_cons Hf; [congruence|auto].
      * right. exists (fmt :: l1), best, l2. repeat split; auto.
        intros f [->|Hin]%elem_of_cons Hf; [congruence|auto].
Qed.

(** X14.  Ties go to the earlier rendition.  When some rendition is within
    the budget and the ['quality'] of every rendition within the budget is
    a number (or the key is absent, which counts as 0), the one settled on
    is the first of the list, among those within the budget, whose quality
    is the highest: every rendition within the budget before it has a
    strictly lower quality, every one after it a quality that is not
    higher. *)
Theorem select_format_first_best (offered : list Format) :
  Forall (fun fmt => within_budget cfg fmt = true -> is_Some (quality_of fmt))
    offered ->
  Exists (fun fmt => within_budget cfg fmt = true) offered ->
  exists l1 best l2,
    offered = l1 ++ best :: l2
    /\ select_format cfg offered = Ok (Some best)
    /\ within_budget cfg best = true
    /\ (forall fmt, fmt ∈ l1 -> within_budget cfg fmt = true ->
        quality_value fmt < quality_value best)
    /\ (forall fmt, fmt ∈ l2 -> within_budget cfg fmt = true ->
        quality_value fmt <= quality_value best).
Proof.
  intros Hall Hex.
  assert (Hloop : exists l1 best l2,
    offered = l1 ++ best :: l2
    /\ best_in_budget cfg offered None = Ok (Some best)
    /\ within_budget cfg best = true
    /\ (forall fmt, fmt ∈ l1 -> within_budget cfg fmt = true ->
        quality_value fmt < quality_value best)
    /\ (forall fmt, fmt ∈ l2 -> within_budget cfg fmt = true ->
        quality_value fmt <= quality_value best)).
  { induction Hall as [|fmt rest Hfmtq Hall IH]; [now inversion Hex|].
    simpl. destruct (within_budget cfg fmt) eqn:Hfmt.
    - destruct (best_in_budget_first fmt rest Hfmt (Hfmtq eq_refl) Hall)
        as [[-> Hmax]|(l1 & best & l2 & -> & -> & Hw & Hq & Hl1 & Hl2)].
      + exists [], fmt, rest. repeat split; auto.
        intros f Hin. now apply not_elem_of_nil in Hin.
      + exists (fmt :: l1), best, l2. repeat split; auto.
        intros f [->|Hin]%elem_of_cons Hf; auto.
    - destruct IH as (l1 & best & l2 & -> & -> & Hw & Hl1 & Hl2).
      { inversion Hex; subst; [congruence|assumption]. }
      exists (fmt :: l1), best, l2. repeat split; auto.
      intros f [->|Hin]%elem_of_cons Hf; [congruence|auto]. }
  destruct Hloop as (l1 & best & l2 & Hsplit & Hbest & Hrest).
  exists l1, best, l2. split; [exact Hsplit|].
  unfold select_format. rewrite Hbest. auto.
Qed.

End PlatformExtractorFurther.

(** ** The Page Scraper, further *)

Section PageScraperFurther.
Context `{PyLib} `{World} (cfg : Config.t).
Import Config Utils MediaExtractor.

Lemma add_candidate_keeps (P : string -> Prop) url key skip keep tag s s' :
  (forall u, keep u = Ok true -> P u) ->
  (forall u, u ∈ s -> P u) ->
  add_candidate url key skip keep tag s = Ok s' ->
  forall u, u ∈ s' -> P u.
Proof.
  intros Hkeep Hs. unfold add_candidate.
  destruct (get_attr (attrs tag) key) as [src|]; [|now intros [= <-]].
  destruct (Py.truthy src); [|now intros [= <-]].
  destruct (skip tag); [now intros [= <-]|].
  unfold res_bind. destruct (keep (urljoin url src)) as [[]|] eqn:Hk;
    [| now intros [= <-] | discriminate].
  intros [= <-] u [->%elem_of_singleton|Hin]%elem_of_union; auto.
Qed.

Lemma add_candidates_keep (P : string -> Prop) url key skip keep tags s s' :
  (forall u, keep u = Ok true -> P u) ->
  (forall u, u ∈ s -> P u) ->
  add_candidates url key skip keep tags s = Ok s' ->
  forall u, u ∈ s' -> P u.
Proof.
  intros Hkeep. revert s. induction tags as [|tag rest IH]; intros s Hs; simpl.
  - now intros [= <-].
  - unfold res_bind.
    destruct (add_candidate url key skip keep tag s) as [s1|] eqn:Hone;
      [|discriminate].
    apply IH. now apply (add_candidate_keeps P url key skip keep tag s s1).
Qed.

(** X15.  On a page that is not an image-search page, every candidate the
    scraper collects has a supported image or video extension. *)
Theorem candidates_are_supported (url : string) (soup : list Tag)
    (media_urls : gset string) :
  Py.contains "google.com" url && Py.contains "tbm=isch" url = false ->
  collect_media_urls url soup = Ok media_urls ->
  forall media_url, media_url ∈ media_urls ->
    is_supported_media media_url = Ok true.
Proof.
  intros Hplain. unfold collect_media_urls. rewrite Hplain.
  set (P := fun u => is_supported_media u = Ok true).
  assert (Himg : forall u,
    res_bind (is_supported_media u)
      (fun ok => Ok (ok && negb (Py.contains "data:image" u))) = Ok true -> P u).
  { intros u. unfold res_bind, P.
    destruct (is_supported_media u) as [[]|]; simpl; congruence. }
  assert (Hsup : forall u, is_supported_media u = Ok true -> P u) by auto.
  unfold res_bind at 1.
  destruct (add_candidates url "src" _ _ (find_all_with soup "img" "src") ∅)
    as [s1|] eqn:H1; [|discriminate].
  pose proof (add_candidates_keep P _ _ _ _ _ _ _ Himg
                ltac:(intros u Hu; now apply not_elem_of_empty in Hu) H1) as P1.
  unfold res_bind at 1.
  destruct (add_candidates url "data-src" _ _ _ s1) as [s2|] eqn:H2;
    [|discriminate].
  pose proof (add_candidates_keep P _ _ _ _ _ _ _ Hsup P1 H2) as P2.
  unfold res_bind at 1.
  destruct (add_candidates url "src" _ _ (find_all_with soup "video" "src") s2)
    as [s3|] eqn:H3; [|discriminate].
  pose proof (add_candidates_keep P _ _ _ _ _ _ _ Hsup P2 H3) as P3.
  unfold res_bind at 1.
  destruct (add_candidates url "src" _ _ (find_all_with soup "source" "src") s3)
    as [s4|] eqn:H4; [|discriminate].
  pose proof (add_candidates_keep P _ _ _ _ _ _ _ Hsup P3 H4) as P4.
  unfold res_bind at 1.
  destruct (add_candidates url "href" _ _ _ s4) as [s5|] eqn:H5; [|discriminate].
  pose proof (add_candidates_keep P _ _ _ _ _ _ _ Hsup P4 H5) as P5.
  destruct (find_og_image soup) as [og_image|].
  - intros Hog. exact (add_candidate_keeps P _ _ _ _ _ _ _ Hsup P5 Hog).
  - now intros [= <-].
Qed.

Lemma size_add (m : string) (s : gset string) :
  (size ({[ m ]} ∪ s) <= S (size s))%nat.
Proof.
  rewrite size_union_alt, size_singleton.
  pose proof (subseteq_size (s ∖ {[ m ]}) s
                (subseteq_difference_l s {[ m ]} s (reflexivity s))). lia.
Qed.

(** The URLs the image-search branch accepts. *)
Lemma add_matches_spec matches s :
  (size s <= 2)%nat ->
  (size (add_matches matches s) <= 3)%nat
  /\ forall u, u ∈ add_matches matches s ->
       u ∈ s
       \/ (u ∈ matches
           /\ Py.contains "googleusercontent.com" u
              || Py.contains "wikimedia.org" u = true).
Proof.
  revert s. induction matches as [|m rest IH]; intros s Hsize;
    cbn [add_matches].
  - split; [lia | auto].
  - destruct (_ || _) eqn:Htrusted.
    + pose proof (size_add m s) as Hadd.
      destruct (Nat.leb_spec 3 (size ({[ m ]} ∪ s))) as [Hfull|Hroom].
      * split; [lia|].
        intros u [->%elem_of_singleton|Hin]%elem_of_union; [right|left]; auto.
        split; [left | exact Htrusted].
      * destruct (IH ({[ m ]} ∪ s) ltac:(lia)) as [Hle Hfrom].
        split; [exact Hle|]. intros u Hu.
        destruct (Hfrom u Hu) as [[->%elem_of_singleton|Hin]%elem_of_union|[Hin Ht]].
        -- right. split; [left | exact Htrusted].
        -- now left.
        -- right. split; [now right | exact Ht].
    + destruct (IH s Hsize) as [Hle Hfrom]. split; [exact Hle|].
      intros u Hu. destruct (Hfrom u Hu) as [Hin|[Hin Ht]]; [now left|].
      right. split; [now right | exact Ht].
Qed.

(** X16.  The image-search branch takes at most three URLs from the
    scripts of the page, each of them a match of the pattern in some
    script and on one of the two trusted hosts. *)
Theorem scan_scripts_at_most_three (scripts : list Tag) :
  (size (scan_scripts scripts ∅) <= 3)%nat
  /\ forall u, u ∈ scan_scripts scripts ∅ ->
       (exists script text,
          script ∈ scripts /\ tag_string script = Some text
          /\ u ∈ findall_image_urls text)
       /\ Py.contains "googleusercontent.com" u
          || Py.contains "wikimedia.org" u = true.
Proof.
  assert (Hgen : forall s, (size s <= 2)%nat ->
    (size (scan_scripts scripts s) <= 3)%nat
    /\ forall u, u ∈ scan_scripts scripts s ->
         u ∈ s
         \/ ((exists script text,
                script ∈ scripts /\ tag_string script = Some text
                /\ u ∈ findall_image_urls text)
             /\ Py.contains "googleusercontent.com" u
                || Py.contains "wikimedia.org" u = true)).
  { induction scripts as [|script rest IH]; intros s Hsize;
      cbn [scan_scripts].
    - split; [lia | auto].
    - assert (Hskip :
        (size (scan_scripts rest s) <= 3)%nat
        /\ forall u, u ∈ scan_scripts rest s ->
             u ∈ s
             \/ ((exists script' text,
                    script' ∈ script :: rest /\ tag_string script' = Some text
                    /\ u ∈ findall_image_urls text)
                 /\ Py.contains "googleusercontent.com" u
                    || Py.contains "wikimedia.org" u = true)).
      { destruct (IH s Hsize) as [Hle Hfrom]. split; [exact Hle|].
        intros u Hu.
        destruct (Hfrom u Hu) as [?|[(sc & text & Hin & Hstr & Hm) Ht]];
          [now left|].
        right. split; [|exact Ht]. exists sc, text. split; [now right|auto]. }
      destruct (tag_string script) as [text|] eqn:Hstr; [|exact Hskip].
      destruct (Py.truthy text); [|exact Hskip].
      destruct (add_matches_spec (findall_image_urls text) s Hsize)
        as [Hle Hfrom].
      assert (Hhere : forall u, u ∈ add_matches (findall_image_urls text) s ->
        u ∈ s
        \/ ((exists script' text',
               script' ∈ script :: rest /\ tag_string script' = Some text'
               /\ u ∈ findall_image_urls text')
            /\ Py.contains "googleusercontent.com" u
               || Py.contains "wikimedia.org" u = true)).
      { intros u Hu. destruct (Hfrom u Hu) as [?|[Hm Ht]]; [now left|].
        right. split; [|exact Ht]. exists script, text.
        split; [now left|auto]. }
      destruct (Nat.leb_spec 3 (size (add_matches (findall_image_urls text) s)))
        as [Hfull|Hroom]; [now split|].
      destruct (IH (add_matches (findall_image_urls text) s) ltac:(lia))
        as [Hle' Hfrom'].
      split; [exact Hle'|]. intros u Hu.
      destruct (Hfrom' u Hu) as [Hin|[(sc & text' & Hin & Hs' & Hm) Ht]].
      + now apply Hhere.
      + right. split; [|exact Ht]. exists sc, text'. split; [now right|auto]. }
  destruct (Hgen ∅ ltac:(rewrite size_empty; lia)) as [Hle Hfrom].
  split; [exact Hle|]. intros u Hu.
  destruct (Hfrom u Hu) as [Hin|?]; [|assumption].
  now apply not_elem_of_empty in Hin.
Qed.

End PageScraperFurther.

(** ** The Delivery Tracker, further *)

Section TrackerFurther.
Context `{Telegram} (cfg : Config.t).
Import Config Tracker.

Lemma warn_one_frame now b kv :
  chat (warn_one cfg now b kv) = chat b
  /\ extractor (warn_one cfg now b kv) = extractor b.
Proof.
  destruct kv as [k e]. unfold warn_one.
  destruct (due_for_warning cfg now e); [|auto].
  destruct (create_task (tasks b) _); auto.
Qed.

Lemma delete_one_frame b k :
  chat (delete_one b k) = chat b /\ extractor (delete_one b k) = extractor b.
Proof.
  unfold delete_one. destruct (sent_messages b !! k); [|auto].
  destruct (create_task (tasks b) _); auto.
Qed.

Lemma fold_frame {A} (f : Bot -> A -> Bot) (l : list A) (b : Bot) :
  (forall b a, chat (f b a) = chat b /\ extractor (f b a) = extractor b) ->
  chat (List.fold_left f l b) = chat b
  /\ extractor (List.fold_left f l b) = extractor b.
Proof.
  intros Hf. revert b. induction l as [|a l IH]; intros b;
    cbn [List.fold_left]; [auto|].
  destruct (IH (f b a)) as [-> ->]. apply Hf.
Qed.

Lemma delete_loop_skips l b key :
  key ∉ l ->
  sent_messages (List.fold_left delete_one l b) !! key = sent_messages b !! key.
Proof.
  revert b. induction l as [|k l IH]; intros b Hnotin;
    cbn [List.fold_left]; [reflexivity|].
  apply not_elem_of_cons in Hnotin as [Hne Hnotin].
  rewrite (IH _ Hnotin). unfold delete_one.
  destruct (sent_messages b !! k); [|reflexivity].
  destruct (create_task (tasks b) _); [|reflexivity].
  simpl. now apply lookup_delete_ne.
Qed.

Lemma to_delete_expired now (m : gmap string Entry) key :
  key ∈ messages_to_delete cfg now m ->
  exists e, m !! key = Some e /\ expired cfg now e = true.
Proof.
  unfold messages_to_delete.
  intros ([k e] & -> & Hin%list_elem_of_In)%list_elem_of_fmap.
  apply List.filter_In in Hin as [Hin%list_elem_of_In Hexp].
  exists e. split; [now apply elem_of_map_to_list | exact Hexp].
Qed.

(** X17.  A sweep never removes a row before its expiry and never adds
    one: a row that has not expired is still tracked afterwards, unchanged
    but for its warned flag, and a key that is not tracked stays so.  The
    sweep makes no API call itself and leaves the extractor alone. *)
Theorem sweep_keeps_unexpired (b : Bot) (now : Z) (key : string) :
  (forall e, sent_messages b !! key = Some e ->
             expired cfg now e = false ->
             sent_messages (sweep cfg b now) !! key = Some e
             \/ sent_messages (sweep cfg b now) !! key = Some (set_warned e))
  /\ (sent_messages b !! key = None ->
      sent_messages (sweep cfg b now) !! key = None)
  /\ chat (sweep cfg b now) = chat b
  /\ extractor (sweep cfg b now) = extractor b.
Proof.
  unfold sweep.
  set (l := map_to_list (sent_messages b)).
  set (b1 := List.fold_left (warn_one cfg now) l b).
  pose proof (warn_loop_lookup cfg now l b key) as Hwarn.
  cbv zeta in Hwarn. fold b1 in Hwarn.
  split; [|split].
  - intros e Hlook Hexp.
    rewrite delete_loop_skips.
    + rewrite Hlook in Hwarn. destruct Hwarn as [->| ->]; auto.
    + intros (e' & He' & Hexp')%to_delete_expired. congruence.
  - intros Hnone.
    destruct (delete_loop_spec (messages_to_delete cfg now (sent_messages b)) b1 key)
      as [_ [->|]]; [|assumption].
    rewrite Hnone in Hwarn. now destruct Hwarn.
  - destruct (fold_frame delete_one
                (messages_to_delete cfg now (sent_messages b)) b1 delete_one_frame)
      as [-> ->].
    apply (fold_frame (warn_one cfg now) l b). intros. apply warn_one_frame.
Qed.

Lemma warn_loop_not_due now l b key :
  (forall e, (key, e) ∈ l -> due_for_warning cfg now e = false) ->
  warnings key (List.fold_left (warn_one cfg now) l b) = warnings key b.
Proof.
  revert b. induction l as [|[k e] l IH]; intros b Hall;
    cbn [List.fold_left]; [reflexivity|].
  rewrite IH by (intros e' He'; apply Hall; now right).
  destruct (decide (k = key)) as [->|Hne].
  - unfold warn_one. now rewrite (Hall e ltac:(left)).
  - now apply warn_one_other.
Qed.

(** X18.  A warning task is created only inside the warning window: when
    a sweep creates one for a row, the row was tracked with its flag unset
    and its elapsed time strictly between the warning threshold (expiry
    less 300 seconds) and the expiry threshold.  In particular a row that
    has already expired gets no warning. *)
Theorem warning_only_in_window (b : Bot) (now : Z) (key : string) :
  (warnings key (sweep cfg b now) = S (warnings key b) ->
   exists e,
     sent_messages b !! key = Some e
     /\ warned e = false
     /\ warn_threshold cfg < now - sent_time e < delete_threshold cfg)
  /\ (forall e, sent_messages b !! key = Some e -> expired cfg now e = true ->
      warnings key (sweep cfg b now) = warnings key b).
Proof.
  assert (Hsame : (forall e, sent_messages b !! key = Some e ->
                             due_for_warning cfg now e = false) ->
                  warnings key (sweep cfg b now) = warnings key b).
  { intros Hall. unfold sweep.
    destruct (delete_loop_spec (messages_to_delete cfg now (sent_messages b))
                (List.fold_left (warn_one cfg now) (map_to_list (sent_messages b)) b)
                key) as [-> _].
    apply warn_loop_not_due. intros e He%elem_of_map_to_list. now apply Hall. }
  split.
  - intros Hone.
    destruct (sent_messages b !! key) as [e|] eqn:Hlook.
    + destruct (due_for_warning cfg now e) eqn:Hdue.
      * exists e. split; [reflexivity|]. unfold due_for_warning in Hdue.
        apply andb_true_iff in Hdue as [[Hlo Hhi]%andb_true_iff Hw].
        apply negb_true_iff in Hw. apply Z.ltb_lt in Hlo, Hhi. auto.
      * rewrite Hsame in Hone; [lia|]. now intros e' [= <-].
    + rewrite Hsame in Hone; [lia | discriminate].
  - intros e Hlook Hexp. apply Hsame. intros e' He'.
    assert (e' = e) as -> by congruence.
    unfold expired in Hexp. unfold due_for_warning.
    apply Z.ltb_lt in Hexp.
    destruct (Z.ltb_spec (now - sent_time e) (delete_threshold cfg)); [lia|].
    now rewrite andb_false_r.
Qed.

(** X19.  Running a task never raises and makes exactly one API call: the
    warning message, or the delete request.  Whatever the platform
    answers, the task ends normally and changes nothing else. *)
Theorem task_never_raises (t : Task) (b : Bot) :
  run_task t b
  = (Ok tt,
     {| sent_messages := sent_messages b; tasks := tasks b;
        chat := chat b ++ [match t with
                           | WarningTask c filename =>
                               SendMessage c (DeletionWarning filename)
                           | DeleteTask c m => DeleteMessage c m
                           end];
        extractor := extractor b |}).
Proof.
  destruct t as [c filename|c m]; simpl;
    unfold _send_deletion_warning, _delete_message, try_except, bind, call, ret;
    destruct (api (chat b) _); reflexivity.
Qed.

End TrackerFurther.

(** ** Sending and message handling, further *)

Section SendingFurther.
Context `{PyLib} `{World} `{Telegram} (cfg : Config.t).
Import Config Utils Tracker TelegramMediaBot.

(** What is sent as a photo or as a video is within the limit. *)
Lemma delivery_kind_limits media_info :
  (delivery_kind cfg media_info = Ok image ->
   mi_size media_info <= MAX_PHOTO_SIZE cfg)
  /\ (delivery_kind cfg media_info = Ok video ->
      mi_size media_info <= MAX_VIDEO_SIZE cfg).
Proof.
  unfold delivery_kind.
  destruct (if MediaExtractor.any_endswith _ _ then _ else _);
    [destruct (Z.ltb_spec (MAX_PHOTO_SIZE cfg) (mi_size media_info))
    |destruct (Z.ltb_spec (MAX_VIDEO_SIZE cfg) (mi_size media_info))|];
    split; intros; try discriminate; lia.
Qed.

(** Closes one outcome of [_send_media_file]: a failure, and a success
    whose last call, made after the calls [ops0], was answered as [Hsent]
    says. *)
Ltac not_tracked :=
  split; [reflexivity|]; simpl; rewrite <- ?app_assoc; simpl;
  repeat split; simpl; try lia; discriminate.

Ltac tracked ops0 Hsent :=
  split; [reflexivity|]; simpl; rewrite <- ?app_assoc; simpl;
  repeat split; simpl; try lia; try discriminate;
  intros _; eexists _, ops0, _; split; [reflexivity|];
  split; [rewrite ?app_nil_r; exact Hsent | reflexivity].

(** X20.  [_send_media_file] never raises, and a row is tracked exactly
    when it answers [True]: then the table gained the row of the message
    that was sent -- the one the platform returned for the last call --
    under the key made of chat and message identifiers, with the flag
    unset; when it answers [False] the table is unchanged.  Tasks and
    extractor are never touched, and at most two API calls are made. *)
Theorem send_media_file_tracks (c : Z) (media_info : MediaInfo)
    (source_url : string) (b : Bot) :
  exists success b' ops,
    _send_media_file cfg c media_info source_url b = (Ok success, b')
    /\ tasks b' = tasks b
    /\ extractor b' = extractor b
    /\ chat b' = chat b ++ ops
    /\ (length ops <= 2)%nat
    /\ (success = false -> sent_messages b' = sent_messages b)
    /\ (success = true ->
        exists m ops0 op,
          ops = ops0 ++ [op]
          /\ api (chat b ++ ops0) op = Sent m
          /\ sent_messages b'
             = <[ pretty c +:+ "_" +:+ pretty m :=
                    {| chat_id := c; message_id := m;
                       sent_time := time (chat b');
                       entry_filename := mi_filename media_info;
                       warned := false |} ]> (sent_messages b)).
Proof.
  unfold _send_media_file, try_except, bind, lift, call, track, ret, raise.
  destruct (delivery_kind cfg media_info) as [[| |]|e]; simpl.
  - destruct (api (chat b) (SendPhoto c _)) as [m|[|]] eqn:Hphoto; simpl.
    + eexists true, _, [_]. tracked (@nil ChatOp) Hphoto.
    + destruct (api (chat b ++ _) (SendDocument c _ _)) as [m|ipf] eqn:Hdoc;
        simpl.
      * eexists true, _, [_; _].
        tracked [SendPhoto c (mi_file_path media_info)] Hdoc.
      * eexists false, _, [_; _]. not_tracked.
    + eexists false, _, [_]. not_tracked.
  - destruct (api (chat b) (SendVideo c _)) as [m|ipf] eqn:Hvideo; simpl.
    + eexists true, _, [_]. tracked (@nil ChatOp) Hvideo.
    + eexists false, _, [_]. not_tracked.
  - destruct (api (chat b) (SendDocument c _ _)) as [m|ipf] eqn:Hdoc; simpl.
    + eexists true, _, [_]. tracked (@nil ChatOp) Hdoc.
    + eexists false, _, [_]. not_tracked.
  - exists false, b, []. rewrite app_nil_r.
    repeat split; simpl; try lia; discriminate.
Qed.

Ltac not_sent :=
  let Hin := fresh "Hin" in
  intros Hin;
  repeat (apply elem_of_cons in Hin as [Hin|Hin]; [discriminate|]);
  now apply not_elem_of_nil in Hin.

(** Closes one outcome of [_send_media_file] for the size limits. *)
Ltac within_limits :=
  split; [rewrite <- ?app_assoc; reflexivity|];
  split; [first [intros _; assumption | not_sent]|];
  split; [first [intros _; assumption | not_sent]|];
  repeat (apply List.Forall_cons; [auto|]); apply List.Forall_nil.

(** X21.  Nothing over the limits is sent as a photo or as a video: a
    photo call is made only for a file within [MAX_PHOTO_SIZE], a video
    call only for one within [MAX_VIDEO_SIZE]; and every call made is a
    photo, video or document call for the descriptor's own file. *)
Theorem send_respects_limits (c : Z) (media_info : MediaInfo)
    (source_url : string) (b : Bot) :
  exists ops,
    chat (_send_media_file cfg c media_info source_url b).2 = chat b ++ ops
    /\ (SendPhoto c (mi_file_path media_info) ∈ ops ->
        mi_size media_info <= MAX_PHOTO_SIZE cfg)
    /\ (SendVideo c (mi_file_path media_info) ∈ ops ->
        mi_size media_info <= MAX_VIDEO_SIZE cfg)
    /\ Forall (fun op =>
                 op = SendPhoto c (mi_file_path media_info)
                 \/ op = SendVideo c (mi_file_path media_info)
                 \/ op = SendDocument c (mi_file_path media_info)
                           (mi_filename media_info)) ops.
Proof.
  destruct (delivery_kind_limits media_info) as [Hphoto Hvideo].
  unfold _send_media_file, try_except, bind, lift, call, track, ret, raise.
  destruct (delivery_kind cfg media_info) as [[| |]|e]; simpl.
  - specialize (Hphoto eq_refl).
    destruct (api (chat b) (SendPhoto c _)) as [m|[|]]; simpl.
    + eexists [_]. within_limits.
    + destruct (api (chat b ++ _) (SendDocument c _ _)) as [m|ipf]; simpl;
        eexists [_; _]; within_limits.
    + eexists [_]. within_limits.
  - specialize (Hvideo eq_refl).
    destruct (api (chat b) (SendVideo c _)) as [m|ipf]; simpl;
      eexists [_]; within_limits.
  - destruct (api (chat b) (SendDocument c _ _)) as [m|ipf]; simpl;
      eexists [_]; within_limits.
  - exists []. rewrite app_nil_r. within_limits.
Qed.

Lemma send_media_file_extractor c media_info source_url b :
  exists success b',
    _send_media_file cfg c media_info source_url b = (Ok success, b')
    /\ extractor b' = extractor b.
Proof.
  unfold _send_media_file, try_except, bind, lift, call, track, ret, raise.
  destruct (delivery_kind cfg media_info) as [[| |]|e]; simpl;
    [destruct (api (chat b) (SendPhoto c _)) as [m|[|]]; simpl;
       [|destruct (api (chat b ++ _) (SendDocument c _ _)); simpl|]
    |destruct (api (chat b) (SendVideo c _)); simpl
    |destruct (api (chat b) (SendDocument c _ _)); simpl
    |]; eexists _, _; split; reflexivity.
Qed.

Lemma filter_twice (p : string) (rest : list string)
    (files : list (string * string)) :
  List.filter (fun f => negb (List.existsb (String.eqb f.1) rest))
    (List.filter (fun f => negb (String.eqb f.1 p)) files)
  = List.filter (fun f => negb (List.existsb (String.eqb f.1) (p :: rest))) files.
Proof.
  induction files as [|f files IH]; simpl; [reflexivity|].
  destruct (String.eqb f.1 p); simpl; [exact IH|].
  destruct (List.existsb (String.eqb f.1) rest); simpl; now rewrite IH.
Qed.

Lemma filter_twice_rev (p : string) (rest : list string)
    (files : list (string * string)) :
  List.filter (fun f => negb (String.eqb f.1 p))
    (List.filter (fun f => negb (List.existsb (String.eqb f.1) rest)) files)
  = List.filter (fun f => negb (List.existsb (String.eqb f.1) (p :: rest))) files.
Proof.
  induction files as [|f files IH]; simpl; [reflexivity|].
  destruct (List.existsb (String.eqb f.1) rest); simpl;
    [rewrite orb_true_r; exact IH|].
  rewrite orb_false_r. destruct (String.eqb f.1 p); simpl; now rewrite IH.
Qed.

Lemma filter_sublist_of {A} (f : A -> bool) (l : list A) :
  List.filter f l `sublist_of` l.
Proof.
  induction l as [|x l IH]; simpl; [constructor|].
  destruct (f x); now constructor.
Qed.

Lemma filter_all {A} (f : A -> bool) (l : list A) :
  (forall x, x ∈ l -> f x = true) -> List.filter f l = l.
Proof.
  induction l as [|x l IH]; intros Hall; simpl; [reflexivity|].
  rewrite (Hall x ltac:(left)), IH; [reflexivity|].
  intros y Hy. apply Hall. now right.
Qed.

(** One clean-up: it never raises and touches the temporary files only.
    The file is removed -- with any other file of the same path -- unless
    [os.unlink] fails, in which case nothing changes. *)
Lemma cleanup_temp_file_spec p b :
  exists files',
    cleanup_temp_file p b
    = (Ok tt,
       {| sent_messages := sent_messages b; tasks := tasks b; chat := chat b;
          extractor := {| temp_files := files';
                          net_log := net_log (extractor b) |} |})
    /\ (files' = temp_files (extractor b)
        \/ files' = List.filter (fun f => negb (String.eqb f.1 p))
                      (temp_files (extractor b)))
    /\ (unlink_fails (temp_files (extractor b)) p = false ->
        files' = List.filter (fun f => negb (String.eqb f.1 p))
                   (temp_files (extractor b))).
Proof.
  unfold cleanup_temp_file, with_extractor.
  destruct (extractor b) as [files log]; simpl.
  destruct (List.existsb (fun f => String.eqb f.1 p) files) eqn:Hexists.
  - destruct (unlink_fails files p); eexists; (split; [reflexivity|]);
      split; auto; discriminate.
  - exists files. split; [reflexivity|].
    assert (Hsame : List.filter (fun f => negb (String.eqb f.1 p)) files = files).
    { apply filter_all. intros f Hf%list_elem_of_In.
      apply negb_true_iff. destruct (String.eqb f.1 p) eqn:Heq; [|reflexivity].
      rewrite <- Hexists. symmetry. apply List.existsb_exists. eauto. }
    rewrite Hsame. auto.
Qed.

(** X22.  Sending the files of a URL never raises, issues no network
    operation, and cleans up after every descriptor, sent or not.  Only
    temporary files of the descriptors can go: the others are kept, in
    their order.  The file of a descriptor is gone afterwards unless its
    [os.unlink] failed, which is logged and nothing more; when no unlink
    fails, exactly the files of the descriptors are gone.  The count
    returned grows by at most one per descriptor. *)
Theorem send_each_cleans_up (c : Z) (url : string)
    (media_files : list MediaInfo) (sent_count : nat) (b : Bot) :
  let others (f : string * string) :=
    negb (List.existsb (String.eqb f.1) (mi_file_path <$> media_files)) in
  exists count b',
    send_each cfg c url media_files sent_count b = (Ok count, b')
    /\ (sent_count <= count <= sent_count + length media_files)%nat
    /\ net_log (extractor b') = net_log (extractor b)
    /\ temp_files (extractor b') `sublist_of` temp_files (extractor b)
    /\ List.filter others (temp_files (extractor b'))
       = List.filter others (temp_files (extractor b))
    /\ (forall d content,
          d ∈ media_files ->
          (forall files, unlink_fails files (mi_file_path d) = false) ->
          (mi_file_path d, content) ∉ temp_files (extractor b'))
    /\ ((forall files p, unlink_fails files p = false) ->
        temp_files (extractor b')
        = List.filter others (temp_files (extractor b))).
Proof.
  cbv zeta. revert sent_count b.
  induction media_files as [|media_info rest IH]; intros sent_count b.
  - exists sent_count, b. simpl. unfold ret.
    assert (Hall : List.filter (fun _ : string * string => true)
                     (temp_files (extractor b)) = temp_files (extractor b)).
    { now apply filter_all. }
    split; [reflexivity|]. split; [lia|]. split; [reflexivity|].
    split; [reflexivity|]. split; [reflexivity|].
    split; [|now rewrite Hall].
    intros d content Hd. now apply not_elem_of_nil in Hd.
  - cbn [send_each]. unfold bind at 1.
    destruct (send_media_file_extractor c media_info url b)
      as (success & b1 & -> & Hext).
    unfold bind at 1.
    destruct (cleanup_temp_file_spec (mi_file_path media_info) b1)
      as (files1 & -> & Hcases & Hremoved).
    rewrite Hext in Hcases, Hremoved. rewrite Hext.
    match goal with |- context [ send_each cfg c url rest ?n ?s ] =>
      destruct (IH n s)
        as (count & b' & -> & Hcount & Hlog & Hsub & Hkeep & Hgone & Hexact)
    end.
    simpl in Hlog, Hsub, Hkeep, Hgone, Hexact.
    set (files := temp_files (extractor b)) in *.
    set (p := mi_file_path media_info) in *.
    assert (Hsub1 : files1 `sublist_of` files).
    { destruct Hcases as [->| ->]; [reflexivity | apply filter_sublist_of]. }
    assert (Hkeep1 : List.filter (fun f => negb (String.eqb f.1 p)) files1
                     = List.filter (fun f => negb (String.eqb f.1 p)) files).
    { destruct Hcases as [->| ->]; [reflexivity|].
      apply filter_all. intros f Hf%list_elem_of_In.
      now apply List.filter_In in Hf as [_ ?]. }
    exists count, b'. split; [reflexivity|].
    split; [destruct success; simpl; lia|]. split; [exact Hlog|].
    split; [now transitivity files1|].
    rewrite fmap_cons. fold p.
    split; [|split].
    + rewrite <- !filter_twice_rev, Hkeep, !filter_twice_rev.
      rewrite <- !filter_twice, Hkeep1. reflexivity.
    + intros d content [->|Hd]%elem_of_cons Hunlink.
      * intros Hin. apply (elem_of_sublist _ _ _ Hin) in Hsub.
        rewrite (Hremoved (Hunlink _)) in Hsub.
        apply list_elem_of_In, List.filter_In in Hsub as [_ Hne].
        simpl in Hne. fold p in Hne. now rewrite String.eqb_refl in Hne.
      * now apply Hgone.
    + intros Hunlink. rewrite (Hexact Hunlink), (Hremoved (Hunlink _ _)).
      apply filter_twice.
Qed.

(** The handler on an update without user or without message. *)
Lemma handle_without_message update b :
  effective_user update = None \/ message update = None ->
  handle_url_message cfg update b = (Raise AttributeError, b).
Proof.
  intros Hnone. unfold handle_url_message.
  destruct (effective_user update), (message update); try reflexivity.
  destruct Hnone; discriminate.
Qed.

(** X23.  The first reply tells what the message held: without a valid
    URL the handler makes exactly one call, the "no valid URLs" reply, and
    touches nothing else; with one, its first call announces the first
    valid URL.  This is for an update that has a user, a message and a
    chat; the handler raises [AttributeError] without any call when the
    user or the message is missing, or when the chat is missing and there
    is a URL to process. *)
Theorem first_reply (update : Update) (b : Bot) :
  (effective_user update = None \/ message update = None ->
   handle_url_message cfg update b = (Raise AttributeError, b))
  /\ (forall user_id text,
        effective_user update = Some user_id ->
        message update = Some text ->
        (_extract_urls (Py.strip text) = [] ->
         (handle_url_message cfg update b).2
         = {| sent_messages := sent_messages b; tasks := tasks b;
              chat := chat b ++ [ReplyText NoValidUrls];
              extractor := extractor b |})
        /\ (forall url rest,
              _extract_urls (Py.strip text) = url :: rest ->
              match effective_chat update with
              | Some c =>
                  exists ops,
                    chat (handle_url_message cfg update b).2
                    = chat b ++ ReplyText (Processing url) :: ops
              | None =>
                  handle_url_message cfg update b = (Raise AttributeError, b)
              end)).
Proof.
  split; [apply handle_without_message|].
  intros user_id text Hu Hm.
  rewrite (handle_text_message cfg update text b Hm), Hu. split.
  - intros ->. unfold bind, call. now destruct (api (chat b) _).
  - intros url rest ->. cbn [List.firstn process_each]. unfold bind at 1.
    destruct (effective_chat update) as [c|] eqn:Hc.
    + rewrite (process_url_present cfg update c user_id text url b Hc Hu Hm).
      destruct (process_in_chat_started cfg c url b) as (ops1 & Hops1 & _).
      destruct (process_in_chat cfg c url b) as [[[]|e] b1]; simpl in Hops1.
      * destruct (process_each_started cfg update (List.firstn 2 rest) b1)
          as (ops2 & Hops2 & _).
        exists (ops1 ++ ops2). rewrite Hops2, Hops1, <- app_assoc. reflexivity.
      * exists ops1. exact Hops1.
    + unfold bind.
      now rewrite (process_url_absent cfg update url b (or_introl Hc)).
Qed.

Lemma call_raises_telegram op b e :
  (call op b).1 = Raise e -> exists ipf, e = TelegramError ipf.
Proof.
  unfold call. destruct (api (chat b) op) as [m|ipf]; simpl; [discriminate|].
  intros [= <-]. eauto.
Qed.

Lemma process_in_chat_raises_telegram c url b e :
  (process_in_chat cfg c url b).1 = Raise e -> exists ipf, e = TelegramError ipf.
Proof.
  unfold process_in_chat. unfold bind at 1.
  pose proof (call_raises_telegram (ReplyText (Processing url)) b) as Hcall.
  destruct (call (ReplyText (Processing url)) b) as [[m|e0] b1]; simpl in *;
    [|intros [= <-]; now apply Hcall].
  match goal with |- (try_except ?m ?h ?s).1 = _ -> _ =>
    unfold try_except; destruct (m s) as [[[]|e1] b2] end; simpl;
    [discriminate|].
  unfold bind.
  pose proof (call_raises_telegram (EditText (ErrorProcessing url e1)) b2) as Hedit.
  destruct (call (EditText (ErrorProcessing url e1)) b2) as [[m'|e2] b3];
    simpl in *; [discriminate|].
  intros [= <-]. now apply Hedit.
Qed.

(** What [_process_url] can raise. *)
Lemma process_url_raises update url b e :
  (_process_url cfg update url b).1 = Raise e ->
  (exists ipf, e = TelegramError ipf)
  \/ (e = AttributeError
      /\ (effective_chat update = None \/ effective_user update = None
          \/ message update = None)).
Proof.
  destruct (update_cases update) as [(c & u & text & Hc & Hu & Hm)|Hnone].
  - rewrite (process_url_present cfg update c u text url b Hc Hu Hm).
    intros Hraise. left. now apply (process_in_chat_raises_telegram c url b).
  - rewrite (process_url_absent cfg update url b Hnone).
    intros [= <-]. now right.
Qed.

Lemma process_each_raises update urls b e :
  (process_each cfg update urls b).1 = Raise e ->
  (exists ipf, e = TelegramError ipf)
  \/ (e = AttributeError
      /\ (effective_chat update = None \/ effective_user update = None
          \/ message update = None)).
Proof.
  revert b. induction urls as [|u urls IH]; intros b; simpl; [discriminate|].
  unfold bind.
  pose proof (process_url_raises update u b) as Hone.
  destruct (_process_url cfg update u b) as [[[]|e0] b1]; simpl in *.
  - apply IH.
  - intros [= <-]. now apply Hone.
Qed.

Lemma handle_raises update b e :
  (handle_url_message cfg update b).1 = Raise e ->
  (exists ipf, e = TelegramError ipf)
  \/ (e = AttributeError
      /\ (effective_chat update = None \/ effective_user update = None
          \/ message update = None)).
Proof.
  assert (Hcases : (exists user_id text,
                      effective_user update = Some user_id
                      /\ message update = Some text)
                   \/ effective_user update = None \/ message update = None).
  { destruct (effective_user update), (message update); eauto. }
  destruct Hcases as [(user_id & text & Hu & Hm)|Hnone].
  - intros Hraise.
    rewrite (handle_text_message cfg update text b Hm), Hu in Hraise.
    destruct (List.firstn 3 (_extract_urls (Py.strip text))) as [|u rest].
    + left. unfold bind in Hraise.
      pose proof (call_raises_telegram (ReplyText NoValidUrls) b) as Hcall.
      destruct (call (ReplyText NoValidUrls) b) as [[m|e0] b1]; simpl in *;
        [discriminate|]. injection Hraise as <-. now apply Hcall.
    + now apply (process_each_raises update (u :: rest) b).
  - rewrite (handle_without_message update b Hnone). intros [= <-].
    right. split; [reflexivity|]. tauto.
Qed.

(** X24.  No failure of the extraction escapes the handler.  What
    [_process_url] or [handle_url_message] can raise is the chat
    platform's own exception, or the [AttributeError] of an update that
    lacks the chat, the user or the message (an edited message, a channel
    post).  When the extraction of a URL raises, the bot reports that
    error in the chat -- the announcement, then the error text -- and ends
    normally with the tracking table unchanged. *)
Theorem extraction_errors_are_reported (update : Update) (url : string)
    (b : Bot) :
  (forall e, (_process_url cfg update url b).1 = Raise e ->
     (exists ipf, e = TelegramError ipf)
     \/ (e = AttributeError
         /\ (effective_chat update = None \/ effective_user update = None
             \/ message update = None)))
  /\ (forall e, (handle_url_message cfg update b).1 = Raise e ->
       (exists ipf, e = TelegramError ipf)
       \/ (e = AttributeError
           /\ (effective_chat update = None \/ effective_user update = None
               \/ message update = None)))
  /\ (forall c user_id text m m' e st',
        effective_chat update = Some c ->
        effective_user update = Some user_id ->
        message update = Some text ->
        api (chat b) (ReplyText (Processing url)) = Sent m ->
        MediaExtractor.extract_media_from_url cfg url (extractor b)
        = (Raise e, st') ->
        api (chat b ++ [ReplyText (Processing url)])
            (EditText (ErrorProcessing url e)) = Sent m' ->
        _process_url cfg update url b
        = (Ok tt,
           {| sent_messages := sent_messages b; tasks := tasks b;
              chat := chat b ++ [ReplyText (Processing url);
                                 EditText (ErrorProcessing url e)];
              extractor := st' |})).
Proof.
  split; [|split].
  - intros e. apply process_url_raises.
  - intros e. apply handle_raises.
  - intros c user_id text m m' e st' Hc Hu Hm Hreply Hextract Hedit.
    rewrite (process_url_present cfg update c user_id text url b Hc Hu Hm).
    unfold process_in_chat, bind, try_except, call, with_extractor, ret. simpl.
    rewrite Hreply. simpl. rewrite Hextract. simpl. rewrite Hedit.
    rewrite <- app_assoc. reflexivity.
Qed.

End SendingFurther.

(** ** All or nothing *)

Section FailedDownload.
Context `{PyLib} `{World} (cfg : Config.t).
Import Config Utils MediaExtractor.

Lemma ext_of_total s r :
  (Py.startswith s "http" = true -> urlparse s = Some r) ->
  exists ext, ext_of s = Ok ext.
Proof.
  intros Hparse. unfold ext_of.
  destruct (Py.startswith s "http"); [|eauto].
  unfold get_file_extension_from_url, parse, res_bind.
  rewrite (Hparse eq_refl). eauto.
Qed.

Lemma classify_total content_type temp_path url filename r :
  Py.startswith temp_path "http" = false ->
  urlparse url = Some r ->
  exists k, classify content_type temp_path url filename = Ok k.
Proof.
  intros Htemp Hurl.
  destruct (ext_of_total temp_path r) as [e1 He1]; [congruence|].
  destruct (ext_of_total url r) as [e2 He2]; [auto|].
  unfold classify, is_image, is_video, or_else, res_bind.
  rewrite He1, He2.
  repeat match goal with |- context [ if ?b then _ else _ ] => destruct b end;
    eauto.
Qed.

(** X25.  What a failed direct download leaves behind.  Provided
    temporary file names are not taken for URLs (they do not start with
    ["http"]), a download that raises has written no file -- the state is
    the one right after the request -- with one exception: when writing
    the temporary file itself fails part-way, the exception is that of the
    file system and the file stays, holding the bytes written so far, a
    prefix of the body. *)
Theorem direct_fetch_failure_state (url : string) (st st' : State)
    (e : Error) :
  (forall files suffix, Py.startswith (temp_name files suffix) "http" = false) ->
  _download_direct_media cfg url st = (Raise e, st') ->
  st' = requested url st
  \/ exists response temp_path n,
       session_get (net_log st) url = Some response
       /\ temp_write (temp_files st) temp_path (body response)
          = TempWriteFails n
       /\ e = OSError
       /\ st' = written temp_path (Py.take n (body response))
                  (requested url st).
Proof.
  intros Htemp. rewrite download_direct_unfold.
  destruct (session_get (net_log st) url) as [response|];
    [|intros [= _ <-]; now left].
  destruct (before_body cfg response url) as [ext|];
    [|intros [= _ <-]; now left].
  destruct (read_body cfg (chunks response) (stream_fails response) "")
    as [content|] eqn:Hloop; [|intros [= _ <-]; now left].
  apply read_body_ok in Hloop as [Hcontent _].
  change (content = body response) in Hcontent. subst content.
  rewrite after_body_unfold. cbv zeta.
  destruct (looks_like_html _ (body response)); [intros [= _ <-]; now left|].
  destruct (get_filename_from_url url) as [filename|] eqn:Hname;
    [|intros [= _ <-]; now left].
  assert (Hparse : exists r, urlparse url = Some r).
  { unfold get_filename_from_url, parse, res_bind in Hname.
    destruct (urlparse url) as [r|]; [eauto|discriminate]. }
  destruct Hparse as [r Hparse].
  destruct (temp_write _ _ (body response)) as [| |n] eqn:Hwrite.
  - match goal with |- context [ classify ?ct ?p url filename ] =>
      destruct (classify_total ct p url filename r (Htemp _ _) Hparse)
        as [k ->] end.
    discriminate.
  - intros [= _ <-]. now left.
  - intros [= <- <-]. right. eexists response, _, n.
    split; [reflexivity|]. split; [exact Hwrite|]. split; reflexivity.
Qed.

End FailedDownload.

(** ** The URLs of a message *)

Lemma rev_app_append (s acc : string) :
  String.rev_app s acc = String.rev_app s "" +:+ acc.
Proof.
  revert acc. induction s as [|c s IH]; intros acc; simpl; [reflexivity|].
  rewrite (IH (String c acc)), (IH (String c "")), append_assoc. reflexivity.
Qed.

Lemma rev_cons (c : ascii) (m : string) :
  String.rev (String c m) = String.rev m +:+ String c "".
Proof. unfold String.rev. simpl. apply rev_app_append. Qed.

Lemma all_chars_app p a b :
  all_chars p (a +:+ b) = all_chars p a && all_chars p b.
Proof.
  induction a as [|c a IH]; [reflexivity|].
  rewrite append_cons. simpl. now rewrite IH, andb_assoc.
Qed.

Lemma all_chars_impl (p q : ascii -> bool) s :
  (forall c, p c = true -> q c = true) ->
  all_chars p s = true -> all_chars q s = true.
Proof.
  intros Hpq. induction s as [|c s IH]; simpl; [reflexivity|].
  intros [Hc Hs]%andb_true_iff. now rewrite (Hpq c Hc), IH.
Qed.

Lemma url_char_not_space c : Py.url_char c = true -> Py.is_space c = false.
Proof. destruct c as [[] [] [] [] [] [] [] []]; vm_compute; congruence. Qed.

Ltac peel s :=
  destruct s as [|[[] [] [] [] [] [] [] []] s]; try (simpl; discriminate).

Lemma url_starts_scheme s : Py.url_starts s = true -> has_http_scheme s = true.
Proof.
  peel s. peel s. peel s. peel s. peel s.
  - peel s. peel s. peel s. destruct s; [discriminate|]. reflexivity.
  - peel s. peel s. destruct s; [discriminate|]. reflexivity.
Qed.

Lemma prefix_cons (a b : ascii) (q s : string) :
  String.prefix (String a q) (String b s)
  = if ascii_dec a b then String.prefix q s else false.
Proof. reflexivity. Qed.

Lemma scheme_first_char c r :
  has_http_scheme (String c r) = true -> Py.url_char c = true.
Proof.
  unfold has_http_scheme. rewrite !prefix_cons.
  destruct (ascii_dec "h" c) as [<-|]; [reflexivity | discriminate].
Qed.

Lemma prefix_cut q a c r :
  String.prefix q (a +:+ String c r) = true ->
  all_chars Py.url_char q = true ->
  Py.url_char c = false ->
  String.prefix q a = true.
Proof.
  revert a. induction q as [|x q IH]; intros a Hpre Hq Hc; [apply prefix_empty|].
  simpl in Hq. apply andb_true_iff in Hq as [Hx Hq].
  destruct a as [|y a].
  - change ("" +:+ String c r) with (String c r) in Hpre. simpl in Hpre.
    destruct (ascii_dec x c); [congruence | discriminate].
  - rewrite append_cons in Hpre. simpl in *.
    destruct (ascii_dec x y); [now apply IH | discriminate].
Qed.

Lemma scheme_cut a c r :
  has_http_scheme (a +:+ String c r) = true ->
  Py.url_char c = false ->
  has_http_scheme a = true.
Proof.
  unfold has_http_scheme. intros [Hp|Hp]%orb_true_iff Hc.
  - now rewrite (prefix_cut "http://" a c r Hp eq_refl Hc).
  - rewrite (prefix_cut "https://" a c r Hp eq_refl Hc). apply orb_true_r.
Qed.

(** What the scan returns: matches that start with a scheme and consist
    of characters of the class. *)
Lemma findall_urls_from_good s cur :
  match cur with
  | Some m =>
      has_http_scheme (String.rev m +:+ s) = true
      /\ all_chars Py.url_char (String.rev m) = true
  | None => True
  end ->
  Forall (fun u => has_http_scheme u = true
                   /\ all_chars Py.url_char u = true)
         (Py.findall_urls_from cur s).
Proof.
  revert cur. induction s as [|c r IH]; intros [m|] Hcur;
    cbn [Py.findall_urls_from].
  - destruct Hcur as [Hs Hall]. rewrite append_empty_r in Hs.
    repeat constructor; assumption.
  - constructor.
  - destruct Hcur as [Hs Hall]. destruct (Py.url_char c) eqn:Hc.
    + apply IH. rewrite rev_cons, append_assoc. split; [exact Hs|].
      rewrite all_chars_app, Hall. simpl. now rewrite Hc.
    + constructor; [|now apply IH].
      split; [now apply (scheme_cut _ c r) | exact Hall].
  - destruct (Py.url_starts (String c r)) eqn:Hstart; [|now apply IH].
    apply IH. apply url_starts_scheme in Hstart.
    change (String.rev (String c "") +:+ r) with (String c r).
    split; [exact Hstart|]. simpl.
    now rewrite (scheme_first_char c r Hstart).
Qed.

Section UrlsOfAMessage.
Context `{PyLib}.
Import Utils TelegramMediaBot.

(** X26.  Every URL taken from a message starts with [http://] or
    [https://], consists only of characters of the pattern's class -- so
    it holds no white space -- and passes [validate_url]. *)
Theorem extracted_urls_shape (text url : string) :
  url ∈ _extract_urls text ->
  has_http_scheme url = true
  /\ all_chars Py.url_char url = true
  /\ all_chars (fun c => negb (Py.is_space c)) url = true
  /\ validate_url url = true.
Proof.
  unfold _extract_urls. intros Hin%list_elem_of_In.
  apply List.filter_In in Hin as [Hin%list_elem_of_In Hvalid].
  pose proof (findall_urls_from_good text None I) as Hgood.
  apply (proj1 (Forall_forall _ _) Hgood) in Hin as [Hscheme Hclass].
  repeat split; try assumption.
  apply (all_chars_impl Py.url_char); [|exact Hclass].
  intros c Hc. now rewrite (url_char_not_space c Hc).
Qed.

End UrlsOfAMessage.

(** ** The keys of the tracking table *)

Lemma pretty_N_char_plain (x : N) : not_underscore (pretty_N_char x) = true.
Proof. unfold pretty_N_char. repeat case_match; reflexivity. Qed.

Lemma pretty_N_go_plain (x : N) (s : string) :
  all_chars not_underscore s = true ->
  all_chars not_underscore (pretty_N_go x s) = true.
Proof.
  revert s. induction (N.lt_wf_0 x) as [x _ IH]; intros s Hs.
  destruct (decide (x = 0)%N) as [->|Hx]; [exact Hs|].
  rewrite pretty_N_go_step by lia. apply IH.
  - apply N.div_lt; lia.
  - simpl. now rewrite pretty_N_char_plain, Hs.
Qed.

(** The decimal form of an integer holds no underscore. *)
Lemma pretty_Z_plain (x : Z) : all_chars not_underscore (pretty x) = true.
Proof.
  assert (HN : forall n : N, all_chars not_underscore (pretty n) = true).
  { intros n. unfold pretty, pretty_N.
    destruct (decide (n = 0)%N); [reflexivity|]. now apply pretty_N_go_plain. }
  destruct x as [|p|p]; unfold pretty, pretty_Z; [reflexivity|apply HN|].
  rewrite all_chars_app. simpl. apply HN.
Qed.

Lemma split_at_underscore (a a' b b' : string) :
  all_chars not_underscore a = true ->
  all_chars not_underscore a' = true ->
  a +:+ String "_" b = a' +:+ String "_" b' ->
  a = a' /\ b = b'.
Proof.
  revert a'. induction a as [|c a IH]; intros [|c' a'] Ha Ha' Heq.
  - now injection Heq.
  - rewrite append_cons in Heq. injection Heq as <- _.
    simpl in Ha'. discriminate.
  - rewrite append_cons in Heq. injection Heq as -> _.
    simpl in Ha. discriminate.
  - rewrite !append_cons in Heq. injection Heq as -> Heq.
    simpl in Ha, Ha'.
    apply andb_true_iff in Ha as [_ Ha]. apply andb_true_iff in Ha' as [_ Ha'].
    destruct (IH a' Ha Ha' Heq) as [-> ->]. auto.
Qed.

Section TrackingKeys.
Context `{Telegram}.
Import TelegramMediaBot.

(** X27.  The key of a row identifies its message: different pairs of
    chat and message identifiers never get the same key.  So tracking a
    message adds its row under its key -- flag unset, sent time the
    clock's -- and leaves the row of every other message as it was. *)
Theorem track_round_trip (c m : Z) (filename : string) (b : Bot) :
  (forall c' m',
     pretty c' +:+ "_" +:+ pretty m' = pretty c +:+ "_" +:+ pretty m ->
     c' = c /\ m' = m)
  /\ sent_messages (track c m filename b).2 !! (pretty c +:+ "_" +:+ pretty m)
     = Some {| chat_id := c; message_id := m; sent_time := time (chat b);
               entry_filename := filename; warned := false |}
  /\ (forall c' m',
        (c', m') <> (c, m) ->
        sent_messages (track c m filename b).2
          !! (pretty c' +:+ "_" +:+ pretty m')
        = sent_messages b !! (pretty c' +:+ "_" +:+ pretty m')).
Proof.
  assert (Hinj : forall c' m',
    pretty c' +:+ "_" +:+ pretty m' = pretty c +:+ "_" +:+ pretty m ->
    c' = c /\ m' = m).
  { intros c' m' Heq.
    apply split_at_underscore in Heq as [Hc Hm]; try apply pretty_Z_plain.
    split; now apply (inj pretty). }
  split; [exact Hinj|]. unfold track; simpl. split.
  - apply lookup_insert_eq.
  - intros c' m' Hne. apply lookup_insert_ne. intros Heq.
    symmetry in Heq. apply Hinj in Heq as [-> ->]. congruence.
Qed.

End TrackingKeys.

(* ===================================================================== *)
(** * Further worked examples *)
(* ===================================================================== *)

Module FurtherExamples.
Import Config Utils MediaExtractor Tracker TelegramMediaBot Scenario.

(** A video file is supported media, and a video only. *)
Lemma supported_is_image_or_video_witness :
  (@is_image Ref.lib "/tmp/dir/Clip.mp4" = Ok true
   /\ @is_video Ref.lib "/tmp/dir/Clip.mp4" = Ok false)
  \/ (@is_image Ref.lib "/tmp/dir/Clip.mp4" = Ok false
      /\ @is_video Ref.lib "/tmp/dir/Clip.mp4" = Ok true).
Proof.
  destruct (@supported_is_image_or_video Ref.lib "/tmp/dir/Clip.mp4")
    as ([Hsup _] & _ & _).
  apply Hsup. reflexivity.
Defined.

(** An upper-case extension is recognised. *)
Lemma extension_ignores_case_witness :
  @is_video Ref.lib "/tmp/dir/CLIP.MP4" = Ok true.
Proof.
  destruct (@extension_ignores_case Ref.lib "/tmp/dir/CLIP.MP4" eq_refl)
    as (_ & Hvideo & _).
  rewrite <- Hvideo. reflexivity.
Defined.

(** The name of a nested path holds no slash. *)
Lemma filename_is_safe_witness :
  "a.jpg" <> ""
  /\ ("a.jpg" = "media_" +:+ Py.take 8 (Ref.md5_hexdigest "https://x.test/pics/a.jpg")
      \/ (Py.contains "." "a.jpg" = true /\ Py.contains "/" "a.jpg" = false)).
Proof.
  destruct (@filename_is_safe Ref.lib "https://x.test/pics/a.jpg" "a.jpg"
              eq_refl) as [Hname [Hhash|(Hdot & Hslash & _)]]; auto.
Defined.

(** A header with a parameter. *)
Lemma content_type_parameters_ignored_witness :
  @get_file_extension_from_content_type Ref.lib (Some "image/jpeg;q=1")
  = Some ".jpg".
Proof.
  destruct (@content_type_parameters_ignored Ref.lib "image/jpeg" "q=1"
              ltac:(discriminate) eq_refl) as (Hsame & _ & _).
  exact (eq_trans Hsame eq_refl).
Defined.

(** Scenario A again: the file holds the six bytes received. *)
Lemma direct_fetch_success_witness :
  exists d st',
    @_download_direct_media Ref.lib (serve jpeg6) config_py
      "https://x.test/a.jpg" Ref.start = (Ok [d], st')
    /\ mi_size d = 6
    /\ temp_files st' = [(mi_file_path d, "abcdef")].
Proof.
  destruct (@_download_direct_media Ref.lib (serve jpeg6) config_py
              "https://x.test/a.jpg" Ref.start) as [[ds|e] st'] eqn:Hrun;
    [|vm_compute in Hrun; discriminate].
  destruct (@direct_fetch_success Ref.lib (serve jpeg6) config_py
              "https://x.test/a.jpg" Ref.start st' ds Hrun)
    as (response & d & Hget & _ & _ & _ & -> & _ & Hsize & _ & ->).
  injection Hget as <-. exists d. eexists. split; [reflexivity|].
  split; [exact Hsize | reflexivity].
Defined.

(** A 404 answer. *)
Lemma direct_fetch_error_status_witness :
  @_download_direct_media Ref.lib (serve html_404) config_py
    "https://x.test/missing.jpg" Ref.start
  = (Raise (HTTPError 404), requested "https://x.test/missing.jpg" Ref.start).
Proof.
  apply (@direct_fetch_error_status Ref.lib (serve html_404) config_py
           "https://x.test/missing.jpg" Ref.start html_404 eq_refl).
  simpl. lia.
Defined.

(** A declared length that is no number, and one above the ceiling. *)
Lemma direct_fetch_declared_length_witness :
  @_download_direct_media Ref.lib (serve malformed_length) config_py
    "https://x.test/a.jpg" Ref.start
  = (Raise (InvalidLiteral "abc"), requested "https://x.test/a.jpg" Ref.start)
  /\ @_download_direct_media Ref.lib (serve declared_big) config_py
       "https://x.test/a.jpg" Ref.start
     = (Raise (FileTooLarge 9999999999),
        requested "https://x.test/a.jpg" Ref.start).
Proof.
  split.
  - destruct (@direct_fetch_declared_length Ref.lib (serve malformed_length)
                config_py "https://x.test/a.jpg" Ref.start malformed_length
                "abc" eq_refl eq_refl eq_refl ltac:(discriminate))
      as [Hbad _].
    apply Hbad. reflexivity.
  - destruct (@direct_fetch_declared_length Ref.lib (serve declared_big)
                config_py "https://x.test/a.jpg" Ref.start declared_big
                "9999999999" eq_refl eq_refl eq_refl ltac:(discriminate))
      as [_ Hbig].
    apply Hbig; reflexivity.
Defined.

(** A PNG served for a URL that ends in [.mp4]. *)
Lemma image_content_type_wins_witness :
  exists d suffix st',
    @_download_direct_media Ref.lib (serve png3) config_py
      "https://x.test/clip.mp4" Ref.start = (Ok [d], st')
    /\ mi_type d = image
    /\ suffix ∈ [".jpg"; ".png"; ".gif"; ".webp"]
    /\ mi_file_path d = @temp_name (serve png3) [] suffix.
Proof.
  destruct (@_download_direct_media Ref.lib (serve png3) config_py
              "https://x.test/clip.mp4" Ref.start) as [[ds|e] st'] eqn:Hrun;
    [|vm_compute in Hrun; discriminate].
  destruct (@image_content_type_wins Ref.lib (serve png3) config_py
              "https://x.test/clip.mp4" Ref.start st' png3 ds
              eq_refl eq_refl Hrun)
    as (d & suffix & -> & Hkind & Hin & Hpath).
  exists d, suffix, st'. auto.
Defined.

(** The probe of an unreachable server. *)
Lemma check_content_type_total_witness :
  @_check_content_type offline "https://x.test/a" Ref.start
  = (Ok false, {| temp_files := []; net_log := [OpHead "https://x.test/a"] |}).
Proof.
  destruct (@check_content_type_total offline "https://x.test/a" Ref.start)
    as (b & Hrun & Hfalse).
  rewrite Hrun, (Hfalse eq_refl). reflexivity.
Defined.

(** No probe for a URL that ends in [.jpg]. *)
Lemma supported_extension_is_direct_witness :
  @_is_direct_media_url Ref.lib offline "https://x.test/a.jpg" Ref.start
  = (Ok true, Ref.start).
Proof.
  destruct (@supported_extension_is_direct Ref.lib offline config_py
              "https://x.test/a.jpg" Ref.start eq_refl eq_refl)
    as [Hdirect _].
  exact Hdirect.
Defined.

(** Scenario A returns one descriptor. *)
Lemma extract_never_empty_witness :
  exists media_files st',
    @extract_media_from_url Ref.lib (serve jpeg6) config_py
      "https://x.test/a.jpg" Ref.start = (Ok media_files, st')
    /\ media_files <> [].
Proof.
  destruct (@extract_media_from_url Ref.lib (serve jpeg6) config_py
              "https://x.test/a.jpg" Ref.start) as [[ds|e] st'] eqn:Hrun;
    [|vm_compute in Hrun; discriminate].
  destruct (@extract_never_empty Ref.lib (serve jpeg6) config_py
              "https://x.test/a.jpg" Ref.start st' ds Hrun) as [Hne _].
  exists ds, st'. auto.
Defined.

(** The engine's directory: the video is kept, the rest is not. *)
Lemma ytdlp_never_raises_witness :
  exists found st',
    @_extract_with_ytdlp Ref.lib engine config_py "https://v.test/w" Ref.start
    = (Ok found, st')
    /\ temp_files st' = [].
Proof.
  destruct (@ytdlp_never_raises Ref.lib engine config_py "https://v.test/w"
              Ref.start) as (found & st' & Hrun & Hfiles & _).
  exists found, st'. auto.
Defined.


(** Two renditions of the same quality. *)
Lemma select_format_first_best_witness :
  exists l1 best l2,
    [big1; tie1; tie2] = l1 ++ best :: l2
    /\ select_format config_py [big1; tie1; tie2] = Ok (Some best)
    /\ within_budget config_py best = true.
Proof.
  destruct (select_format_first_best config_py [big1; tie1; tie2])
    as (l1 & best & l2 & Hsplit & Hsel & Hw & _).
  { repeat constructor; intros _; eexists; reflexivity. }
  { right. left. reflexivity. }
  exists l1, best, l2. auto.
Defined.

(** The candidate of scenario B. *)
Lemma candidates_are_supported_witness :
  @is_supported_media Ref.lib "https://x.test/c.png" = Ok true.
Proof.
  apply (@candidates_are_supported Ref.lib page_b "https://x.test/page.html"
           (@BeautifulSoup page_b "<html>") {[ "https://x.test/c.png" ]}).
  - reflexivity.
  - vm_compute. reflexivity.
  - apply elem_of_singleton. reflexivity.
Defined.

(** Four trusted URLs in the script, three taken. *)
Lemma scan_scripts_at_most_three_witness :
  (size (@scan_scripts image_search one_script ∅) <= 3)%nat.
Proof.
  destruct (@scan_scripts_at_most_three image_search one_script) as [Hle _].
  exact Hle.
Defined.

(** The row of the scenario, swept 100 seconds after it was sent. *)
Lemma sweep_keeps_unexpired_witness :
  sent_messages (@sweep (Ref.telegram true 0) config_py tracking 100) !! "7_1"
  = Some row
  \/ sent_messages (@sweep (Ref.telegram true 0) config_py tracking 100) !! "7_1"
     = Some (set_warned row).
Proof.
  destruct (@sweep_keeps_unexpired (Ref.telegram true 0) config_py tracking
              100 "7_1") as (Hkeep & _ & _ & _).
  apply Hkeep; vm_compute; reflexivity.
Defined.

(** The same row swept after its expiry: no warning. *)
Lemma warning_only_in_window_witness :
  warnings "7_1" (@sweep (Ref.telegram true 0) config_py tracking 4000)
  = warnings "7_1" tracking.
Proof.
  destruct (@warning_only_in_window (Ref.telegram true 0) config_py tracking
              4000 "7_1") as [_ Hlate].
  apply (Hlate row); vm_compute; reflexivity.
Defined.

(** A delete task whose request is refused. *)
Lemma task_never_raises_witness :
  (@run_task (Ref.telegram true 0) (DeleteTask 7 1) tracking).1 = Ok tt.
Proof.
  rewrite (@task_never_raises (Ref.telegram true 0) (DeleteTask 7 1) tracking).
  reflexivity.
Defined.

(** Sending the photo of the scenario. *)
Lemma send_media_file_tracks_witness :
  exists success b',
    @_send_media_file (Ref.telegram true 0) config_py 7 photo
      "https://x.test/a.jpg" with_files = (Ok success, b')
    /\ tasks b' = [] /\ extractor b' = extractor with_files.
Proof.
  destruct (@send_media_file_tracks (Ref.telegram true 0) config_py 7 photo
              "https://x.test/a.jpg" with_files)
    as (success & b' & ops & Hrun & Htasks & Hext & _).
  exists success, b'. auto.
Defined.

(** With a photo limit of a few bytes the photo is not sent as a photo. *)
Lemma send_respects_limits_witness :
  exists ops,
    chat (@_send_media_file (Ref.telegram true 0) tiny 7 photo
            "https://x.test/a.jpg" with_files).2 = ops
    /\ SendPhoto 7 "/tmp/tmp0.jpg" ∉ ops.
Proof.
  destruct (@send_respects_limits (Ref.telegram true 0) tiny 7 photo
              "https://x.test/a.jpg" with_files)
    as (ops & Hchat & Hphoto & _).
  exists ops. split; [exact Hchat|].
  intros Hin. specialize (Hphoto Hin). vm_compute in Hphoto. congruence.
Defined.

(** After sending, the photo's file is gone and the other file is kept;
    on a file system where nothing can be removed both files stay. *)
Lemma send_each_cleans_up_witness :
  (exists count b',
     @send_each offline (Ref.telegram true 0) config_py 7
       "https://x.test/a.jpg" [photo] 0 with_files = (Ok count, b')
     /\ temp_files (extractor b') = [("/tmp/other.bin", "xyz")])
  /\ (exists count b',
        @send_each read_only (Ref.telegram true 0) config_py 7
          "https://x.test/a.jpg" [photo] 0 with_files = (Ok count, b')
        /\ ("/tmp/other.bin", "xyz") ∈ temp_files (extractor b')).
Proof.
  split.
  - destruct (@send_each_cleans_up offline (Ref.telegram true 0) config_py 7
                "https://x.test/a.jpg" [photo] 0 with_files)
      as (count & b' & Hrun & _ & _ & _ & _ & _ & Hexact).
    exists count, b'. split; [exact Hrun|].
    rewrite (Hexact (fun _ _ => eq_refl)). reflexivity.
  - destruct (@send_each_cleans_up read_only (Ref.telegram true 0) config_py 7
                "https://x.test/a.jpg" [photo] 0 with_files)
      as (count & b' & Hrun & _ & _ & _ & Hkeep & _ & _).
    exists count, b'. split; [exact Hrun|].
    assert (Hin : ("/tmp/other.bin", "xyz")
                  ∈ List.filter
                      (fun f : string * string =>
                         negb (List.existsb (String.eqb f.1)
                                 (mi_file_path <$> [photo])))
                      (temp_files (extractor b'))).
    { rewrite Hkeep. vm_compute. left. }
    apply list_elem_of_In, List.filter_In in Hin as [Hin _].
    now apply list_elem_of_In.
Defined.

(** A message without a URL, and the update for an edited message. *)
Lemma first_reply_witness :
  chat (@handle_url_message Ref.lib offline (Ref.telegram true 0) config_py
          (text_update "hello there") (Ref.bot ∅)).2
  = [ReplyText NoValidUrls]
  /\ @handle_url_message Ref.lib offline (Ref.telegram true 0) config_py
       edited_update (Ref.bot ∅)
     = (Raise AttributeError, Ref.bot ∅).
Proof.
  split.
  - destruct (@first_reply Ref.lib offline (Ref.telegram true 0) config_py
                (text_update "hello there") (Ref.bot ∅)) as [_ Htext].
    destruct (Htext 42 "hello there" eq_refl eq_refl) as [Hnone _].
    rewrite (Hnone eq_refl). reflexivity.
  - destruct (@first_reply Ref.lib offline (Ref.telegram true 0) config_py
                edited_update (Ref.bot ∅)) as [Hedited _].
    apply Hedited. right. reflexivity.
Defined.

(** An unreachable server: the error is told in the chat. *)
Lemma extraction_errors_are_reported_witness :
  chat (@_process_url Ref.lib offline (Ref.telegram true 0) config_py
          (text_update "https://x.test/a.jpg") "https://x.test/a.jpg"
          (Ref.bot ∅)).2
  = [ReplyText (Processing "https://x.test/a.jpg");
     EditText (ErrorProcessing "https://x.test/a.jpg" RequestException)].
Proof.
  destruct (@extraction_errors_are_reported Ref.lib offline
              (Ref.telegram true 0) config_py
              (text_update "https://x.test/a.jpg") "https://x.test/a.jpg"
              (Ref.bot ∅)) as (_ & _ & Hreport).
  rewrite (Hreport 7 42 "https://x.test/a.jpg" 0 1 RequestException
             (requested "https://x.test/a.jpg" Ref.start)
             eq_refl eq_refl eq_refl
             eq_refl ltac:(vm_compute; reflexivity) eq_refl).
  reflexivity.
Defined.

(** A login page: rejected, and nothing written.  A disk that is full
    after two bytes: the file stays with these two bytes. *)
Lemma direct_fetch_failure_state_witness :
  (@_download_direct_media Ref.lib (serve html_ok) config_py
     "https://x.test/a.jpg" Ref.start).2
  = requested "https://x.test/a.jpg" Ref.start
  /\ exists temp_path,
       @_download_direct_media Ref.lib disk_full config_py
         "https://x.test/a.jpg" Ref.start
       = (Raise OSError,
          written temp_path "ab" (requested "https://x.test/a.jpg" Ref.start)).
Proof.
  split.
  - destruct (@_download_direct_media Ref.lib (serve html_ok) config_py
                "https://x.test/a.jpg" Ref.start) as [[ds|e] st'] eqn:Hrun;
      [vm_compute in Hrun; discriminate|].
    destruct (@direct_fetch_failure_state Ref.lib (serve html_ok) config_py
                "https://x.test/a.jpg" Ref.start st' e
                (fun _ _ => eq_refl) Hrun)
      as [Hclean|(response & temp_path & n & _ & Hwrite & _)];
      [exact Hclean | discriminate].
  - destruct (@_download_direct_media Ref.lib disk_full config_py
                "https://x.test/a.jpg" Ref.start) as [[ds|e] st'] eqn:Hrun;
      [vm_compute in Hrun; discriminate|].
    destruct (@direct_fetch_failure_state Ref.lib disk_full config_py
                "https://x.test/a.jpg" Ref.start st' e
                (fun _ _ => eq_refl) Hrun)
      as [Hclean|(response & temp_path & n & Hget & Hwrite & -> & ->)].
    + exfalso. rewrite Hclean in Hrun. vm_compute in Hrun. congruence.
    + injection Hget as <-. injection Hwrite as <-.
      exists temp_path. reflexivity.
Defined.

(** The first URL of the message with four URLs. *)
Lemma extracted_urls_shape_witness :
  has_http_scheme "http://a.test/1.jpg" = true
  /\ all_chars Py.url_char "http://a.test/1.jpg" = true.
Proof.
  destruct (@extracted_urls_shape Ref.lib four_urls "http://a.test/1.jpg")
    as (Hscheme & Hclass & _).
  { apply list_elem_of_In. vm_compute. left. reflexivity. }
  auto.
Defined.

(** Two messages of one chat have different keys. *)
Lemma track_round_trip_witness :
  sent_messages (@track (Ref.telegram true 5) 7 2 "b.jpg" tracking).2 !! "7_1"
  = Some row.
Proof.
  destruct (@track_round_trip (Ref.telegram true 5) 7 2 "b.jpg" tracking)
    as (_ & _ & Hother).
  exact (eq_trans (Hother 7 1 ltac:(congruence)) eq_refl).
Defined.

End FurtherExamples.
